(** * m913-ctl: the protocol codec and the action table

    A shallow embedding of [protocol.cpp] (checksum, templates, the four
    packet builders) and of [data.cpp] (action tables, [parse_action],
    [parse_multikey]), followed by the properties of the packet protocol.

    Conventions.
    - A [uint8_t] / [uint16_t] / [uint32_t] is a [Z]; every narrowing the
      source performs ([static_cast<uint8_t>], [& 0xFF], assignment to a
      narrower variable) is written out with [u8] / [u16].
    - A [Packet] ([std::array<uint8_t, 17>]) is a [list Z]; reads are
      [p !!! i], writes are [<[i := v]> p].  [std::array::operator[]] is
      unchecked: where the source writes at an index computed at run time
      the model uses [store], which yields [None] (undefined behaviour)
      outside the array.
    - [std::map<uint8_t, _>] is a [gmap Z _], traversed in ascending key
      order as [std::map] iteration does.
    - The file-level [g_multikey_actions] is threaded explicitly: the
      button builder takes the registry and returns the new one. *)

From Stdlib Require Import ZArith Lia Strings.String Strings.Ascii.
From stdpp Require Import base option list gmap.

Open Scope Z_scope.

(** ** Machine integers *)

Definition u8 (z : Z) : Z := Z.land z 0xFF.
Definition u16 (z : Z) : Z := Z.land z 0xFFFF.

(** ** Packets ([protocol.h]) *)

Abbreviation Packet := (list Z).
Abbreviation ActionBytes := (list Z).

Definition M913_PACKET_SIZE : nat := 17.

(** [Packet p = {}] *)
Definition zero_packet : Packet := replicate M913_PACKET_SIZE 0.

(** A write through [operator[]] at a run-time index. *)
Definition store (p : Packet) (i : nat) (v : Z) : option Packet :=
  if decide (i < M913_PACKET_SIZE)%nat then Some (<[i := v]> p) else None.

(** ** Checksum *)

Definition compute_checksum (p : Packet) : Z :=
  let s := fold_left (fun s i => u16 (s + p !!! i))
                     (seq 0 (M913_PACKET_SIZE - 1)) 0 in
  u8 (Z.land (0x55 - s) 0xFF).

(** [p[16] = compute_checksum(p)] *)
Definition seal (p : Packet) : Packet := <[16%nat := compute_checksum p]> p.

(** ** Internal data tables of [protocol.cpp] *)

Definition default_button_mapping : list Packet :=
  [ [0x08;0x07;0x00;0x00;0x60;0x08; 0x00;0x00;0x00;0x55; 0x05;0x00;0x00;0x50; 0x00;0x00;0x34];
    [0x08;0x07;0x00;0x00;0x68;0x08; 0x05;0x00;0x00;0x50; 0x01;0x08;0x00;0x4c; 0x00;0x00;0x2c];
    [0x08;0x07;0x00;0x00;0x70;0x08; 0x05;0x00;0x00;0x50; 0x05;0x00;0x00;0x50; 0x00;0x00;0x24];
    [0x08;0x07;0x00;0x00;0x78;0x08; 0x01;0x02;0x00;0x52; 0x01;0x01;0x00;0x53; 0x00;0x00;0x1c];
    [0x08;0x07;0x00;0x00;0x80;0x08; 0x05;0x00;0x00;0x50; 0x05;0x00;0x00;0x50; 0x00;0x00;0x14];
    [0x08;0x07;0x00;0x00;0x88;0x08; 0x01;0x04;0x00;0x50; 0x04;0x3a;0x03;0x14; 0x00;0x00;0x0c];
    [0x08;0x07;0x00;0x00;0x90;0x08; 0x05;0x00;0x00;0x50; 0x05;0x00;0x00;0x50; 0x00;0x00;0x04];
    [0x08;0x07;0x00;0x00;0x98;0x08; 0x05;0x00;0x00;0x50; 0x05;0x00;0x00;0x50; 0x00;0x00;0xfc] ].

(** Per-button address bytes (bytes 3 and 4 of a keyboard sub-packet). *)
Definition kb_key_addr : list (Z * Z) :=
  [ (0x01,0x00); (0x01,0x20); (0x01,0x40); (0x01,0x60);
    (0x01,0x80); (0x01,0xa0); (0x01,0xc0); (0x01,0xe0);
    (0x02,0x00); (0x02,0x20); (0x02,0x40); (0x02,0x60);
    (0x02,0x80); (0x02,0xa0); (0x02,0xc0); (0x02,0xe0) ].

Definition dpi_table : list (Z * (Z * Z * Z)) :=
  [ (  100, (0x00,0x00,0x55)); (  200, (0x02,0x02,0x51));
    (  300, (0x03,0x03,0x4f)); (  400, (0x04,0x04,0x4d));
    (  500, (0x05,0x05,0x4b)); (  600, (0x06,0x06,0x49));
    (  700, (0x07,0x07,0x47)); (  800, (0x09,0x09,0x43));
    (  900, (0x0a,0x0a,0x41)); ( 1000, (0x0b,0x0b,0x3f));
    ( 1100, (0x0c,0x0c,0x3d)); ( 1200, (0x0d,0x0d,0x3b));
    ( 1300, (0x0e,0x0e,0x39)); ( 1400, (0x10,0x10,0x35));
    ( 1500, (0x11,0x11,0x33)); ( 1600, (0x12,0x12,0x31));
    ( 1700, (0x13,0x13,0x2f)); ( 1800, (0x14,0x14,0x2d));
    ( 1900, (0x16,0x16,0x29)); ( 2000, (0x17,0x17,0x27));
    ( 2100, (0x18,0x18,0x25)); ( 2200, (0x19,0x19,0x23));
    ( 2300, (0x1a,0x1a,0x21)); ( 2400, (0x1b,0x1b,0x1f));
    ( 2500, (0x1d,0x1d,0x1b)); ( 2600, (0x1e,0x1e,0x19));
    ( 2700, (0x1f,0x1f,0x17)); ( 2800, (0x20,0x20,0x15));
    ( 2900, (0x21,0x21,0x13)); ( 3000, (0x23,0x23,0x0f));
    ( 3200, (0x26,0x26,0x09)); ( 3600, (0x2a,0x2a,0x01));
    ( 4000, (0x2f,0x2f,0xf7)); ( 4800, (0x39,0x39,0xe3));
    ( 5000, (0x3b,0x3b,0xdf)); ( 5500, (0x41,0x41,0xd3));
    ( 6000, (0x47,0x47,0xc7)); ( 6400, (0x4c,0x4c,0xbd));
    ( 6600, (0x4f,0x4f,0xb7)); ( 7000, (0x53,0x53,0xaf));
    ( 7200, (0x56,0x56,0xa9)); ( 7300, (0x57,0x57,0xa7));
    ( 7400, (0x58,0x58,0xa5)); ( 7500, (0x59,0x59,0xa3));
    ( 8000, (0x5f,0x5f,0x97)); ( 8500, (0x65,0x65,0x8b));
    ( 9000, (0x6b,0x6b,0x7f)); ( 9600, (0x73,0x73,0x6f));
    (10000, (0x77,0x77,0x67)); (11000, (0x83,0x83,0x4f));
    (12000, (0x8f,0x8f,0x37)); (13000, (0x9b,0x9b,0x1f));
    (14000, (0xa7,0xa7,0x07)); (15000, (0xb3,0xb3,0xef));
    (16000, (0xbd,0xbd,0xdb)) ].

Definition kb_key_template : Packet :=
  [0x08;0x07;0x00;0x01;0x60;0x08;
   0x02;0x81;0x21;0x00;0x41;0x21;0x00;0x4f;
   0x00;0x00;0x88].

Definition dpi_template : list Packet :=
  [ [0x08;0x07;0x00;0x00;0x0c;0x08; 0x00;0x00;0x00;0x55; 0x02;0x02;0x00;0x51; 0x00;0x00;0x88];
    [0x08;0x07;0x00;0x00;0x14;0x08; 0x03;0x03;0x00;0x4f; 0x04;0x04;0x00;0x4d; 0x00;0x00;0x80];
    [0x08;0x07;0x00;0x00;0x1c;0x04; 0x05;0x05;0x00;0x4b; 0x00;0x00;0x00;0x00; 0x00;0x00;0xd1];
    [0x08;0x07;0x00;0x00;0x02;0x02; 0x05;0x50;0x00;0x00; 0x00;0x00;0x00;0x00; 0x00;0x00;0xed] ].

Definition unknown2 : list Packet :=
  [ [0x08;0x07;0x00;0x00;0x2c;0x08; 0xff;0x00;0x00;0x56; 0x00;0x00;0xff;0x56; 0x00;0x00;0x68];
    [0x08;0x07;0x00;0x00;0x34;0x08; 0x00;0xff;0x00;0x56; 0xff;0xff;0x00;0x57; 0x00;0x00;0x60];
    [0x08;0x07;0x00;0x00;0x3c;0x04; 0xff;0x55;0x7d;0x84; 0x00;0x00;0x00;0x00; 0x00;0x00;0xb1] ].

Definition led_off : list Packet :=
  [ [0x08;0x07;0x00;0x00;0x58;0x02; 0x00;0x55;0x00;0x00; 0x00;0x00;0x00;0x00; 0x00;0x00;0x97] ].
Definition led_breathing : list Packet :=
  [ [0x08;0x07;0x00;0x00;0x54;0x08; 0xff;0x00;0x00;0x57; 0x01;0x54;0xff;0x56; 0x00;0x00;0xeb];
    [0x08;0x07;0x00;0x00;0x5c;0x02; 0x03;0x52;0x00;0x00; 0x00;0x00;0x00;0x00; 0x00;0x00;0x93] ].
Definition led_rainbow : list Packet :=
  [ [0x08;0x07;0x00;0x00;0x54;0x08; 0xff;0x00;0xff;0x57; 0x03;0x52;0x80;0xd5; 0x00;0x00;0xeb];
    [0x08;0x07;0x00;0x00;0x5c;0x02; 0x03;0x52;0x00;0x00; 0x00;0x00;0x00;0x00; 0x00;0x00;0x93] ].
Definition led_static : list Packet :=
  [ [0x08;0x07;0x00;0x00;0x54;0x08; 0xff;0x00;0x00;0x57; 0x01;0x54;0xff;0x56; 0x00;0x00;0xeb] ].

(** ** Internal helpers *)

Definition from_raw (src : Packet) : Packet := take 17 src.

Fixpoint lookup_dpi_in (tbl : list (Z * (Z * Z * Z))) (dpi : Z) : option (Z * Z * Z) :=
  match tbl with
  | [] => None
  | (d, b) :: rest => if d =? dpi then Some b else lookup_dpi_in rest dpi
  end.

Definition lookup_dpi (dpi : Z) : option (Z * Z * Z) := lookup_dpi_in dpi_table dpi.

(** ** Polling rate *)

Definition polling_code (hz : Z) : Z :=
  if 1000 <=? hz then 0x01
  else if 500 <=? hz then 0x02
  else if 250 <=? hz then 0x04
  else 0x08.

Definition build_polling_rate_packet (hz : Z) : Packet :=
  let code := polling_code hz in
  let p := zero_packet in
  let p := <[0%nat := 0x08]> p in
  let p := <[1%nat := 0x07]> p in
  let p := <[4%nat := 0x00]> p in
  let p := <[5%nat := 0x02]> p in
  let p := <[6%nat := code]> p in
  let p := <[7%nat := u8 (Z.land (0x55 - code) 0xFF)]> p in
  seal p.

(** ** LED *)

Inductive LedMode := Off | Steady | Respiration | Rainbow.

Definition build_led_packets (mode : LedMode) (color brightness speed : Z) : list Packet :=
  match mode with
  | Off => [from_raw (led_off !!! 0%nat)]
  | Respiration =>
      let r := u8 (Z.land (Z.shiftr color 16) 0xff) in
      let g := u8 (Z.land (Z.shiftr color 8) 0xff) in
      let b := u8 (Z.land color 0xff) in
      let p1 := from_raw (led_breathing !!! 0%nat) in
      let p1 := <[6%nat := r]> p1 in
      let p1 := <[7%nat := g]> p1 in
      let p1 := <[8%nat := b]> p1 in
      let p1 := <[9%nat := u8 (Z.land (0x55 - r - g - b) 0xFF)]> p1 in
      let p1 := <[10%nat := 0x02]> p1 in
      let p1 := <[11%nat := u8 (Z.land (0x55 - 0x02) 0xFF)]> p1 in
      let p1 := <[12%nat := brightness]> p1 in
      let p1 := <[13%nat := u8 (Z.land (0x55 - brightness) 0xFF)]> p1 in
      let p1 := seal p1 in
      let p2 := from_raw (led_breathing !!! 1%nat) in
      let p2 := <[6%nat := speed]> p2 in
      let p2 := <[7%nat := u8 (Z.land (0x55 - speed) 0xFF)]> p2 in
      let p2 := seal p2 in
      [p1; p2]
  | Rainbow => [from_raw (led_rainbow !!! 0%nat); from_raw (led_rainbow !!! 1%nat)]
  | Steady =>
      let r := u8 (Z.land (Z.shiftr color 16) 0xff) in
      let g := u8 (Z.land (Z.shiftr color 8) 0xff) in
      let b := u8 (Z.land color 0xff) in
      let buf := from_raw (led_static !!! 0%nat) in
      let buf := <[6%nat := r]> buf in
      let buf := <[7%nat := g]> buf in
      let buf := <[8%nat := b]> buf in
      let buf := <[9%nat := u8 (Z.land (0x55 - r - g - b) 0xFF)]> buf in
      let buf := <[10%nat := 0x01]> buf in
      let buf := <[11%nat := u8 (Z.land (0x55 - 0x01) 0xFF)]> buf in
      let buf := <[12%nat := brightness]> buf in
      let buf := <[13%nat := u8 (Z.land (0x55 - brightness) 0xFF)]> buf in
      let buf := seal buf in
      [buf]
  end.

(** ** DPI *)

Record DpiSettings := {
  values : list Z;       (* std::array<uint16_t, 5> *)
  enabled : list bool    (* std::array<bool, 5> *)
}.

(** The lambda [set_level] of [build_dpi_packets]. *)
Definition set_level (buf : list Packet) (pkt base_off : nat) (val : Z) : list Packet :=
  match lookup_dpi val with
  | None => buf
  | Some (c0, c1, c2) =>
      let p := buf !!! pkt in
      let p := <[base_off := c0]> p in
      let p := <[(base_off + 1)%nat := c1]> p in
      let p := <[(base_off + 3)%nat := c2]> p in
      <[pkt := p]> buf
  end.

Definition set_level_if (buf : list Packet) (pkt base_off : nat) (val : Z) : list Packet :=
  if val =? 0 then buf else set_level buf pkt base_off val.

Definition num_enabled (en : list bool) : Z :=
  fold_left (fun n i => if (en !!! i : bool) then n + 1 else n) (seq 0 5) 0.

Definition enable_bytes (en : list bool) : Z * Z :=
  let e := (0x05, 0x50) in
  let e := if (en !!! 4%nat : bool) then e else (0x04, 0x51) in
  let e := if (en !!! 3%nat : bool) then e else (0x03, 0x52) in
  let e := if (en !!! 2%nat : bool) then e else (0x02, 0x53) in
  let e := if (en !!! 1%nat : bool) then e else (0x01, 0x54) in
  e.

Definition build_dpi_packets (dpi : DpiSettings) : list Packet :=
  let buf := from_raw <$> dpi_template in
  let buf := set_level_if buf 0 6 (values dpi !!! 0%nat) in
  let buf := set_level_if buf 0 10 (values dpi !!! 1%nat) in
  let buf := set_level_if buf 1 6 (values dpi !!! 2%nat) in
  let buf := set_level_if buf 1 10 (values dpi !!! 3%nat) in
  let buf := set_level_if buf 2 6 (values dpi !!! 4%nat) in
  let buf :=
    if num_enabled (enabled dpi) =? 0 then buf
    else
      let '(e1, e2) := enable_bytes (enabled dpi) in
      <[3%nat := <[7%nat := e2]> (<[6%nat := e1]> (buf !!! 3%nat))]> buf in
  let buf := seal <$> buf in
  buf ++ (from_raw <$> unknown2).

(** * The action table ([data.cpp]) *)

Open Scope string_scope.

Definition mouse_actions : list (string * ActionBytes) :=
  [ ("left",           [0x01; 0x01; 0x00; 0x53]);
    ("right",          [0x01; 0x02; 0x00; 0x52]);
    ("middle",         [0x01; 0x04; 0x00; 0x50]);
    ("backward",       [0x01; 0x08; 0x00; 0x4c]);
    ("forward",        [0x01; 0x10; 0x00; 0x44]);
    ("dpi-",           [0x02; 0x03; 0x00; 0x50]);
    ("dpi+",           [0x02; 0x02; 0x00; 0x51]);
    ("dpi-cycle",      [0x02; 0x01; 0x00; 0x52]);
    ("dpi-loop",       [0x02; 0x01; 0x00; 0x52]);
    ("led_toggle",     [0x08; 0x00; 0x00; 0x4d]);
    ("rgb_toggle",     [0x08; 0x00; 0x00; 0x4d]);
    ("none",           [0x00; 0x00; 0x00; 0x55]);
    ("disable",        [0x00; 0x00; 0x00; 0x55]);
    ("fire",           [0x04; 0x3a; 0x03; 0x14]);
    ("three_click",    [0x04; 0x32; 0x03; 0x1c]);
    ("polling_switch", [0x07; 0x00; 0x00; 0x4e]);
    ("media_play",     [0x92; 0x00; 0xcd; 0x00]);
    ("media_player",   [0x92; 0x01; 0x83; 0x01]);
    ("media_next",     [0x92; 0x00; 0xb5; 0x00]);
    ("media_prev",     [0x92; 0x00; 0xb6; 0x00]);
    ("media_stop",     [0x92; 0x00; 0xb7; 0x00]);
    ("media_vol_up",   [0x92; 0x00; 0xe9; 0x00]);
    ("media_vol_down", [0x92; 0x00; 0xea; 0x00]);
    ("media_mute",     [0x92; 0x00; 0xe2; 0x00]);
    ("media_email",    [0x92; 0x01; 0x8a; 0x01]);
    ("media_calc",     [0x92; 0x01; 0x92; 0x01]);
    ("media_computer", [0x92; 0x01; 0x94; 0x01]);
    ("media_home",     [0x92; 0x02; 0x23; 0x02]);
    ("media_search",   [0x92; 0x02; 0x21; 0x02]);
    ("www_forward",    [0x92; 0x02; 0x25; 0x02]);
    ("www_back",       [0x92; 0x02; 0x24; 0x02]);
    ("www_stop",       [0x92; 0x02; 0x26; 0x02]);
    ("www_refresh",    [0x92; 0x02; 0x27; 0x02]);
    ("www_favorites",  [0x92; 0x02; 0x2a; 0x02]);
    ("favorites",      [0x92; 0x02; 0x2a; 0x02]) ].

Definition modifier_bits : list (string * Z) :=
  [ ("ctrl_l",  0x01); ("shift_l", 0x02); ("alt_l",   0x04);
    ("super_l", 0x08); ("meta_l",  0x08);
    ("ctrl_r",  0x10); ("shift_r", 0x20); ("alt_r",   0x40);
    ("super_r", 0x80); ("meta_r",  0x80);
    ("ctrl",    0x01); ("shift",   0x02); ("alt",     0x04);
    ("super",   0x08); ("meta",    0x08) ].

Definition key_codes : list (string * Z) :=
  [ ("a", 0x04); ("b", 0x05); ("c", 0x06); ("d", 0x07);
    ("e", 0x08); ("f", 0x09); ("g", 0x0a); ("h", 0x0b);
    ("i", 0x0c); ("j", 0x0d); ("k", 0x0e); ("l", 0x0f);
    ("m", 0x10); ("n", 0x11); ("o", 0x12); ("p", 0x13);
    ("q", 0x14); ("r", 0x15); ("s", 0x16); ("t", 0x17);
    ("u", 0x18); ("v", 0x19); ("w", 0x1a); ("x", 0x1b);
    ("y", 0x1c); ("z", 0x1d);
    ("1", 0x1e); ("2", 0x1f); ("3", 0x20); ("4", 0x21);
    ("5", 0x22); ("6", 0x23); ("7", 0x24); ("8", 0x25);
    ("9", 0x26); ("0", 0x27);
    ("enter",     0x28); ("return",    0x28);
    ("escape",    0x29); ("esc",       0x29);
    ("backspace", 0x2a);
    ("tab",       0x2b);
    ("space",     0x2c);
    ("minus",     0x2d); ("-",         0x2d);
    ("equal",     0x2e); ("=",         0x2e);
    ("lbracket",  0x2f); ("[",         0x2f);
    ("rbracket",  0x30); ("]",         0x30);
    ("backslash", 0x31); ("\",         0x31);
    ("semicolon", 0x33); (";",         0x33);
    ("quote",     0x34); ("'",         0x34);
    ("grave",     0x35); ("`",         0x35);
    ("comma",     0x36); (",",         0x36);
    ("dot",       0x37); (".",         0x37);
    ("slash",     0x38); ("/",         0x38);
    ("capslock",  0x39);
    ("f1",  0x3a); ("f2",  0x3b); ("f3",  0x3c); ("f4",  0x3d);
    ("f5",  0x3e); ("f6",  0x3f); ("f7",  0x40); ("f8",  0x41);
    ("f9",  0x42); ("f10", 0x43); ("f11", 0x44); ("f12", 0x45);
    ("f13", 0x68); ("f14", 0x69); ("f15", 0x6a); ("f16", 0x6b);
    ("f17", 0x6c); ("f18", 0x6d); ("f19", 0x6e); ("f20", 0x6f);
    ("f21", 0x70); ("f22", 0x71); ("f23", 0x72); ("f24", 0x73);
    ("printscreen", 0x46);
    ("scrolllock",  0x47);
    ("pause",       0x48);
    ("insert",      0x49);
    ("home",        0x4a);
    ("pageup",      0x4b);
    ("delete",      0x4c);
    ("end",         0x4d);
    ("pagedown",    0x4e);
    ("right",       0x4f);
    ("left",        0x50);
    ("down",        0x51);
    ("up",          0x52);
    ("num0", 0x62); ("num1", 0x59); ("num2", 0x5a); ("num3", 0x5b);
    ("num4", 0x5c); ("num5", 0x5d); ("num6", 0x5e); ("num7", 0x5f);
    ("num8", 0x60); ("num9", 0x61);
    ("numenter", 0x58); ("numdot", 0x63);
    ("numplus",  0x57); ("numminus", 0x56);
    ("nummul",   0x55); ("numdiv",   0x54);
    ("numlock",  0x53) ].

(** [std::map::find] on one of the tables above. *)
Fixpoint table_find {A} (tbl : list (string * A)) (k : string) : option A :=
  match tbl with
  | [] => None
  | (name, v) :: rest => if String.eqb name k then Some v else table_find rest k
  end.

(** [split]: the [std::getline] loop; empty parts are dropped.  [part] is
    the text read since the last delimiter. *)
Fixpoint split_from (part : string) (s : string) (delim : ascii) : list string :=
  match s with
  | EmptyString => if String.eqb part "" then [] else [part]
  | String c rest =>
      if Ascii.eqb c delim
      then (if String.eqb part "" then split_from "" rest delim
            else part :: split_from "" rest delim)
      else split_from (part ++ String c "") rest delim
  end.

Definition split (s : string) (delim : ascii) : list string := split_from "" s delim.

(** [std::tolower] in the C locale. *)
Definition tolower (c : ascii) : ascii :=
  let n := nat_of_ascii c in
  if ((65 <=? n) && (n <=? 90))%nat then ascii_of_nat (n + 32) else c.

Fixpoint to_lower (s : string) : string :=
  match s with
  | EmptyString => EmptyString
  | String c rest => String (tolower c) (to_lower rest)
  end.

(** [std::stoi]: leading white space, an optional sign, then decimal
    digits; trailing text is ignored.  [None] is a thrown exception
    ([invalid_argument] without digits, [out_of_range] outside [int]). *)
Definition isspace (c : ascii) : bool :=
  let n := nat_of_ascii c in ((n =? 32) || ((9 <=? n) && (n <=? 13)))%nat.

Definition digit_of (c : ascii) : option Z :=
  let n := nat_of_ascii c in
  if ((48 <=? n) && (n <=? 57))%nat then Some (Z.of_nat n - 48) else None.

Fixpoint skip_space (s : string) : string :=
  match s with
  | String c rest => if isspace c then skip_space rest else s
  | EmptyString => s
  end.

Fixpoint read_digits (acc : Z) (s : string) : Z :=
  match s with
  | String c rest =>
      match digit_of c with
      | Some d => read_digits (10 * acc + d) rest
      | None => acc
      end
  | EmptyString => acc
  end.

Definition stoi (str : string) : option Z :=
  let s := skip_space str in
  let '(neg, s) :=
    match s with
    | String "-"%char rest => (true, rest)
    | String "+"%char rest => (false, rest)
    | _ => (false, s)
    end in
  match s with
  | String c _ =>
      match digit_of c with
      | Some _ =>
          let v := read_digits 0 s in
          let v := if (neg : bool) then - v else v in
          if ((-2147483648 <=? v) && (v <=? 2147483647))%Z then Some v else None
      | None => None
      end
  | EmptyString => None
  end.

(** The token loop shared by [parse_action] and [parse_multikey]; [None]
    is the early [return false] on an unknown token. *)
Fixpoint parse_parts (parts : list string) (mods : Z) (keys : list Z)
  : option (Z * list Z) :=
  match parts with
  | [] => Some (mods, keys)
  | part :: rest =>
      match table_find modifier_bits part with
      | Some m => parse_parts rest (Z.lor mods m) keys
      | None =>
          match table_find key_codes part with
          | None => None
          | Some k => parse_parts rest mods (keys ++ [k])
          end
      end
  end.

Definition parse_fire (action : string) : option ActionBytes :=
  match split action ":" with
  | [_; p1; p2] =>
      match stoi p1, stoi p2 with
      | Some speed, Some times =>
          if ((3 <=? speed) && (speed <=? 255) && (0 <=? times) && (times <=? 3))%Z
          then Some [0x04; u8 speed; u8 times;
                     u8 (Z.land (0x55 - (0x04 + speed + times)) 0xFF)]
          else None
      | _, _ => None
      end
  | _ => None
  end.

Definition parse_action (action_raw : string) : option ActionBytes :=
  let action := to_lower action_raw in
  if String.eqb (substring 0 5 action) "fire:" then parse_fire action
  else
    match table_find mouse_actions action with
    | Some ab => Some ab
    | None =>
        let parts := split action "+" in
        match parts with
        | [] => None
        | _ =>
            match parse_parts parts 0x00 [] with
            | None => None
            | Some (mods, keys) =>
                match keys with
                | [] => Some [0x90; mods; 0x00; 0x00]
                | [k] => Some [0x90; mods; k; 0x00]
                | k :: _ =>
                    if (255 <? length keys)%nat then None
                    else Some [0x90; mods; k; u8 (Z.of_nat (length keys))]
                end
            end
        end
    end.

Definition parse_multikey (action : string) : option (Z * list Z) :=
  let parts := split (to_lower action) "+" in
  match parts with
  | [] => None
  | _ => parse_parts parts 0x00 []
  end.

Close Scope string_scope.

(** * Button mapping ([protocol.cpp]) *)

(** [g_multikey_actions] *)
Abbreviation Registry := (gmap Z string).

Definition register_multikey_action (button_idx : Z) (action_str : string)
    (g : Registry) : Registry :=
  <[button_idx := action_str]> g.

Definition clear_multikey_actions (g : Registry) : Registry := ∅.

Definition kb_key_action : list Z := [0x05; 0x00; 0x00; 0x50].

Definition mod_bits : list Z := [0x01;0x02;0x04;0x08;0x10;0x20;0x40;0x80].

(** [buf[pkt][off + k] = bytes[k]] for [k = 0..3], with [pkt = btn_idx / 2]
    and [off] 6 or 10. *)
Definition write_slot (buf : list Packet) (btn_idx : Z) (bytes : list Z) : list Packet :=
  let pkt := Z.to_nat (btn_idx / 2) in
  let off := if btn_idx mod 2 =? 0 then 6%nat else 10%nat in
  fold_left (fun buf k => <[pkt := <[(off + k)%nat := bytes !!! k]> (buf !!! pkt)]> buf)
            (seq 0 4) buf.

(** The multimedia branch ([ab[0] == 0x92]). *)
Definition multimedia_subpacket (addr_hi addr_lo : Z) (ab : ActionBytes) : Packet :=
  let extra := ab !!! 1%nat in
  let code := ab !!! 2%nat in
  let extra2 := ab !!! 3%nat in
  let sub := zero_packet in
  let sub := <[0%nat := 0x08]> sub in
  let sub := <[1%nat := 0x07]> sub in
  let sub := <[2%nat := 0x00]> sub in
  let sub := <[3%nat := addr_hi]> sub in
  let sub := <[4%nat := addr_lo]> sub in
  let sub := <[5%nat := 0x08]> sub in
  let sub := <[6%nat := 0x02]> sub in
  let sub := <[7%nat := 0x82]> sub in
  let sub := <[8%nat := code]> sub in
  let sub := <[9%nat := extra]> sub in
  let sub := <[10%nat := 0x42]> sub in
  let sub := <[11%nat := code]> sub in
  let sub := <[12%nat := extra2]> sub in
  let isum := u8 (0x02 + 0x82 + code + extra + 0x42 + code + extra2) in
  let sub := <[13%nat := u8 (Z.land (0x55 - isum) 0xFF)]> sub in
  seal sub.

(** The plain single key branch ([mods == 0 && keys.size() == 1]). *)
Definition single_key_subpacket (addr_hi addr_lo key : Z) : Packet :=
  let sub := take 17 kb_key_template in
  let sub := <[3%nat := addr_hi]> sub in
  let sub := <[4%nat := addr_lo]> sub in
  let sub := <[8%nat := key]> sub in
  let sub := <[11%nat := key]> sub in
  let sub := <[13%nat := u8 (Z.land (0x91 - 2 * key) 0xFF)]> sub in
  seal sub.

(** The key list of a binding: for [key_count > 1] the registered action
    string is parsed again; an absent or unusable registration leaves
    [keys] empty, and the first scancode is used alone. *)
Definition collect_keys (g : Registry) (btn_idx mods sc key_count : Z) : Z * list Z :=
  if 1 <? key_count then
    let '(mods, keys) :=
      match g !! btn_idx with
      | Some action_str =>
          match parse_multikey action_str with
          | Some (parsed_mods, parsed_keys) =>
              if (2 <=? length parsed_keys)%nat then (parsed_mods, parsed_keys)
              else (mods, [])
          | None => (mods, [])
          end
      | None => (mods, [])
      end in
    (mods, match keys with [] => [sc] | _ => keys end)
  else (mods, if sc =? 0x00 then [] else [sc]).

(** [evts.push_back(ty); evts.push_back(code); evts.push_back(0x00)] *)
Definition push_event (evts : list Z) (ty code : Z) : list Z := evts ++ [ty; code; 0x00].

(** The event list of the unified path, loop by loop. *)
Definition build_events (mods : Z) (keys : list Z) : list Z :=
  let evts := [] in
  let evts := fold_left (fun e b => if Z.land mods b =? 0 then e else push_event e 0x80 b)
                        mod_bits evts in
  let evts := fold_left (fun e k => push_event e 0x81 k) keys evts in
  let evts := fold_left (fun e b => if Z.land mods b =? 0 then e else push_event e 0x40 b)
                        mod_bits evts in
  let evts := fold_left (fun e i => push_event e 0x41 (keys !!! i))
                        (rev (seq 0 (length keys))) evts in
  evts.

Definition event_count (evts : list Z) : Z := u8 (Z.of_nat (length evts) / 3).

Definition inner_checksum (evts : list Z) : Z :=
  let isum := fold_left (fun s b => u16 (s + b)) evts (event_count evts) in
  Z.land (0x55 - u8 (Z.land isum 0xFF)) 0xFF.

(** Packet 1 of the unified path. *)
Definition combo_packet1 (addr_hi addr_lo : Z) (evts : list Z) : Packet :=
  let p1 := zero_packet in
  let p1 := <[0%nat := 0x08]> p1 in
  let p1 := <[1%nat := 0x07]> p1 in
  let p1 := <[2%nat := 0x00]> p1 in
  let p1 := <[3%nat := addr_hi]> p1 in
  let p1 := <[4%nat := addr_lo]> p1 in
  let p1 := <[5%nat := 0x0a]> p1 in
  let p1 := <[6%nat := event_count evts]> p1 in
  let p1 := fold_left (fun p i => <[(7 + i)%nat := evts !!! i]> p)
                      (seq 0 (9 `min` length evts)) p1 in
  seal p1.

(** Packet 2 of the unified path: its writes are at run-time indices. *)
Definition combo_packet2 (addr_hi addr_lo : Z) (evts : list Z) : option Packet :=
  let p1_evts := (9 `min` length evts)%nat in
  let remaining := (length evts - p1_evts)%nat in
  let p2 := zero_packet in
  let p2 := <[0%nat := 0x08]> p2 in
  let p2 := <[1%nat := 0x07]> p2 in
  let p2 := <[2%nat := 0x00]> p2 in
  let p2 := <[3%nat := addr_hi]> p2 in
  let p2 := <[4%nat := u8 (addr_lo + 0x0a)]> p2 in
  let p2 := <[5%nat := u8 (Z.of_nat remaining + 1)]> p2 in
  p2 ← fold_left (fun acc i => p ← acc; store p (6 + i) (evts !!! (p1_evts + i)%nat))
                 (seq 0 remaining) (Some p2);
  p2 ← store p2 (6 + remaining) (inner_checksum evts);
  Some (seal p2).

Definition combo_subpackets (addr_hi addr_lo mods : Z) (keys : list Z)
  : option (list Packet) :=
  let evts := build_events mods keys in
  let p1 := combo_packet1 addr_hi addr_lo evts in
  p2 ← combo_packet2 addr_hi addr_lo evts;
  Some [p1; p2].

(** The sub-packets of a keyboard binding with the given key list. *)
Definition keyboard_subpackets (addr_hi addr_lo mods : Z) (keys : list Z)
  : option (list Packet) :=
  if (mods =? 0x00) && (length keys =? 1)%nat
  then Some [single_key_subpacket addr_hi addr_lo (keys !!! 0%nat)]
  else combo_subpackets addr_hi addr_lo mods keys.

(** One iteration of [for (auto& [btn_idx, ab] : changes)]; the state is
    the mapping buffer and the sub-packets collected so far. *)
Definition process_entry (g : Registry) (st : list Packet * list Packet)
    (entry : Z * ActionBytes) : option (list Packet * list Packet) :=
  let '(buf, result) := st in
  let '(btn_idx, ab) := entry in
  if 16 <=? btn_idx then Some (buf, result)
  else if (ab !!! 0%nat =? 0x90) || (ab !!! 0%nat =? 0x92) then
    let '(addr_hi, addr_lo) := kb_key_addr !!! Z.to_nat btn_idx in
    subs ← (if ab !!! 0%nat =? 0x92
            then Some [multimedia_subpacket addr_hi addr_lo ab]
            else
              let '(mods, keys) :=
                collect_keys g btn_idx (ab !!! 1%nat) (ab !!! 2%nat) (ab !!! 3%nat) in
              keyboard_subpackets addr_hi addr_lo mods keys);
    Some (write_slot buf btn_idx kb_key_action, result ++ subs)
  else Some (write_slot buf btn_idx ab, result).

(** The entries of a [std::map<uint8_t, ActionBytes>] in iteration order. *)
Definition map_entries (changes : gmap Z ActionBytes) : list (Z * ActionBytes) :=
  omap (fun k => (fun ab => (k, ab)) <$> changes !! k) (seqZ 0 256).

Definition run_entries (g : Registry) (entries : list (Z * ActionBytes))
    (st : list Packet * list Packet) : option (list Packet * list Packet) :=
  fold_left (fun acc e => st ← acc; process_entry g st e) entries (Some st).

(** [build_button_mapping]: the packets returned and the registry left
    behind; [None] when a write leaves a packet. *)
Definition build_button_mapping (changes : gmap Z ActionBytes) (g : Registry)
  : option (list Packet * Registry) :=
  let buf := from_raw <$> default_button_mapping in
  '(buf, result) ← run_entries g (map_entries changes) (buf, []);
  let buf := seal <$> buf in
  Some (result ++ buf, clear_multikey_actions g).

(** * Specification vocabulary

    The notions the properties below are stated with: the packet
    invariant, the layouts the protocol prescribes, and the readings of the
    action table. *)

(** The sum of the bytes of a packet. *)
Definition byte_sum (p : list Z) : Z := foldr Z.add 0 p.

(** The packet invariant: 17 bytes, byte 16 is what [compute_checksum]
    yields, and all 17 bytes add up to 0x55 modulo 256. *)
Definition checksum_ok (p : Packet) : Prop :=
  length p = 17%nat /\
  p !!! 16%nat = compute_checksum p /\
  p !!! 16%nat = (0x55 - byte_sum (take 16 p)) mod 256 /\
  byte_sum p mod 256 = 0x55.

Definition len17 (p : Packet) : Prop := length p = 17%nat.

(** The loop invariant of [build_button_mapping]. *)
Definition build_inv (st : list Packet * list Packet) : Prop :=
  Forall len17 st.1 /\ Forall checksum_ok st.2.

(** The code applied for a slot value: nothing for 0 ("keep the template")
    and nothing for a value without table entry. *)
Definition dpi_code (val : Z) : option (Z * Z * Z) :=
  if val =? 0 then None else lookup_dpi val.

Definition put_code (off : nat) (c : option (Z * Z * Z)) (p : Packet) : Packet :=
  match c with
  | None => p
  | Some (c0, c1, c2) => <[(off + 3)%nat := c2]> (<[(off + 1)%nat := c1]> (<[off := c0]> p))
  end.

Definition put_enable (en : list bool) (p : Packet) : Packet :=
  if num_enabled en =? 0 then p
  else <[7%nat := (enable_bytes en).2]> (<[6%nat := (enable_bytes en).1]> p).

(** Position (packet, offset) of DPI slot [i] (level [i + 1]). *)
Definition slot_pos (i : nat) : nat * nat :=
  match i with
  | 0 => (0, 6) | 1 => (0, 10) | 2 => (1, 6) | 3 => (1, 10) | _ => (2, 6)
  end%nat.

(** The three code bytes of slot [i] in a packet sequence: offsets +0, +1
    and +3. *)
Definition slot_bytes (pkts : list Packet) (i : nat) : Z * Z * Z :=
  let '(pkt, off) := slot_pos i in
  ((pkts !!! pkt) !!! off, (pkts !!! pkt) !!! (off + 1)%nat, (pkts !!! pkt) !!! (off + 3)%nat).

(** The enable byte-pair: bytes 6 and 7 of the fourth packet. *)
Definition enable_pair (pkts : list Packet) : Z * Z :=
  ((pkts !!! 3%nat) !!! 6%nat, (pkts !!! 3%nat) !!! 7%nat).

(** Levels 2..5 (indices 1..4) that are disabled, in ascending order. *)
Definition disabled_levels (en : list bool) : list Z :=
  omap (fun i => if (en !!! i : bool) then None else Some (Z.of_nat i + 1)) [1; 2; 3; 4]%nat.

Definition lowest_disabled (en : list bool) : option Z := head (disabled_levels en).

Definition highest_disabled (en : list bool) : option Z := last (disabled_levels en).

(** The byte-pair announcing that the levels below [lvl] are enabled:
    [(lvl - 1, 0x55 - (lvl - 1))]; all five when no level is given. *)
Definition pair_below (lvl : option Z) : Z * Z :=
  match lvl with
  | None => (0x05, 0x50)
  | Some l => (l - 1, 0x55 - (l - 1))
  end.

Definition set_value (dpi : DpiSettings) (i : nat) (v : Z) : DpiSettings :=
  {| values := <[i := v]> (values dpi); enabled := enabled dpi |}.

Definition dpi_only5_off : DpiSettings :=
  {| values := [0; 0; 0; 0; 0]; enabled := [true; true; true; true; false] |}.

Definition dpi_top45_off : DpiSettings :=
  {| values := [0; 0; 0; 0; 0]; enabled := [true; true; true; false; false] |}.

Definition dpi_3200_3300 : DpiSettings :=
  {| values := [0; 3200; 3300; 0; 0]; enabled := [true; true; true; true; true] |}.

(** The modifier bits set in [mods], as masks, bit 0 first. *)
Definition active_modifier_bits (mods : Z) : list Z :=
  omap (fun i => if Z.testbit mods (Z.of_nat i) then Some (2 ^ Z.of_nat i) else None)
       (seq 0 8).

(** One 3-byte event [(ty, code, 0x00)] per code, in the order given. *)
Definition events (ty : Z) (codes : list Z) : list Z :=
  flat_map (fun c => [ty; c; 0x00]) codes.

(** The order the protocol requires: modifiers down, keys down in
    specification order, modifiers up in the same order as down, keys up
    in reverse specification order. *)
Definition ordered_event_list (mods : Z) (keys : list Z) : list Z :=
  events 0x80 (active_modifier_bits mods)
  ++ events 0x81 keys
  ++ events 0x40 (active_modifier_bits mods)
  ++ events 0x41 (rev keys).

(** Packet 1: header with length 0x0A, the event count, the first 9 event
    bytes (fewer when the list is shorter), zero padding. *)
Definition packet1_layout (addr_hi addr_lo : Z) (evts : list Z) : Packet :=
  [0x08; 0x07; 0x00; addr_hi; addr_lo; 0x0a; event_count evts]
  ++ take 9 evts ++ replicate (10 - length (take 9 evts)) 0x00.

(** Packet 2: header addressed at [addr_lo + 0x0A] with length "remaining
    + 1", the remaining event bytes, the local checksum, zero padding. *)
Definition packet2_layout (addr_hi addr_lo : Z) (evts : list Z) : Packet :=
  [0x08; 0x07; 0x00; addr_hi; u8 (addr_lo + 0x0a); u8 (Z.of_nat (length (drop 9 evts)) + 1)]
  ++ drop 9 evts ++ [inner_checksum evts]
  ++ replicate (10 - length (drop 9 evts)) 0x00.

(** The number of modifier bits and keys of a combination. *)
Definition combination_size (mods : Z) (keys : list Z) : nat :=
  (length (active_modifier_bits mods) + length keys)%nat.

(** A binding the builder can emit: anything but a keyboard combination
    of four or more modifiers and keys. *)
Definition entry_fits (g : Registry) (entry : Z * ActionBytes) : bool :=
  let '(btn_idx, ab) := entry in
  if 16 <=? btn_idx then true
  else if ab !!! 0%nat =? 0x90 then
    let '(mods, keys) :=
      collect_keys g btn_idx (ab !!! 1%nat) (ab !!! 2%nat) (ab !!! 3%nat) in
    ((mods =? 0x00) && (length keys =? 1)%nat) || (combination_size mods keys <=? 3)%nat
  else true.

(** The registration the builder can use for a button: present, parsable
    and with at least two keys. *)
Definition usable_registration (g : Registry) (btn_idx : Z) : option (Z * list Z) :=
  match g !! btn_idx with
  | Some action_str =>
      match parse_multikey action_str with
      | Some (parsed_mods, parsed_keys) =>
          if (2 <=? length parsed_keys)%nat then Some (parsed_mods, parsed_keys) else None
      | None => None
      end
  | None => None
  end.

(** The builder's result for a single keyboard binding with the given
    modifier byte and key list. *)
Definition single_binding_result (btn_idx mods : Z) (keys : list Z)
  : option (list Packet * Registry) :=
  let '(addr_hi, addr_lo) := kb_key_addr !!! Z.to_nat btn_idx in
  subs ← keyboard_subpackets addr_hi addr_lo mods keys;
  Some (subs ++ (seal <$> write_slot default_button_mapping btn_idx kb_key_action), ∅).

Open Scope string_scope.

Definition is_modifier (tok : string) : bool :=
  match table_find modifier_bits tok with Some _ => true | None => false end.

Definition is_key (tok : string) : bool :=
  match table_find key_codes tok with Some _ => true | None => false end.

(** A token is recognized when it is a modifier name or a key name. *)
Definition recognized (tok : string) : bool := is_modifier tok || is_key tok.

(** The modifier byte of a token list: the bits of its modifier tokens. *)
Definition modifier_mask (toks : list string) : Z :=
  fold_left (fun m tok => match table_find modifier_bits tok with
                          | Some b => Z.lor m b
                          | None => m
                          end) toks 0%Z.

(** The usage codes of the key tokens, in the order written. *)
Definition key_list (toks : list string) : list Z :=
  omap (fun tok => if is_modifier tok then None else table_find key_codes tok) toks.

(** The action code of a keyboard combination: marker 0x90, modifier
    byte, first key (0 without key), and the key count when there are two
    keys or more (0 otherwise). *)
Definition keyboard_code (mods : Z) (keys : list Z) : ActionBytes :=
  [0x90; mods; hd 0 keys;
   if (length keys <=? 1)%nat then 0x00 else Z.of_nat (length keys)]%Z.

(** What a well-formed [fire:<speed>:<repeat>] yields. *)
Definition fire_outcome (action : string) (ab : ActionBytes) : Prop :=
  exists head p1 p2 speed times,
    split action ":" = [head; p1; p2] /\
    stoi p1 = Some speed /\ stoi p2 = Some times /\
    (3 <= speed <= 255)%Z /\ (0 <= times <= 3)%Z /\
    ab = [0x04; speed; times; (0x55 - (0x04 + speed + times)) mod 256]%Z.

(** A '+'-joined list of [n] copies of the key ["a"]. *)
Fixpoint many_keys (n : nat) : string :=
  match n with
  | O => ""
  | S n' => "a+" ++ many_keys n'
  end.

Close Scope string_scope.

Definition sample_changes : gmap Z ActionBytes :=
  {[ 3 := [0x90; 0x01; 0x06; 0x00]; 5 := [0x01; 0x01; 0x00; 0x53];
     7 := [0x92; 0x00; 0xcd; 0x00]; 9 := [0x90; 0x00; 0x04; 3] ]}.

Definition sample_registry : Registry := register_multikey_action 9 "a+b+c" ∅.

Definition sample_packets : list Packet :=
  match build_button_mapping sample_changes sample_registry with
  | Some (pkts, _) => pkts
  | None => []
  end.

(** * Further vocabulary: the button mapping read back *)

(** The four bytes stored for button [b] in a mapping buffer: packet
    [b / 2], offset 6 for an even and 10 for an odd button. *)
Definition mapping_slot (buf : list Packet) (b : Z) : list Z :=
  let pkt := buf !!! Z.to_nat (b / 2) in
  let off := if b mod 2 =? 0 then 6%nat else 10%nat in
  [pkt !!! off; pkt !!! (off + 1)%nat; pkt !!! (off + 2)%nat; pkt !!! (off + 3)%nat].

Definition first4 (ab : ActionBytes) : list Z :=
  [ab !!! 0%nat; ab !!! 1%nat; ab !!! 2%nat; ab !!! 3%nat].

Definition is_keyboard_action (ab : ActionBytes) : bool :=
  (ab !!! 0%nat =? 0x90) || (ab !!! 0%nat =? 0x92).

(** What a binding leaves in its slot: the keyboard marker for a keyboard
    or multimedia action, the action bytes themselves otherwise. *)
Definition written_slot (ab : ActionBytes) : list Z :=
  if is_keyboard_action ab then kb_key_action else first4 ab.

Definition expected_slot (changes : gmap Z ActionBytes) (b : Z) : list Z :=
  match changes !! b with
  | None => mapping_slot default_button_mapping b
  | Some ab => written_slot ab
  end.

(** The last eight packets of a result. *)
Definition mapping_packets (pkts : list Packet) : list Packet :=
  drop (length pkts - 8) pkts.

(** The number of sub-packets a binding contributes. *)
Definition subpacket_count (g : Registry) (entry : Z * ActionBytes) : nat :=
  let '(btn_idx, ab) := entry in
  if 16 <=? btn_idx then 0%nat
  else if ab !!! 0%nat =? 0x92 then 1%nat
  else if ab !!! 0%nat =? 0x90 then
    let '(mods, keys) :=
      collect_keys g btn_idx (ab !!! 1%nat) (ab !!! 2%nat) (ab !!! 3%nat) in
    if (mods =? 0x00) && (length keys =? 1)%nat then 1%nat else 2%nat
  else 0%nat.

(** * Further vocabulary: LED and DPI payloads *)

(** The red, green and blue byte of a 24-bit colour. *)
Definition color_red (color : Z) : Z := (color / 65536) mod 256.
Definition color_green (color : Z) : Z := (color / 256) mod 256.
Definition color_blue (color : Z) : Z := color mod 256.

(** The byte that completes a sum to 0x55 modulo 256. *)
Definition complement (sum : Z) : Z := (0x55 - sum) mod 256.

(** The colour packet of the Steady ([mode_byte] 1) and Respiration
    ([mode_byte] 2) modes before its checksum. *)
Definition led_color_layout (mode_byte color brightness : Z) : Packet :=
  [0x08; 0x07; 0x00; 0x00; 0x54; 0x08;
   color_red color; color_green color; color_blue color;
   complement (color_red color + color_green color + color_blue color);
   mode_byte; complement mode_byte;
   brightness; complement brightness;
   0x00; 0x00; 0xeb].

(** The speed packet of the Respiration mode before its checksum. *)
Definition led_speed_layout (speed : Z) : Packet :=
  [0x08; 0x07; 0x00; 0x00; 0x5c; 0x02; speed; complement speed;
   0x00; 0x00; 0x00; 0x00; 0x00; 0x00; 0x00; 0x00; 0x93].

(** The four payload bytes of DPI slot [i]: offsets +0 .. +3. *)
Definition slot_group (pkts : list Packet) (i : nat) : list Z :=
  let '(pkt, off) := slot_pos i in
  [(pkts !!! pkt) !!! off; (pkts !!! pkt) !!! (off + 1)%nat;
   (pkts !!! pkt) !!! (off + 2)%nat; (pkts !!! pkt) !!! (off + 3)%nat].

(** A well-formed entry of the DPI table: the code is doubled and closed
    by the byte that completes the sum to 0x55. *)
Definition dpi_entry_ok (entry : Z * (Z * Z * Z)) : bool :=
  let '(_, (c0, c1, c2)) := entry in
  (c0 =? c1) && (0 <=? c0) && (c0 <? 256) && (c2 =? complement (c0 + c1)).

Definition dpi_all_default : DpiSettings :=
  {| values := [0; 0; 0; 0; 0]; enabled := [true; true; true; true; true] |}.

(** * Further vocabulary: action codes *)

Definition is_byte (b : Z) : bool := (0 <=? b) && (b <? 256).

(** A fixed literal of the action table: four bytes, not the keyboard
    marker 0x90, and, unless multimedia, closed by the byte that completes
    the sum to 0x55. *)
Definition literal_ok (entry : string * ActionBytes) : bool :=
  let ab := entry.2 in
  (length ab =? 4)%nat && forallb is_byte ab
  && negb (ab !!! 0%nat =? 0x90)
  && (is_keyboard_action ab || (byte_sum ab mod 256 =? 0x55)).

(** * Configuration values ([config.cpp], [config.h]) *)

Open Scope string_scope.

(** [trim]: the characters dropped are space, tab, carriage return and
    line feed. *)
Definition is_ws (c : ascii) : bool :=
  let n := nat_of_ascii c in
  ((n =? 32) || (n =? 9) || (n =? 13) || (n =? 10))%nat.

(** [s.find_first_not_of(ws)]; [None] is [npos]. *)
Fixpoint find_first_not_of_ws (s : string) : option nat :=
  match s with
  | EmptyString => None
  | String c rest =>
      if is_ws c then
        match find_first_not_of_ws rest with
        | Some i => Some (S i)
        | None => None
        end
      else Some 0%nat
  end.

(** [s.find_last_not_of(ws)]. *)
Fixpoint find_last_not_of_ws (s : string) : option nat :=
  match s with
  | EmptyString => None
  | String c rest =>
      match find_last_not_of_ws rest with
      | Some i => Some (S i)
      | None => if is_ws c then None else Some 0%nat
      end
  end.

Definition trim (s : string) : string :=
  match find_first_not_of_ws s with
  | None => ""
  | Some start =>
      match find_last_not_of_ws s with
      | Some last => substring start (last - start + 1) s
      | None => ""
      end
  end.

(** The table of [parse_button_name]; a [Button] is its [uint8_t] value. *)
Definition button_table : list (string * Z) :=
  [ ("button_1",      0);  ("button_2",      1);  ("button_3",      2);
    ("button_4",      3);  ("button_5",      4);  ("button_6",      5);
    ("button_right",  6);  ("button_left",   7);
    ("button_7",      8);  ("button_8",      9);
    ("button_middle", 10); ("button_fire",   11);
    ("button_9",      12); ("button_10",     13);
    ("button_11",     14); ("button_12",     15);
    ("button_side1",  0);  ("button_side2",  1);  ("button_side3",  2);
    ("button_side4",  3);  ("button_side5",  4);  ("button_side6",  5);
    ("button_side7",  8);  ("button_side8",  9);  ("button_side9",  12);
    ("button_side10", 13); ("button_side11", 14); ("button_side12", 15) ]%Z.

Definition parse_button_name (name : string) : option Z :=
  table_find button_table (to_lower name).

Definition parse_led_mode (s : string) : option LedMode :=
  let sl := to_lower s in
  if String.eqb sl "off" then Some Off
  else if String.eqb sl "static" then Some Steady
  else if String.eqb sl "steady" then Some Steady
  else if String.eqb sl "breathing" then Some Respiration
  else if String.eqb sl "respiration" then Some Respiration
  else if String.eqb sl "rainbow" then Some Rainbow
  else None.

(** [std::stoul(str, nullptr, 16)] with a 64-bit [unsigned long]: white
    space, an optional sign, an optional [0x] / [0X] in front of a hex
    digit, then hex digits; trailing text is ignored.  The result is the
    signed value read; the conversion to the unsigned target type is the
    caller's cast.  [None] is a thrown exception. *)
Definition hex_digit_of (c : ascii) : option Z :=
  let n := nat_of_ascii c in
  if ((48 <=? n) && (n <=? 57))%nat then Some (Z.of_nat n - 48)%Z
  else if ((97 <=? n) && (n <=? 102))%nat then Some (Z.of_nat n - 87)%Z
  else if ((65 <=? n) && (n <=? 70))%nat then Some (Z.of_nat n - 55)%Z
  else None.

Fixpoint read_hex_digits (acc : Z) (s : string) : Z :=
  match s with
  | String c rest =>
      match hex_digit_of c with
      | Some d => read_hex_digits (16 * acc + d)%Z rest
      | None => acc
      end
  | EmptyString => acc
  end.

Definition skip_hex_prefix (s : string) : string :=
  match s with
  | String "0"%char (String x (String d rest)) =>
      if (Ascii.eqb x "x" || Ascii.eqb x "X")
      then match hex_digit_of d with
           | Some _ => String d rest
           | None => s
           end
      else s
  | _ => s
  end.

Definition stoul16 (str : string) : option Z :=
  let s := skip_space str in
  let '(neg, s) :=
    match s with
    | String "-"%char rest => (true, rest)
    | String "+"%char rest => (false, rest)
    | _ => (false, s)
    end in
  let s := skip_hex_prefix s in
  match s with
  | String c _ =>
      match hex_digit_of c with
      | Some _ =>
          let v := read_hex_digits 0 s in
          if (v <=? 18446744073709551615)%Z
          then Some (if (neg : bool) then (- v)%Z else v)
          else None
      | None => None
      end
  | EmptyString => None
  end.

Definition u32 (z : Z) : Z := Z.land z 0xFFFFFFFF.

Definition parse_color (s : string) : option Z :=
  let hex := match s with
             | String "#"%char rest => rest
             | _ => s
             end in
  if (String.length hex =? 6)%nat
  then match stoul16 hex with
       | Some v => Some (u32 v)
       | None => None
       end
  else None.

(** [Config] and its nested structs.  [cfg_buttons] is the
    [std::map<std::string, std::string>] as the list of its entries in
    iteration order. *)
Inductive Profile := P1 | P2.

Record DpiConfig := { dpi_value : Z; dpi_enabled : bool }.

Record LedConfig := {
  led_mode : LedMode;
  led_color : Z;
  led_brightness : Z;
  led_speed : Z;
  led_set : bool
}.

Record MouseConfig := { polling_rate : Z; mouse_set : bool }.

Record Config := {
  cfg_profile : Profile;
  cfg_dpi : list DpiConfig;
  cfg_buttons : list (string * string);
  cfg_led : LedConfig;
  cfg_mouse : MouseConfig
}.

(** The member initialisers of [Config]. *)
Definition default_config : Config :=
  {| cfg_profile := P1;
     cfg_dpi := replicate 5 {| dpi_value := 0; dpi_enabled := true |};
     cfg_buttons := [];
     cfg_led := {| led_mode := Rainbow; led_color := 0x00ff00;
                   led_brightness := 0xff; led_speed := 0x03; led_set := false |};
     cfg_mouse := {| polling_rate := 1000; mouse_set := false |} |}.

#[global] Instance DpiConfig_inhabited : Inhabited DpiConfig :=
  populate {| dpi_value := 0; dpi_enabled := true |}.

(** What [validate_config] throws. *)
Inductive ValidationError :=
| BadPollingRate (r : Z)
| BadDpiValue (slot : nat) (v : Z)
| UnknownButtonName (key : string)
| UnknownAction (key action : string).

(** The range test of the DPI loop. *)
Definition dpi_value_rejected (v : Z) : bool :=
  ((v <? 100) || (16000 <? v) || negb (v mod 100 =? 0))%Z.

Fixpoint validate_dpi (slots : list DpiConfig) (i : nat) : option ValidationError :=
  match slots with
  | [] => None
  | d :: rest =>
      let v := dpi_value d in
      if (v =? 0)%Z then validate_dpi rest (S i)
      else if dpi_value_rejected v then Some (BadDpiValue (S i) v)
      else validate_dpi rest (S i)
  end.

Fixpoint validate_buttons (buttons : list (string * string)) : option ValidationError :=
  match buttons with
  | [] => None
  | (key, action) :: rest =>
      match parse_button_name key with
      | None => Some (UnknownButtonName key)
      | Some _ =>
          match parse_action action with
          | None => Some (UnknownAction key action)
          | Some _ => validate_buttons rest
          end
      end
  end.

(** [validate_config]: [None] when it returns, the exception otherwise. *)
Definition validate_config (cfg : Config) : option ValidationError :=
  let r := polling_rate (cfg_mouse cfg) in
  if mouse_set (cfg_mouse cfg)
     && negb (r =? 125)%Z && negb (r =? 250)%Z && negb (r =? 500)%Z && negb (r =? 1000)%Z
  then Some (BadPollingRate r)
  else
    match validate_dpi (take 5 (cfg_dpi cfg)) 0 with
    | Some e => Some e
    | None => validate_buttons (cfg_buttons cfg)
    end.

Close Scope string_scope.

(** * Applying a configuration ([main.cpp]) *)

(** One iteration of the button loop of [apply_config]: an unknown button
    or action is skipped with a warning. *)
Definition collect_button (acc : gmap Z ActionBytes * Registry)
    (entry : string * string) : gmap Z ActionBytes * Registry :=
  let '(btn_changes, g) := acc in
  let '(key, action_str) := entry in
  match parse_button_name key with
  | None => acc
  | Some btn =>
      match parse_action action_str with
      | None => acc
      | Some ab =>
          (<[btn := ab]> btn_changes,
           if (ab !!! 0%nat =? 0x90) && (1 <? ab !!! 3%nat)
           then register_multikey_action btn action_str g
           else g)
      end
  end.

Definition collect_buttons (buttons : list (string * string)) (g : Registry)
  : gmap Z ActionBytes * Registry :=
  fold_left collect_button buttons (∅, g).

(** The commit packet that ends a session. *)
Definition commit_packet : Packet :=
  seal (<[1%nat := 0x04]> (<[0%nat := 0x08]> zero_packet)).

(** The packet sequences [apply_config] hands to [send_sequence], in
    order (an empty sequence is not sent), and the registry afterwards;
    [None] when the button builder does not return. *)
Definition apply_config (cfg : Config) (g : Registry)
  : option (list (list Packet) * Registry) :=
  let '(btn_changes, g) := collect_buttons (cfg_buttons cfg) g in
  '(button_seq, g) ←
    (if decide (btn_changes = ∅) then Some ([], g)
     else '(pkts, g') ← build_button_mapping btn_changes g; Some ([pkts], g'));
  let any_dpi := existsb (fun d => negb (dpi_value d =? 0)) (take 5 (cfg_dpi cfg)) in
  let dpi_seq :=
    if any_dpi
    then [build_dpi_packets
            {| values := dpi_value <$> take 5 (cfg_dpi cfg);
               enabled := dpi_enabled <$> take 5 (cfg_dpi cfg) |}]
    else [] in
  let led := cfg_led cfg in
  let led_seq :=
    if led_set led
    then [build_led_packets (led_mode led) (led_color led)
                            (led_brightness led) (led_speed led)]
    else [] in
  let polling_seq :=
    if mouse_set (cfg_mouse cfg)
    then [[build_polling_rate_packet (polling_rate (cfg_mouse cfg))]]
    else [] in
  Some (button_seq ++ dpi_seq ++ led_seq ++ polling_seq, g).

(** The LED mode of the inline [--led] option of [main]: the same names,
    tested in another order. *)
Definition inline_led_mode (led_arg : string) : option LedMode :=
  let sl := to_lower led_arg in
  if String.eqb sl "off"%string then Some Off
  else if String.eqb sl "rainbow"%string then Some Rainbow
  else if String.eqb sl "static"%string then Some Steady
  else if String.eqb sl "steady"%string then Some Steady
  else if String.eqb sl "breathing"%string then Some Respiration
  else if String.eqb sl "respiration"%string then Some Respiration
  else None.

(** * Further vocabulary: configurations *)

(** The DPI values [validate_config] lets through: 100, 200, ..., 16000. *)
Definition accepted_dpi_values : list Z := (fun k => 100 * k) <$> seqZ 1 160.

Definition has_dpi_entry (v : Z) : bool :=
  match lookup_dpi v with Some _ => true | None => false end.

(** A button entry both parsers accept. *)
Definition button_entry_ok (entry : string * string) : Prop :=
  is_Some (parse_button_name entry.1) /\ is_Some (parse_action entry.2).

Definition dpi_slot_ok (d : DpiConfig) : Prop :=
  dpi_value d = 0 \/ (exists k, 1 <= k <= 160 /\ dpi_value d = 100 * k).

Definition polling_rate_ok (m : MouseConfig) : Prop :=
  mouse_set m = true ->
  polling_rate m = 125 \/ polling_rate m = 250 \/ polling_rate m = 500
  \/ polling_rate m = 1000.

(** A configuration with the DPI flags reset to "enabled". *)
Definition with_all_enabled (cfg : Config) : Config :=
  {| cfg_profile := cfg_profile cfg;
     cfg_dpi := (fun d => {| dpi_value := dpi_value d; dpi_enabled := true |}) <$> cfg_dpi cfg;
     cfg_buttons := cfg_buttons cfg;
     cfg_led := cfg_led cfg;
     cfg_mouse := cfg_mouse cfg |}.

(** The sections of a configuration [apply_config] has something to send
    for, given the collected button changes. *)
Definition configured_sections (cfg : Config) (btn_changes : gmap Z ActionBytes) : nat :=
  ((if decide (btn_changes = ∅) then 0 else 1)
   + (if existsb (fun d => negb (dpi_value d =? 0)%Z) (take 5 (cfg_dpi cfg)) then 1 else 0)
   + (if led_set (cfg_led cfg) then 1 else 0)
   + (if mouse_set (cfg_mouse cfg) then 1 else 0))%nat.

(** The invariant of the button loop of [apply_config]. *)
Definition collected_ok (acc : gmap Z ActionBytes * Registry) : Prop :=
  forall btn ab, acc.1 !! btn = Some ab ->
    0 <= btn < 16 /\
    exists action_str, parse_action action_str = Some ab /\
      (ab !!! 0%nat = 0x90 -> 1 < ab !!! 3%nat -> acc.2 !! btn = Some action_str).

(** The number of modifiers and keys a keyboard code stands for: the set
    bits of the modifier byte plus the key count (the first key alone when
    the count byte is 0 or 1). *)
Definition binding_size (ab : ActionBytes) : nat :=
  (length (active_modifier_bits (ab !!! 1%nat))
   + (if (1 <? ab !!! 3%nat)%Z then Z.to_nat (ab !!! 3%nat)
      else if (ab !!! 2%nat =? 0x00)%Z then 0 else 1))%nat.

(** A sample configuration: two buttons, one DPI value, LED and polling
    rate set. *)
Definition sample_config : Config :=
  {| cfg_profile := P1;
     cfg_dpi := [ {| dpi_value := 0; dpi_enabled := true |};
                  {| dpi_value := 3200; dpi_enabled := true |};
                  {| dpi_value := 0; dpi_enabled := true |};
                  {| dpi_value := 0; dpi_enabled := true |};
                  {| dpi_value := 0; dpi_enabled := false |} ];
     cfg_buttons := [("button_1", "ctrl+a+b"); ("button_left", "right")]%string;
     cfg_led := {| led_mode := Steady; led_color := 0x00ff00;
                   led_brightness := 0xff; led_speed := 0x03; led_set := true |};
     cfg_mouse := {| polling_rate := 500; mouse_set := true |} |}.

(** A configuration that only switches DPI levels off. *)
Definition flags_only_config : Config :=
  {| cfg_profile := P1;
     cfg_dpi := [ {| dpi_value := 0; dpi_enabled := true |};
                  {| dpi_value := 0; dpi_enabled := true |};
                  {| dpi_value := 0; dpi_enabled := true |};
                  {| dpi_value := 0; dpi_enabled := false |};
                  {| dpi_value := 0; dpi_enabled := false |} ];
     cfg_buttons := [];
     cfg_led := cfg_led default_config;
     cfg_mouse := cfg_mouse default_config |}.

(** * Further vocabulary: text *)

Open Scope string_scope.

(** A text that consists of [trim]'s white space only. *)
Fixpoint blank (s : string) : bool :=
  match s with
  | "" => true
  | String c rest => is_ws c && blank rest
  end.

Definition starts_with_ws (s : string) : bool :=
  match s with
  | "" => false
  | String c _ => is_ws c
  end.

Fixpoint ends_with_ws (s : string) : bool :=
  match s with
  | "" => false
  | String c "" => is_ws c
  | String _ rest => ends_with_ws rest
  end.

(** The text up to the last character that is no white space. *)
Definition drop_back (s : string) : string :=
  match find_last_not_of_ws s with
  | Some last => substring 0 (S last) s
  | None => ""
  end.

Close Scope string_scope.

Open Scope string_scope.

(** Vocabulary for [split]. *)
Fixpoint has_char (d : ascii) (s : string) : bool :=
  match s with
  | "" => false
  | String c rest => Ascii.eqb c d || has_char d rest
  end.

Fixpoint remove_char (d : ascii) (s : string) : string :=
  match s with
  | "" => ""
  | String c rest => if Ascii.eqb c d then remove_char d rest else String c (remove_char d rest)
  end.

(** A possible token: not empty and free of the delimiter. *)
Definition token_ok (d : ascii) (t : string) : Prop :=
  t <> "" /\ has_char d t = false.

(** The tokens put one after the other. *)
Definition glue (ts : list string) : string := fold_right String.append "" ts.

Fixpoint join (d : ascii) (ts : list string) : string :=
  match ts with
  | [] => ""
  | [t] => t
  | t :: rest => t ++ String d (join d rest)
  end.

Close Scope string_scope.

(** * Reading a configuration file ([parse_config_file])

    The function is modelled on the lines [std::getline] hands it, one
    string per line without its line feed. *)

Open Scope string_scope.

(** The text before and after the first occurrence of [d]. *)
Fixpoint break_at (d : ascii) (s : string) : option (string * string) :=
  match s with
  | "" => None
  | String c rest =>
      if Ascii.eqb c d then Some ("", rest)
      else match break_at d rest with
           | Some (before, after) => Some (String c before, after)
           | None => None
           end
  end.

(** [std::regex_match(line, m, re_section)]: an opening bracket, one or
    more characters other than a closing bracket, a closing bracket; the
    result is the sub-match [m[1]].  The whole line has to match, so the
    first closing bracket is its last character. *)
Definition match_section (line : string) : option string :=
  match line with
  | String c rest =>
      if Ascii.eqb c "[" then
        match break_at "]" rest with
        | Some (name, after) =>
            if negb (String.eqb name "") && String.eqb after "" then Some name else None
        | None => None
        end
      else None
  | "" => None
  end.

(** The [.] of an ECMAScript regex matches no line terminator. *)
Fixpoint has_line_terminator (s : string) : bool :=
  match s with
  | "" => false
  | String c rest =>
      Ascii.eqb c "010" || Ascii.eqb c "013" || has_line_terminator rest
  end.

(** [std::regex_match(line, m, re_kv)]: one or more characters other
    than the equals sign, an equals sign, any characters matched by the
    dot; the result is the sub-matches [m[1]] and [m[2]]. *)
Definition match_kv (line : string) : option (string * string) :=
  match break_at "=" line with
  | Some (k, v) =>
      if negb (String.eqb k "") && negb (has_line_terminator v) then Some (k, v) else None
  | None => None
  end.

(** [re_dpi_val] and [re_dpi_ena]: the text dpi, a digit 1 to 5 and
    nothing else or _enable; the result is the slot
    [std::stoi(dm[1].str()) - 1]. *)
Definition dpi_digit (c : ascii) : option nat :=
  let n := nat_of_ascii c in
  if ((49 <=? n) && (n <=? 53))%nat then Some (n - 49)%nat else None.

Definition match_dpi_key (suffix key : string) : option nat :=
  match key with
  | String c1 (String c2 (String c3 (String c rest))) =>
      if Ascii.eqb c1 "d" && Ascii.eqb c2 "p" && Ascii.eqb c3 "i" && String.eqb rest suffix
      then dpi_digit c
      else None
  | _ => None
  end.

(** [cfg.buttons[key] = value] on the entries in key order. *)
Fixpoint map_set (key value : string) (entries : list (string * string))
  : list (string * string) :=
  match entries with
  | [] => [(key, value)]
  | (k, v) :: rest =>
      match String.compare key k with
      | Lt => (key, value) :: entries
      | Eq => (key, value) :: rest
      | Gt => (k, v) :: map_set key value rest
      end
  end.

(** What [parse_config_file] throws while reading lines. *)
Inductive ParseError :=
| InvalidDpiValue (value : string) (lineno : nat)
| InvalidPollingRate (value : string) (lineno : nat)
| UnknownLedMode (value : string) (lineno : nat)
| InvalidColor (value : string) (lineno : nat)
| InvalidBrightness (value : string) (lineno : nat)
| InvalidSpeed (value : string) (lineno : nat).

Definition with_dpi (cfg : Config) (dpi : list DpiConfig) : Config :=
  {| cfg_profile := cfg_profile cfg; cfg_dpi := dpi; cfg_buttons := cfg_buttons cfg;
     cfg_led := cfg_led cfg; cfg_mouse := cfg_mouse cfg |}.

Definition with_buttons (cfg : Config) (buttons : list (string * string)) : Config :=
  {| cfg_profile := cfg_profile cfg; cfg_dpi := cfg_dpi cfg; cfg_buttons := buttons;
     cfg_led := cfg_led cfg; cfg_mouse := cfg_mouse cfg |}.

Definition with_led (cfg : Config) (led : LedConfig) : Config :=
  {| cfg_profile := cfg_profile cfg; cfg_dpi := cfg_dpi cfg; cfg_buttons := cfg_buttons cfg;
     cfg_led := led; cfg_mouse := cfg_mouse cfg |}.

Definition with_mouse (cfg : Config) (mouse : MouseConfig) : Config :=
  {| cfg_profile := cfg_profile cfg; cfg_dpi := cfg_dpi cfg; cfg_buttons := cfg_buttons cfg;
     cfg_led := cfg_led cfg; cfg_mouse := mouse |}.

(** The [[led]] branch; [led] already has [set = true]. *)
Definition process_led (led : LedConfig) (key value : string) (lineno : nat)
  : ParseError + LedConfig :=
  if String.eqb key "mode" then
    match parse_led_mode value with
    | Some mode =>
        inr {| led_mode := mode; led_color := led_color led;
               led_brightness := led_brightness led; led_speed := led_speed led;
               led_set := led_set led |}
    | None => inl (UnknownLedMode value lineno)
    end
  else if String.eqb key "color" then
    match parse_color value with
    | Some color =>
        inr {| led_mode := led_mode led; led_color := color;
               led_brightness := led_brightness led; led_speed := led_speed led;
               led_set := led_set led |}
    | None => inl (InvalidColor value lineno)
    end
  else if String.eqb key "brightness" then
    match stoi value with
    | Some b =>
        inr {| led_mode := led_mode led; led_color := led_color led;
               led_brightness := u8 (Z.max 0 (Z.min 255 b)); led_speed := led_speed led;
               led_set := led_set led |}
    | None => inl (InvalidBrightness value lineno)
    end
  else if String.eqb key "speed" then
    match stoi value with
    | Some s =>
        inr {| led_mode := led_mode led; led_color := led_color led;
               led_brightness := led_brightness led; led_speed := u8 (Z.max 1 (Z.min 5 s));
               led_set := led_set led |}
    | None => inl (InvalidSpeed value lineno)
    end
  else inr led.

(** The body of [if (std::regex_match(line, m, re_kv))], after [key] and
    [value] are computed. *)
Definition process_pair (cfg : Config) (section key value : string) (lineno : nat)
  : ParseError + Config :=
  if String.eqb section "dpi" then
    match match_dpi_key "" key with
    | Some slot =>
        match stoi value with
        | Some v =>
            inr (with_dpi cfg
                   (<[slot := {| dpi_value := u16 v;
                                 dpi_enabled := dpi_enabled (cfg_dpi cfg !!! slot) |}]>
                      (cfg_dpi cfg)))
        | None => inl (InvalidDpiValue value lineno)
        end
    | None =>
        match match_dpi_key "_enable" key with
        | Some slot =>
            inr (with_dpi cfg
                   (<[slot := {| dpi_value := dpi_value (cfg_dpi cfg !!! slot);
                                 dpi_enabled := negb (String.eqb value "0") |}]>
                      (cfg_dpi cfg)))
        | None => inr cfg
        end
    end
  else if String.eqb section "buttons" then
    inr (with_buttons cfg (map_set key value (cfg_buttons cfg)))
  else if String.eqb section "mouse" then
    if String.eqb key "polling_rate" then
      match stoi value with
      | Some r => inr (with_mouse cfg {| polling_rate := u16 r; mouse_set := true |})
      | None => inl (InvalidPollingRate value lineno)
      end
    else inr cfg
  else if String.eqb section "led" then
    let led := cfg_led cfg in
    let led := {| led_mode := led_mode led; led_color := led_color led;
                  led_brightness := led_brightness led; led_speed := led_speed led;
                  led_set := true |} in
    match process_led led key value lineno with
    | inr led => inr (with_led cfg led)
    | inl e => inl e
    end
  else inr cfg.

(** One iteration of the [std::getline] loop; the state is the
    configuration and the current section. *)
Definition process_line (st : Config * string) (lineno : nat) (raw : string)
  : ParseError + Config * string :=
  let '(cfg, section) := st in
  let line := trim raw in
  match line with
  | "" => inr st
  | String c _ =>
      if Ascii.eqb c "#" || Ascii.eqb c ";" then inr st
      else
        match match_section line with
        | Some name => inr (cfg, to_lower (trim name))
        | None =>
            match match_kv line with
            | Some (k, v) =>
                match process_pair cfg section (to_lower (trim k)) (trim v) lineno with
                | inr cfg => inr (cfg, section)
                | inl e => inl e
                end
            | None => inr st
            end
        end
  end.

Fixpoint parse_from (st : Config * string) (lineno : nat) (lines : list string)
  : ParseError + Config :=
  match lines with
  | [] => inr st.1
  | raw :: rest =>
      match process_line st (S lineno) raw with
      | inr st => parse_from st (S lineno) rest
      | inl e => inl e
      end
  end.

(** [parse_config_file] on the lines of an opened file. *)
Definition parse_config_lines (lines : list string) : ParseError + Config :=
  parse_from (default_config, "") 0 lines.

(** * Further vocabulary: configuration files *)

(** The key order of [std::map<std::string, std::string>]. *)
Definition key_lt (a b : string * string) : Prop := String.compare a.1 b.1 = Lt.

(** Entries in strictly increasing key order. *)
Fixpoint keys_increasing (entries : list (string * string)) : Prop :=
  match entries with
  | [] => True
  | e :: rest =>
      match rest with
      | [] => True
      | e' :: _ => key_lt e e'
      end /\ keys_increasing rest
  end.

(** What holds of every configuration read from a file. *)
Definition config_wf (cfg : Config) : Prop :=
  length (cfg_dpi cfg) = 5%nat
  /\ Forall (fun d => 0 <= dpi_value d < 65536)%Z (cfg_dpi cfg)
  /\ (0 <= polling_rate (cfg_mouse cfg) < 65536)%Z
  /\ (mouse_set (cfg_mouse cfg) = false -> polling_rate (cfg_mouse cfg) = 1000%Z)
  /\ (0 <= led_color (cfg_led cfg) < 4294967296)%Z
  /\ (0 <= led_brightness (cfg_led cfg) <= 255)%Z
  /\ (1 <= led_speed (cfg_led cfg) <= 5)%Z
  /\ keys_increasing (cfg_buttons cfg)
  /\ Forall (fun e => to_lower e.1 = e.1 /\ trim e.1 = e.1 /\ trim e.2 = e.2)
            (cfg_buttons cfg).

(** A line that assigns nothing: blank, a comment, or without [=] after a
    non-empty key. *)
Definition assigns_nothing (raw : string) : bool :=
  match trim raw with
  | "" => true
  | String c _ as line =>
      Ascii.eqb c "#" || Ascii.eqb c ";"
      || match match_section line with
         | Some _ => true
         | None => match match_kv line with Some _ => false | None => true end
         end
  end.

Close Scope string_scope.

(** * The configuration steps of [main] ([main.cpp])

    The part of [main] from the [--config] step to the commit, as the
    packet sequences handed to [send_sequence] in order and the exit code.
    The option values are those the [getopt_long] loop has stored; USB
    transfers are taken to succeed. *)

Open Scope string_scope.

(** The [--button NAME=ACTION] case of the option loop: [None] is the
    error exit. *)
Definition button_option (arg : string) : option (string * string) :=
  match break_at "=" arg with
  | None => None
  | Some (bname, action) =>
      Some (if String.prefix "button_" bname then bname else "button_" ++ bname, action)
  end.

(** The [--dpi SLOT=VALUE] case. *)
Definition dpi_option (arg : string) : option (Z * Z) :=
  match break_at "=" arg with
  | None => None
  | Some (slot_text, value_text) =>
      match stoi slot_text with
      | None => None
      | Some slot =>
          match stoi value_text with
          | None => None
          | Some val =>
              if ((slot <? 1) || (5 <? slot))%Z then None
              else if ((val <? 100) || (16000 <? val) || negb (val mod 100 =? 0))%Z then None
              else Some (slot, u16 val)
          end
      end
  end.

(** The [--polling-rate HZ] case. *)
Definition polling_rate_option (arg : string) : option Z :=
  match stoi arg with
  | None => None
  | Some r =>
      if (negb (r =? 125) && negb (r =? 250) && negb (r =? 500) && negb (r =? 1000))%Z
      then None
      else Some (u16 r)
  end.

Close Scope string_scope.

Record Options := {
  opt_config : option (list string);
  opt_profile : Profile;
  opt_dpi : list (Z * Z);
  opt_led : string;
  opt_buttons : list (string * string);
  opt_polling_rate : Z
}.

(** Where the run stands: the sequences sent so far, the registry and
    [did_config]; or the sequences sent before an error ended it. *)
Inductive Progress :=
| Running (sent : list (list Packet)) (g : Registry) (did_config : bool)
| Failed (sent : list (list Packet)).

Definition with_profile (cfg : Config) (profile : Profile) : Config :=
  {| cfg_profile := profile; cfg_dpi := cfg_dpi cfg; cfg_buttons := cfg_buttons cfg;
     cfg_led := cfg_led cfg; cfg_mouse := cfg_mouse cfg |}.

(** [--config FILE]; the file has been opened and read into lines. *)
Definition config_step (o : Options) (sent : list (list Packet)) (g : Registry)
    (did_config : bool) : option Progress :=
  match opt_config o with
  | None => Some (Running sent g did_config)
  | Some lines =>
      match parse_config_lines lines with
      | inl _ => Some (Failed sent)
      | inr cfg =>
          let cfg := with_profile cfg (opt_profile o) in
          match validate_config cfg with
          | Some _ => Some (Failed sent)
          | None =>
              '(seqs, g) ← apply_config cfg g;
              Some (Running (sent ++ seqs) g true)
          end
      end
  end.

(** The inline [--dpi] arguments. *)
Definition inline_dpi (args : list (Z * Z)) : DpiSettings :=
  fold_left
    (fun dpi '(slot, val) =>
       if (1 <=? slot) && (slot <=? 5)
       then {| values := <[Z.to_nat (slot - 1) := val]> (values dpi);
               enabled := enabled dpi |}
       else dpi)
    args
    {| values := [0; 0; 0; 0; 0]; enabled := [true; true; true; true; true] |}.

Definition dpi_step (o : Options) (sent : list (list Packet)) (g : Registry)
    (did_config : bool) : option Progress :=
  match opt_dpi o with
  | [] => Some (Running sent g did_config)
  | args => Some (Running (sent ++ [build_dpi_packets (inline_dpi args)]) g true)
  end.

Definition led_step (o : Options) (sent : list (list Packet)) (g : Registry)
    (did_config : bool) : option Progress :=
  if String.eqb (opt_led o) "" then Some (Running sent g did_config)
  else
    match inline_led_mode (opt_led o) with
    | None => Some (Failed sent)
    | Some mode =>
        Some (Running (sent ++ [build_led_packets mode 0x00ff00 0xff 0x03]) g true)
    end.

(** The loop over the inline [--button] arguments: [None] is the error
    exit at the first unknown name or action. *)
Fixpoint collect_inline (args : list (string * string))
    (acc : gmap Z ActionBytes * Registry) : option (gmap Z ActionBytes * Registry) :=
  match args with
  | [] => Some acc
  | (name, action_str) :: rest =>
      let '(btn_changes, g) := acc in
      match parse_button_name name with
      | None => None
      | Some btn =>
          match parse_action action_str with
          | None => None
          | Some ab =>
              collect_inline rest
                (<[btn := ab]> btn_changes,
                 if (ab !!! 0%nat =? 0x90) && (1 <? ab !!! 3%nat)
                 then register_multikey_action btn action_str g
                 else g)
          end
      end
  end.

Definition button_step (o : Options) (sent : list (list Packet)) (g : Registry)
    (did_config : bool) : option Progress :=
  match opt_buttons o with
  | [] => Some (Running sent g did_config)
  | args =>
      match collect_inline args (∅, g) with
      | None => Some (Failed sent)
      | Some (btn_changes, g) =>
          '(pkts, g) ← build_button_mapping btn_changes g;
          Some (Running (sent ++ [pkts]) g true)
      end
  end.

Definition polling_step (o : Options) (sent : list (list Packet)) (g : Registry)
    (did_config : bool) : option Progress :=
  if opt_polling_rate o =? 0 then Some (Running sent g did_config)
  else Some (Running (sent ++ [[build_polling_rate_packet (opt_polling_rate o)]]) g true).

Definition commit_step (sent : list (list Packet)) (did_config : bool)
  : list (list Packet) :=
  if did_config then sent ++ [[commit_packet; commit_packet]] else sent.

(** Run the next step unless the run has failed. *)
Definition and_then (p : option Progress)
    (step : list (list Packet) -> Registry -> bool -> option Progress) : option Progress :=
  match p with
  | Some (Running sent g did_config) => step sent g did_config
  | other => other
  end.

(** The sequences sent and the exit code; [None] when the button builder
    does not return. *)
Definition configure (o : Options) (g : Registry) : option (list (list Packet) * Z) :=
  match
    and_then (and_then (and_then (and_then (config_step o [] g false)
      (dpi_step o)) (led_step o)) (button_step o)) (polling_step o)
  with
  | Some (Running sent _ did_config) => Some (commit_step sent did_config, 0)
  | Some (Failed sent) => Some (sent, 1)
  | None => None
  end.

(** * Further vocabulary: runs *)

Definition commit_sequence : list Packet := [commit_packet; commit_packet].

(** Something was asked for. *)
Definition has_request (o : Options) : bool :=
  match opt_config o with Some _ => true | None => false end
  || match opt_dpi o with [] => false | _ => true end
  || negb (String.eqb (opt_led o) "")
  || match opt_buttons o with [] => false | _ => true end
  || negb (opt_polling_rate o =? 0).

Definition with_opt_profile (o : Options) (profile : Profile) : Options :=
  {| opt_config := opt_config o; opt_profile := profile; opt_dpi := opt_dpi o;
     opt_led := opt_led o; opt_buttons := opt_buttons o;
     opt_polling_rate := opt_polling_rate o |}.

(** A run that fails at the LED step after a DPI sequence has gone out. *)
Definition failing_options : Options :=
  {| opt_config := None; opt_profile := P1; opt_dpi := [(2, 3200)];
     opt_led := "blink"; opt_buttons := []; opt_polling_rate := 0 |}.

Definition sample_options : Options :=
  {| opt_config := Some ["[led]"; "mode=steady"]%string; opt_profile := P2;
     opt_dpi := [(2, 3200)]; opt_led := ""; opt_buttons := [("button_1", "a+b")]%string;
     opt_polling_rate := 500 |}.

(** A sequence a builder may have produced: valid checksums, and not the
    commit sequence. *)
Definition sequence_ok (pkts : list Packet) : Prop :=
  Forall checksum_ok pkts /\ pkts <> commit_sequence.

(** What holds after each step; [requested] tells whether one of the
    options seen so far was given. *)
Definition progress_ok (requested : bool) (p : Progress) : Prop :=
  match p with
  | Running sent _ did_config =>
      Forall sequence_ok sent /\ did_config = requested /\ (requested = false -> sent = [])
  | Failed sent => Forall sequence_ok sent
  end.

Definition step_ok (flag : bool)
    (step : list (list Packet) -> Registry -> bool -> option Progress) : Prop :=
  forall sent g did_config p,
    Forall sequence_ok sent -> step sent g did_config = Some p ->
    match p with
    | Running sent' _ did_config' =>
        Forall sequence_ok sent' /\ did_config' = did_config || flag
        /\ (flag = false -> sent' = sent)
    | Failed sent' => Forall sequence_ok sent'
    end.

(** * Printing and raw sending ([hexdump_packet], [--raw-send]) *)

Open Scope string_scope.

(** One digit of [std::hex] output. *)
Definition hex_char (d : Z) : ascii :=
  ascii_of_nat (Z.to_nat (if (d <? 10)%Z then 48 + d else 87 + d)%Z).

(** [std::setw(2)] with fill ['0'] on a byte. *)
Definition hex2 (b : Z) : string :=
  String (hex_char (b / 16)) (String (hex_char (b mod 16)) "").

Fixpoint hexdump_bytes (bytes : list Z) : string :=
  match bytes with
  | [] => ""
  | [b] => hex2 b
  | b :: rest => hex2 b ++ String " " (hexdump_bytes rest)
  end.

(** What [hexdump_packet] prints for an empty label. *)
Definition hexdump_packet (p : Packet) : string :=
  hexdump_bytes (map (fun i => p !!! i) (seq 0 M913_PACKET_SIZE)) ++ String "010" "".

(** [iss >> token] until it fails: the white-space separated words.
    [part] is the word read so far. *)
Fixpoint words_from (part : string) (s : string) : list string :=
  match s with
  | "" => if String.eqb part "" then [] else [part]
  | String c rest =>
      if isspace c
      then (if String.eqb part "" then words_from "" rest
            else part :: words_from "" rest)
      else words_from (part ++ String c "") rest
  end.

Definition words (s : string) : list string := words_from "" s.

(** The loop [while (iss >> token && byte_idx < M913_PACKET_SIZE - 1)];
    [None] is the error exit at a token [std::stoul] rejects. *)
Fixpoint raw_fill (tokens : list string) (byte_idx : nat) (pkt : Packet) : option Packet :=
  match tokens with
  | [] => Some pkt
  | token :: rest =>
      if (byte_idx <? M913_PACKET_SIZE - 1)%nat
      then match stoul16 token with
           | Some v => raw_fill rest (S byte_idx) (<[byte_idx := u8 v]> pkt)
           | None => None
           end
      else Some pkt
  end.

(** The packet [--raw-send HEX] sends. *)
Definition raw_send_packet (hex : string) : option Packet :=
  pkt ← raw_fill (words hex) 0 zero_packet;
  Some (seal pkt).

Close Scope string_scope.

(** * Properties *)

(** ** Machine integers *)

Lemma u8_mod z : u8 z = z mod 256.
Proof. unfold u8. change 0xFF with (Z.ones 8). now rewrite Z.land_ones. Qed.

Lemma u16_mod z : u16 z = z mod 65536.
Proof. unfold u16. change 0xFFFF with (Z.ones 16). now rewrite Z.land_ones. Qed.

Lemma land_ff_mod z : Z.land z 0xFF = z mod 256.
Proof. apply u8_mod. Qed.

Lemma mod_65536_256 z : (z mod 65536) mod 256 = z mod 256.
Proof.
  apply Z.mod_mod_divide. exists 256. reflexivity.
Qed.

(** ** The checksum *)

Section Checksum.

Lemma byte_sum_app (l1 l2 : list Z) : byte_sum (l1 ++ l2) = byte_sum l1 + byte_sum l2.
Proof. unfold byte_sum. induction l1 as [|x l1 IH]; simpl; [reflexivity | lia]. Qed.

Lemma map_lookup_total_seq (p : list Z) (n : nat) :
  (n <= length p)%nat -> map (fun i => p !!! i) (seq 0 n) = take n p.
Proof.
  revert n. induction p as [|x p IH]; intros [|n] Hn; simpl in *; try reflexivity; try lia.
  f_equal. rewrite <- seq_shift, map_map. apply IH. lia.
Qed.

Lemma fold_u16_sum (p : list Z) (l : list nat) (s : Z) :
  fold_left (fun s i => u16 (s + p !!! i)) l s mod 256
  = (s + byte_sum (map (fun i => p !!! i) l)) mod 256.
Proof.
  revert s. induction l as [|i l IH]; intros s; simpl.
  - f_equal. lia.
  - rewrite IH, u16_mod.
    rewrite Z.add_mod by lia. rewrite mod_65536_256.
    rewrite <- Z.add_mod by lia. f_equal. lia.
Qed.

(** [compute_checksum] is [(0x55 - sum of bytes 0..15) mod 256]. *)
Lemma compute_checksum_spec (p : Packet) :
  (16 <= length p)%nat ->
  compute_checksum p = (0x55 - byte_sum (take 16 p)) mod 256.
Proof.
  intros Hlen. unfold compute_checksum.
  rewrite u8_mod, land_ff_mod, Z.mod_mod by lia.
  change (M913_PACKET_SIZE - 1)%nat with 16%nat.
  rewrite Zminus_mod, fold_u16_sum, map_lookup_total_seq by lia.
  simpl (0 + _). rewrite <- Zminus_mod. reflexivity.
Qed.

Lemma length_seal (p : Packet) : length (seal p) = length p.
Proof. unfold seal. apply length_insert. Qed.

Lemma seal_split (p : Packet) :
  length p = 17%nat -> seal p = take 16 p ++ [compute_checksum p].
Proof.
  intros Hlen. unfold seal.
  do 17 (destruct p as [|? p]; [discriminate|]).
  destruct p; [reflexivity | discriminate].
Qed.

(** After [p[16] = compute_checksum(p)] the packet satisfies the
    invariant. *)
Lemma seal_ok (p : Packet) : length p = 17%nat -> checksum_ok (seal p).
Proof.
  intros Hlen.
  assert (Htake : take 16 (seal p) = take 16 p).
  { unfold seal. apply take_insert_ge. lia. }
  assert (H16 : seal p !!! 16%nat = compute_checksum p).
  { unfold seal. apply list_lookup_total_insert_eq. lia. }
  assert (Hsame : compute_checksum (seal p) = compute_checksum p).
  { rewrite !compute_checksum_spec by (rewrite ?length_seal; lia). now rewrite Htake. }
  unfold checksum_ok. rewrite length_seal, H16, Hsame, Htake.
  repeat split; try assumption.
  - apply compute_checksum_spec. lia.
  - rewrite seal_split, byte_sum_app by assumption.
    rewrite compute_checksum_spec by lia.
    unfold byte_sum at 2. simpl foldr.
    rewrite Z.add_0_r, Zplus_mod_idemp_r.
    replace (_ + _) with 0x55 by lia. reflexivity.
Qed.

End Checksum.

(** ** Packet lengths are preserved by every write *)

Section Lengths.

Lemma Forall_len17_update (buf : list Packet) (pkt : nat) (f : Packet -> Packet) :
  (forall p, length (f p) = length p) ->
  Forall len17 buf -> Forall len17 (<[pkt := f (buf !!! pkt)]> buf).
Proof.
  intros Hf Hbuf. destruct (decide (pkt < length buf)%nat) as [Hlt|Hge].
  - destruct (lookup_lt_is_Some_2 buf pkt Hlt) as [x Hx].
    rewrite (list_lookup_total_correct buf pkt x Hx).
    apply Forall_insert; [assumption|].
    unfold len17. rewrite Hf. rewrite Forall_lookup in Hbuf. exact (Hbuf pkt x Hx).
  - rewrite list_insert_ge by lia. assumption.
Qed.

Lemma set_level_len17 buf pkt off val :
  Forall len17 buf -> Forall len17 (set_level buf pkt off val).
Proof.
  intros Hbuf. unfold set_level. destruct (lookup_dpi val) as [[[c0 c1] c2]|]; [|assumption].
  apply (Forall_len17_update buf pkt
           (fun p => <[(off + 3)%nat := c2]> (<[(off + 1)%nat := c1]> (<[off := c0]> p))));
    [|assumption].
  intros p. now rewrite !length_insert.
Qed.

Lemma set_level_if_len17 buf pkt off val :
  Forall len17 buf -> Forall len17 (set_level_if buf pkt off val).
Proof.
  intros Hbuf. unfold set_level_if. destruct (val =? 0); [assumption|].
  now apply set_level_len17.
Qed.

Lemma write_slot_len17 buf btn_idx bytes :
  Forall len17 buf -> Forall len17 (write_slot buf btn_idx bytes).
Proof.
  unfold write_slot. generalize (seq 0 4). intros ks. revert buf.
  induction ks as [|k ks IH]; intros buf Hbuf; simpl; [assumption|].
  apply IH.
  apply (Forall_len17_update buf _ (fun p => <[_ := _]> p)); [|assumption].
  intros p. apply length_insert.
Qed.

Lemma store_length p i v p' : store p i v = Some p' -> length p' = length p.
Proof.
  unfold store. destruct (decide _); [|discriminate].
  intros [= <-]. apply length_insert.
Qed.

Lemma fold_store_length (step : Packet -> nat -> option Packet) (l : list nat) p p' :
  (forall q i q', step q i = Some q' -> length q' = length q) ->
  fold_left (fun acc i => q ← acc; step q i) l (Some p) = Some p' ->
  length p' = length p.
Proof.
  intros Hstep. revert p. induction l as [|i l IH]; intros p Hfold; simpl in Hfold.
  - now injection Hfold as ->.
  - destruct (step p i) as [q|] eqn:Hq.
    + rewrite (IH q Hfold). eapply Hstep; eassumption.
    + exfalso. clear -Hfold. induction l as [|j l IHl]; simpl in Hfold; [discriminate|auto].
Qed.

Lemma fold_write_length (step : Packet -> nat -> Packet) (l : list nat) p :
  (forall q i, length (step q i) = length q) ->
  length (fold_left step l p) = length p.
Proof.
  intros Hstep. revert p. induction l as [|i l IH]; intros p; simpl; [reflexivity|].
  now rewrite IH, Hstep.
Qed.

End Lengths.

(** ** Each builder establishes the packet invariant *)

Ltac len17_inserts := unfold len17; rewrite ?length_seal, ?length_insert; reflexivity.
Ltac each_packet := repeat (apply Forall_cons_2 || apply Forall_nil_2).
Ltac concrete_checksum_ok := unfold checksum_ok; vm_compute; repeat split; reflexivity.

Section BuilderChecksums.

Lemma polling_packet_ok hz : checksum_ok (build_polling_rate_packet hz).
Proof. unfold build_polling_rate_packet. apply seal_ok. len17_inserts. Qed.

Lemma led_packets_ok mode color brightness speed :
  Forall checksum_ok (build_led_packets mode color brightness speed).
Proof.
  destruct mode; unfold build_led_packets; cbv zeta; each_packet.
  - concrete_checksum_ok.
  - apply seal_ok. len17_inserts.
  - apply seal_ok. len17_inserts.
  - apply seal_ok. len17_inserts.
  - concrete_checksum_ok.
  - concrete_checksum_ok.
Qed.

Lemma Forall_seal_ok (buf : list Packet) :
  Forall len17 buf -> Forall checksum_ok (seal <$> buf).
Proof.
  intros Hbuf. apply Forall_fmap. eapply Forall_impl; [exact Hbuf|].
  intros p Hp. apply seal_ok. exact Hp.
Qed.

Lemma dpi_packets_ok dpi : Forall checksum_ok (build_dpi_packets dpi).
Proof.
  unfold build_dpi_packets. apply Forall_app. split.
  - apply Forall_seal_ok.
    assert (H0 : Forall len17 (from_raw <$> dpi_template))
      by (each_packet; reflexivity).
    match goal with
    | |- Forall len17 (if ?c then ?b else _) =>
        assert (Hb : Forall len17 b) by (repeat apply set_level_if_len17; exact H0);
        destruct c; [exact Hb|]
    end.
    destruct (enable_bytes (enabled dpi)) as [e1 e2].
    apply (Forall_len17_update _ 3 (fun p => <[7%nat := e2]> (<[6%nat := e1]> p)));
      [|assumption].
    intros p. now rewrite !length_insert.
  - each_packet; concrete_checksum_ok.
Qed.

End BuilderChecksums.

Section ButtonChecksums.

Lemma multimedia_subpacket_ok addr_hi addr_lo ab :
  checksum_ok (multimedia_subpacket addr_hi addr_lo ab).
Proof. unfold multimedia_subpacket. apply seal_ok. len17_inserts. Qed.

Lemma single_key_subpacket_ok addr_hi addr_lo key :
  checksum_ok (single_key_subpacket addr_hi addr_lo key).
Proof. unfold single_key_subpacket. apply seal_ok. len17_inserts. Qed.

Lemma combo_packet1_ok addr_hi addr_lo evts :
  checksum_ok (combo_packet1 addr_hi addr_lo evts).
Proof.
  unfold combo_packet1. apply seal_ok. unfold len17.
  rewrite fold_write_length by (intros; apply length_insert).
  now rewrite !length_insert.
Qed.

Lemma combo_packet2_ok addr_hi addr_lo evts p2 :
  combo_packet2 addr_hi addr_lo evts = Some p2 -> checksum_ok p2.
Proof.
  unfold combo_packet2.
  set (p1_evts := (9 `min` length evts)%nat).
  set (remaining := (length evts - p1_evts)%nat).
  set (base := <[5%nat := _]> _).
  destruct (fold_left _ _ (Some base)) as [q|] eqn:Hfold; [|discriminate].
  simpl. destruct (store q _ _) as [q'|] eqn:Hstore; [|discriminate].
  simpl. intros [= <-]. apply seal_ok. unfold len17.
  rewrite (store_length _ _ _ _ Hstore).
  apply (fold_store_length (fun p i => store p (6 + i) (evts !!! (p1_evts + i)%nat))) in Hfold;
    [|intros ? ? ?; apply store_length].
  rewrite Hfold. subst base. now rewrite !length_insert.
Qed.

Lemma keyboard_subpackets_ok addr_hi addr_lo mods keys subs :
  keyboard_subpackets addr_hi addr_lo mods keys = Some subs ->
  Forall checksum_ok subs.
Proof.
  unfold keyboard_subpackets, combo_subpackets.
  destruct (_ && _).
  - intros [= <-]. each_packet. apply single_key_subpacket_ok.
  - destruct (combo_packet2 _ _ _) as [p2|] eqn:Hp2; [|discriminate].
    simpl. intros [= <-]. each_packet.
    + apply combo_packet1_ok.
    + eapply combo_packet2_ok; eassumption.
Qed.

Lemma process_entry_inv g st entry st' :
  build_inv st -> process_entry g st entry = Some st' -> build_inv st'.
Proof.
  destruct st as [buf result], entry as [btn_idx ab].
  intros [Hbuf Hres]. unfold process_entry.
  destruct (16 <=? btn_idx); [intros [= <-]; now split|].
  destruct (_ || _); [|intros [= <-]; split; [now apply write_slot_len17|assumption]].
  destruct (kb_key_addr !!! Z.to_nat btn_idx) as [addr_hi addr_lo].
  destruct (ab !!! 0%nat =? 0x92).
  - simpl. intros [= <-]. split; [now apply write_slot_len17|].
    apply Forall_app. split; [assumption|]. each_packet. apply multimedia_subpacket_ok.
  - destruct (collect_keys _ _ _ _ _) as [mods keys].
    destruct (keyboard_subpackets _ _ _ _) as [subs|] eqn:Hsubs; [|discriminate].
    simpl. intros [= <-]. split; [now apply write_slot_len17|].
    apply Forall_app. split; [assumption|]. eapply keyboard_subpackets_ok; eassumption.
Qed.

Lemma run_entries_None g entries :
  fold_left (fun acc e => st ← acc; process_entry g st e) entries None = None.
Proof. induction entries as [|e entries IH]; simpl; [reflexivity | exact IH]. Qed.

Lemma run_entries_inv g entries st st' :
  build_inv st -> run_entries g entries st = Some st' -> build_inv st'.
Proof.
  unfold run_entries. revert st. induction entries as [|e entries IH]; intros st Hst; simpl.
  - now intros [= <-].
  - destruct (process_entry g st e) as [st1|] eqn:Hstep.
    + apply IH. eapply process_entry_inv; eassumption.
    + now rewrite run_entries_None.
Qed.

Lemma button_mapping_ok changes g pkts g' :
  build_button_mapping changes g = Some (pkts, g') -> Forall checksum_ok pkts.
Proof.
  unfold build_button_mapping.
  destruct (run_entries _ _ _) as [[buf result]|] eqn:Hrun; [|discriminate].
  simpl. intros [= <- _].
  assert (Hinv : build_inv (buf, result)).
  { eapply run_entries_inv; [|exact Hrun]. split; simpl.
    - each_packet; reflexivity.
    - apply Forall_nil_2. }
  destruct Hinv as [Hbuf Hres]. apply Forall_app. split; [assumption|].
  now apply Forall_seal_ok.
Qed.

End ButtonChecksums.

(** ** DPI: a closed form of [build_dpi_packets] *)

Section Dpi.

Lemma insert_lookup_total_id (buf : list Packet) (pkt : nat) :
  <[pkt := buf !!! pkt]> buf = buf.
Proof. apply list_insert_id'. intros Hlt. now apply list_lookup_lookup_total_lt. Qed.

Lemma set_level_if_put buf pkt off val :
  set_level_if buf pkt off val = <[pkt := put_code off (dpi_code val) (buf !!! pkt)]> buf.
Proof.
  unfold set_level_if, set_level, dpi_code, put_code.
  destruct (val =? 0); [now rewrite insert_lookup_total_id|].
  destruct (lookup_dpi val) as [[[c0 c1] c2]|]; [reflexivity|].
  now rewrite insert_lookup_total_id.
Qed.

Lemma build_dpi_closed dpi :
  build_dpi_packets dpi =
    [ seal (put_code 10 (dpi_code (values dpi !!! 1%nat))
              (put_code 6 (dpi_code (values dpi !!! 0%nat)) (dpi_template !!! 0%nat)));
      seal (put_code 10 (dpi_code (values dpi !!! 3%nat))
              (put_code 6 (dpi_code (values dpi !!! 2%nat)) (dpi_template !!! 1%nat)));
      seal (put_code 6 (dpi_code (values dpi !!! 4%nat)) (dpi_template !!! 2%nat));
      seal (put_enable (enabled dpi) (dpi_template !!! 3%nat)) ]
    ++ unknown2.
Proof.
  unfold build_dpi_packets. rewrite !set_level_if_put.
  unfold put_enable.
  destruct (num_enabled (enabled dpi) =? 0); [reflexivity|].
  destruct (enable_bytes (enabled dpi)) as [e1 e2]. reflexivity.
Qed.

Lemma seal_lookup_lt (p : Packet) (i : nat) :
  (i < 16)%nat -> seal p !!! i = p !!! i.
Proof. intros Hi. unfold seal. apply list_lookup_total_insert_ne. lia. Qed.

Lemma dpi_code_nonzero val : val <> 0 -> dpi_code val = lookup_dpi val.
Proof. intros Hv. unfold dpi_code. destruct (Z.eqb_spec val 0); [contradiction | reflexivity]. Qed.

(** The slot bytes after the build: the code when the value has a table
    entry, the template bytes otherwise. *)
Lemma slot_bytes_build dpi i :
  (i < 5)%nat ->
  slot_bytes (build_dpi_packets dpi) i =
    match dpi_code (values dpi !!! i) with
    | Some c => c
    | None => slot_bytes dpi_template i
    end.
Proof.
  intros Hi. rewrite build_dpi_closed. unfold slot_bytes.
  destruct i as [|[|[|[|[|i]]]]]; try lia; simpl slot_pos; cbv iota beta;
    simpl (_ ++ _); simpl (lookup_total _ (_ :: _));
    rewrite !seal_lookup_lt by lia.
  - destruct (dpi_code (values dpi !!! 0%nat)) as [[[a0 a1] a2]|];
      destruct (dpi_code (values dpi !!! 1%nat)) as [[[b0 b1] b2]|]; reflexivity.
  - destruct (dpi_code (values dpi !!! 0%nat)) as [[[a0 a1] a2]|];
      destruct (dpi_code (values dpi !!! 1%nat)) as [[[b0 b1] b2]|]; reflexivity.
  - destruct (dpi_code (values dpi !!! 2%nat)) as [[[a0 a1] a2]|];
      destruct (dpi_code (values dpi !!! 3%nat)) as [[[b0 b1] b2]|]; reflexivity.
  - destruct (dpi_code (values dpi !!! 2%nat)) as [[[a0 a1] a2]|];
      destruct (dpi_code (values dpi !!! 3%nat)) as [[[b0 b1] b2]|]; reflexivity.
  - destruct (dpi_code (values dpi !!! 4%nat)) as [[[a0 a1] a2]|]; reflexivity.
Qed.

(** A slot value without table entry has the effect of an unset slot. *)
Lemma build_dpi_no_entry dpi i :
  lookup_dpi (values dpi !!! i) = None ->
  build_dpi_packets dpi = build_dpi_packets (set_value dpi i 0).
Proof.
  intros Hnone. rewrite !build_dpi_closed. unfold set_value.
  cbn [values enabled].
  assert (Hsame : forall j, dpi_code (<[i := 0]> (values dpi) !!! j) = dpi_code (values dpi !!! j)).
  { intros j. rewrite list_lookup_total_insert.
    destruct (decide (i = j /\ (i < length (values dpi))%nat)) as [[Hij _]|_]; [|reflexivity].
    subst j. unfold dpi_code. rewrite Hnone.
    destruct (values dpi !!! i =? 0); reflexivity. }
  now rewrite !Hsame.
Qed.

Lemma lookup_dpi_in_sound tbl val c : lookup_dpi_in tbl val = Some c -> In (val, c) tbl.
Proof.
  induction tbl as [|[d b] tbl IH]; simpl; [discriminate|].
  destruct (Z.eqb_spec d val) as [->|_].
  - intros [= ->]. now left.
  - intros H. right. auto.
Qed.

Lemma lookup_dpi_in_complete tbl val c :
  NoDup (map fst tbl) -> In (val, c) tbl -> lookup_dpi_in tbl val = Some c.
Proof.
  induction tbl as [|[d b] tbl IH]; simpl; [contradiction|].
  intros Hnd [Heq|Hin].
  - injection Heq as -> ->. now rewrite Z.eqb_refl.
  - apply NoDup_cons in Hnd as [Hnotin Hnd].
    destruct (Z.eqb_spec d val) as [->|_]; [|auto].
    exfalso. apply Hnotin. apply list_elem_of_In. apply (in_map fst _ _ Hin).
Qed.

Lemma dpi_table_keys_NoDup : NoDup (map fst dpi_table).
Proof. apply (bool_decide_unpack _). vm_compute. exact I. Qed.

(** [lookup_dpi] is exact-match lookup in [dpi_table]. *)
Lemma lookup_dpi_exact val c : lookup_dpi val = Some c <-> In (val, c) dpi_table.
Proof.
  split.
  - apply lookup_dpi_in_sound.
  - apply lookup_dpi_in_complete, dpi_table_keys_NoDup.
Qed.

Lemma enable_pair_build dpi :
  enable_pair (build_dpi_packets dpi) =
    if num_enabled (enabled dpi) =? 0 then (0x05, 0x50) else enable_bytes (enabled dpi).
Proof.
  rewrite build_dpi_closed. unfold enable_pair.
  simpl (_ ++ _); simpl (lookup_total _ (_ :: _)).
  rewrite !seal_lookup_lt by lia. unfold put_enable.
  destruct (num_enabled (enabled dpi) =? 0); [reflexivity|].
  destruct (enable_bytes (enabled dpi)) as [e1 e2]. reflexivity.
Qed.

(** The cascade of [if (!dpi.enabled[k])] keeps the assignment of the
    lowest disabled level. *)
Lemma enable_bytes_lowest en : enable_bytes en = pair_below (lowest_disabled en).
Proof.
  unfold enable_bytes, lowest_disabled, disabled_levels. simpl omap.
  destruct (en !!! 1%nat), (en !!! 2%nat), (en !!! 3%nat), (en !!! 4%nat); reflexivity.
Qed.

End Dpi.

(** ** Claims about the DPI builder *)

(** C4, at the failing input.  The comment above the cascade reads
    "highest disabled level determines the enable bytes".  With levels 4
    and 5 disabled the highest-numbered disabled level is 5, as it is with
    level 5 alone disabled, for which the pair written is (0x04, 0x51);
    yet the pair written is (0x03, 0x52): the tests follow each other
    without [else], so the test of level 4 overwrites what the test of
    level 5 has set.  The pair is no function of the highest-numbered
    disabled level. *)
Lemma enable_pair_not_from_highest_disabled :
  highest_disabled (enabled dpi_only5_off) = Some 5 /\
  highest_disabled (enabled dpi_top45_off) = Some 5 /\
  enable_pair (build_dpi_packets dpi_only5_off) = (0x04, 0x51) /\
  enable_pair (build_dpi_packets dpi_top45_off) = (0x03, 0x52) /\
  enable_pair (build_dpi_packets dpi_top45_off)
    <> pair_below (highest_disabled (enabled dpi_top45_off)).
Proof. repeat split; try reflexivity. vm_compute. discriminate. Qed.

(** What the cascade computes for every input: the enable byte-pair is
    the one of the lowest-numbered disabled level among levels 2-5 (all
    five announced when none is disabled; level 1 has no influence); when
    no level at all is enabled the pair keeps the template default (0x05,
    0x50).  Disabling level 5 only yields (0x04, 0x51), and changes nothing
    else but the checksum byte of that packet. *)
Lemma enable_pair_from_lowest_disabled (dpi : DpiSettings) :
  (num_enabled (enabled dpi) =? 0)
    = forallb (fun i => negb (enabled dpi !!! i)) (seq 0 5) /\
  enable_pair (build_dpi_packets dpi)
    = (if num_enabled (enabled dpi) =? 0 then enable_pair dpi_template
       else pair_below (lowest_disabled (enabled dpi))) /\
  enable_pair dpi_template = (0x05, 0x50) /\
  (let off5 := {| values := values dpi; enabled := [true; true; true; true; false] |} in
   let all_on := {| values := values dpi; enabled := [true; true; true; true; true] |} in
   enable_pair (build_dpi_packets off5) = (0x04, 0x51) /\
   take 3 (build_dpi_packets off5) = take 3 (build_dpi_packets all_on) /\
   drop 4 (build_dpi_packets off5) = drop 4 (build_dpi_packets all_on) /\
   take 6 (build_dpi_packets off5 !!! 3%nat) = take 6 (build_dpi_packets all_on !!! 3%nat) /\
   drop 8 (take 16 (build_dpi_packets off5 !!! 3%nat))
     = drop 8 (take 16 (build_dpi_packets all_on !!! 3%nat))) /\
  (let all_off := {| values := values dpi; enabled := [false; false; false; false; false] |} in
   enable_pair (build_dpi_packets all_off) = enable_pair dpi_template).
Proof.
  split; [|split; [|split; [|split]]].
  - unfold num_enabled. simpl.
    destruct (enabled dpi !!! 0%nat), (enabled dpi !!! 1%nat), (enabled dpi !!! 2%nat),
      (enabled dpi !!! 3%nat), (enabled dpi !!! 4%nat); reflexivity.
  - rewrite enable_pair_build, enable_bytes_lowest. reflexivity.
  - reflexivity.
  - cbv zeta. rewrite enable_pair_build, !build_dpi_closed. cbn [values enabled].
    repeat split; reflexivity.
  - cbv zeta. rewrite enable_pair_build. reflexivity.
Qed.

(** C7: a configured (non-zero) slot value is applied only on an exact
    match in [dpi_table]; without a table entry the slot keeps the template
    bytes, and the whole output is the one of an unset slot.  3300 has no
    entry, 3200 has the code 26 26 09. *)
Theorem dpi_slot_exact_match (dpi : DpiSettings) (i : nat) :
  (i < 5)%nat -> values dpi !!! i <> 0 ->
  (forall c, lookup_dpi (values dpi !!! i) = Some c <-> In (values dpi !!! i, c) dpi_table) /\
  slot_bytes (build_dpi_packets dpi) i
    = match lookup_dpi (values dpi !!! i) with
      | Some c => c
      | None => slot_bytes dpi_template i
      end /\
  (lookup_dpi (values dpi !!! i) = None ->
   build_dpi_packets dpi = build_dpi_packets (set_value dpi i 0)) /\
  lookup_dpi 3300 = None /\
  lookup_dpi 3200 = Some (0x26, 0x26, 0x09).
Proof.
  intros Hi Hv. repeat split.
  - apply lookup_dpi_exact.
  - apply lookup_dpi_exact.
  - rewrite slot_bytes_build by assumption. now rewrite dpi_code_nonzero.
  - apply build_dpi_no_entry.
Qed.

Lemma dpi_slot_exact_match_witness :
  slot_bytes (build_dpi_packets dpi_3200_3300) 1 = (0x26, 0x26, 0x09) /\
  slot_bytes (build_dpi_packets dpi_3200_3300) 2 = slot_bytes dpi_template 2 /\
  build_dpi_packets dpi_3200_3300 = build_dpi_packets (set_value dpi_3200_3300 2 0).
Proof.
  split; [|split].
  - exact (proj1 (proj2 (dpi_slot_exact_match dpi_3200_3300 1
             ltac:(lia) ltac:(vm_compute; discriminate)))).
  - exact (proj1 (proj2 (dpi_slot_exact_match dpi_3200_3300 2
             ltac:(lia) ltac:(vm_compute; discriminate)))).
  - apply (proj1 (proj2 (proj2 (dpi_slot_exact_match dpi_3200_3300 2
             ltac:(lia) ltac:(vm_compute; discriminate))))).
    reflexivity.
Defined.

(** ** Claims about the polling-rate builder *)

(** C8: the requested rate selects one of four codes by a floor rule; the
    single packet carries the code at byte 6 and [(0x55 - code) mod 256] at
    byte 7; its checksum byte is 0xEF for every rate.  For 1000 Hz the
    complement is 0x54; 125 Hz gives the code 0x08. *)
Theorem polling_rate_floor_rule (hz : Z) :
  let p := build_polling_rate_packet hz in
  let code := p !!! 6%nat in
  (1000 <= hz -> code = 0x01) /\
  (500 <= hz < 1000 -> code = 0x02) /\
  (250 <= hz < 500 -> code = 0x04) /\
  (hz < 250 -> code = 0x08) /\
  p !!! 7%nat = (0x55 - code) mod 256 /\
  p = [0x08; 0x07; 0x00; 0x00; 0x00; 0x02; code; (0x55 - code) mod 256;
       0x00; 0x00; 0x00; 0x00; 0x00; 0x00; 0x00; 0x00; 0xEF] /\
  checksum_ok p /\
  build_polling_rate_packet 1000
    = [0x08; 0x07; 0x00; 0x00; 0x00; 0x02; 0x01; 0x54;
       0x00; 0x00; 0x00; 0x00; 0x00; 0x00; 0x00; 0x00; 0xEF] /\
  build_polling_rate_packet 125 !!! 6%nat = 0x08.
Proof.
  cbv zeta.
  assert (Hcases : (1000 <= hz /\ polling_code hz = 0x01)
                   \/ (500 <= hz < 1000 /\ polling_code hz = 0x02)
                   \/ (250 <= hz < 500 /\ polling_code hz = 0x04)
                   \/ (hz < 250 /\ polling_code hz = 0x08)).
  { unfold polling_code.
    destruct (Z.leb_spec 1000 hz); [left; split; [lia|reflexivity]|].
    destruct (Z.leb_spec 500 hz); [right; left; split; [lia|reflexivity]|].
    destruct (Z.leb_spec 250 hz); [right; right; left; split; [lia|reflexivity]|].
    right; right; right; split; [lia|reflexivity]. }
  pose proof (polling_packet_ok hz) as Hok.
  unfold build_polling_rate_packet in *.
  destruct Hcases as [[Hr Hc]|[[Hr Hc]|[[Hr Hc]|[Hr Hc]]]]; rewrite Hc in *;
    (repeat split; try (intros; lia); try exact Hok; try reflexivity;
     try (destruct Hok as (? & ? & ? & ?); assumption)).
Qed.

Lemma polling_rate_floor_rule_witness :
  build_polling_rate_packet 750 !!! 6%nat = 0x02.
Proof.
  apply (proj1 (proj2 (polling_rate_floor_rule 750))). lia.
Defined.

(** ** Claims about the action table *)

(** C5: ["left"] is the code 01 01 00 53 and ["fire:50:2"] is 04 32 02 1D,
    whose last byte is [(0x55 - (0x04 + 50 + 2)) mod 256]. *)
Theorem parse_action_examples :
  parse_action "left" = Some [0x01; 0x01; 0x00; 0x53] /\
  parse_action "fire:50:2" = Some [0x04; 50; 2; 0x1D] /\
  0x1D = (0x55 - (0x04 + 50 + 2)) mod 256.
Proof. repeat split; reflexivity. Qed.

(** ** The base mapping *)

(** C9: without overrides the builder returns the eight factory-default
    packets byte for byte, whatever the registry holds; the checksum
    recomputed for each template packet is the byte the template stores. *)
Theorem empty_changes_give_default_mapping (g : Registry) :
  build_button_mapping ∅ g = Some (default_button_mapping, ∅) /\
  Forall (fun p => compute_checksum p = p !!! 16%nat) default_button_mapping /\
  length default_button_mapping = 8%nat.
Proof.
  split; [reflexivity|]. split; [|reflexivity].
  each_packet; reflexivity.
Qed.

(** ** The event list of a keyboard combination *)

Section Events.

Lemma land_pow2_zero (a : Z) (n : Z) :
  0 <= n -> (Z.land a (2 ^ n) =? 0) = negb (Z.testbit a n).
Proof.
  intros Hn. destruct (Z.testbit a n) eqn:Hbit; simpl.
  - apply Z.eqb_neq. intros Hz.
    assert (Hb : Z.testbit (Z.land a (2 ^ n)) n = true).
    { rewrite Z.land_spec, Hbit, Z.pow2_bits_true by lia. reflexivity. }
    rewrite Hz, Z.bits_0 in Hb. discriminate.
  - apply Z.eqb_eq. apply Z.bits_inj'. intros m Hm.
    rewrite Z.land_spec, Z.bits_0, Z.pow2_bits_eqb by lia.
    destruct (Z.eqb_spec n m) as [->|_]; [now rewrite Hbit | apply andb_false_r].
Qed.

Lemma fold_push_keys ty (ks : list Z) (e0 : list Z) :
  fold_left (fun e k => push_event e ty k) ks e0 = e0 ++ events ty ks.
Proof.
  revert e0. induction ks as [|k ks IH]; intros e0; simpl.
  - now rewrite app_nil_r.
  - rewrite IH. unfold push_event. now rewrite <- app_assoc.
Qed.

Lemma fold_push_indexed ty (keys : list Z) (idx : list nat) (e0 : list Z) :
  fold_left (fun e i => push_event e ty (keys !!! i)) idx e0
  = e0 ++ events ty (map (fun i => keys !!! i) idx).
Proof.
  revert e0. induction idx as [|i idx IH]; intros e0; simpl.
  - now rewrite app_nil_r.
  - rewrite IH. unfold push_event. now rewrite <- app_assoc.
Qed.

Lemma fold_push_mods ty mods (bits : list Z) (e0 : list Z) :
  fold_left (fun e b => if Z.land mods b =? 0 then e else push_event e ty b) bits e0
  = e0 ++ events ty (List.filter (fun b => negb (Z.land mods b =? 0)) bits).
Proof.
  revert e0. induction bits as [|b bits IH]; intros e0; simpl.
  - now rewrite app_nil_r.
  - rewrite IH. destruct (Z.land mods b =? 0); simpl; [reflexivity|].
    unfold push_event. now rewrite <- app_assoc.
Qed.

Lemma mod_bits_pow2 : mod_bits = map (fun i => 2 ^ Z.of_nat i) (seq 0 8).
Proof. reflexivity. Qed.

Lemma filter_pow2_testbit mods (idx : list nat) :
  List.filter (fun b => negb (Z.land mods b =? 0)) (map (fun i => 2 ^ Z.of_nat i) idx)
  = omap (fun i => if Z.testbit mods (Z.of_nat i) then Some (2 ^ Z.of_nat i) else None) idx.
Proof.
  induction idx as [|i idx IH]; [reflexivity|].
  cbn [map List.filter omap list_omap]. rewrite land_pow2_zero by lia.
  rewrite negb_involutive, IH.
  destruct (Z.testbit mods (Z.of_nat i)); reflexivity.
Qed.

Lemma mod_bits_filter mods :
  List.filter (fun b => negb (Z.land mods b =? 0)) mod_bits = active_modifier_bits mods.
Proof. rewrite mod_bits_pow2. apply filter_pow2_testbit. Qed.

Lemma rev_index_keys (keys : list Z) :
  map (fun i => keys !!! i) (rev (seq 0 (length keys))) = rev keys.
Proof.
  rewrite map_rev, map_lookup_total_seq by lia. now rewrite firstn_all.
Qed.

Lemma build_events_ordered mods keys :
  build_events mods keys = ordered_event_list mods keys.
Proof.
  unfold build_events, ordered_event_list.
  rewrite fold_push_indexed, fold_push_mods, fold_push_keys, fold_push_mods.
  rewrite rev_index_keys, mod_bits_filter. simpl. now rewrite <- !app_assoc.
Qed.

End Events.

(** ** The two sub-packets of a combination *)

Section Combination.

Lemma fold_u16_bytes (l : list Z) (s : Z) :
  fold_left (fun s b => u16 (s + b)) l s mod 256 = (s + byte_sum l) mod 256.
Proof.
  revert s. induction l as [|b l IH]; intros s; simpl.
  - f_equal. lia.
  - rewrite IH, u16_mod.
    rewrite Z.add_mod by lia. rewrite mod_65536_256.
    rewrite <- Z.add_mod by lia. f_equal. lia.
Qed.

(** The local checksum is [(0x55 - (count + sum of event bytes)) mod 256]. *)
Lemma inner_checksum_spec evts :
  inner_checksum evts = (0x55 - (event_count evts + byte_sum evts)) mod 256.
Proof.
  unfold inner_checksum. rewrite !land_ff_mod, u8_mod, Z.mod_mod by lia.
  rewrite fold_u16_bytes. rewrite Zminus_mod_idemp_r. reflexivity.
Qed.

Lemma combo_packet1_layout hi lo evts :
  combo_packet1 hi lo evts = seal (packet1_layout hi lo evts).
Proof.
  unfold combo_packet1, packet1_layout.
  generalize (event_count evts). intros count.
  do 9 (destruct evts as [|? evts]; [reflexivity|]).
  reflexivity.
Qed.

Lemma combo_packet2_layout hi lo evts :
  (length evts <= 18)%nat ->
  combo_packet2 hi lo evts = Some (seal (packet2_layout hi lo evts)).
Proof.
  intros Hlen.
  unfold combo_packet2, packet2_layout.
  generalize (inner_checksum evts). intros inner.
  do 19 (destruct evts as [|? evts]; [reflexivity|]).
  simpl in Hlen. lia.
Qed.

(** With 20 or more event bytes the write of the local checksum, at
    index [6 + remaining], is outside the 17-byte packet. *)
Lemma combo_packet2_overflow hi lo evts :
  (20 <= length evts)%nat -> combo_packet2 hi lo evts = None.
Proof.
  intros Hlen. unfold combo_packet2.
  assert (Hrem : (11 <= length evts - 9 `min` length evts)%nat) by lia.
  revert Hrem. generalize (length evts - 9 `min` length evts)%nat. intros remaining Hrem.
  destruct (fold_left _ _ _) as [q|]; [|reflexivity].
  cbn [mbind option_bind]. unfold store.
  destruct (decide (6 + remaining < M913_PACKET_SIZE)%nat) as [Hlt|_]; [|reflexivity].
  unfold M913_PACKET_SIZE in Hlt. lia.
Qed.

Lemma length_events ty codes : length (events ty codes) = (3 * length codes)%nat.
Proof.
  unfold events. induction codes as [|c codes IH]; [reflexivity|].
  cbn [flat_map]. rewrite length_app, IH. cbn [length]. lia.
Qed.

Lemma length_build_events mods keys :
  length (build_events mods keys) = (6 * combination_size mods keys)%nat.
Proof.
  rewrite build_events_ordered. unfold ordered_event_list, combination_size.
  rewrite !length_app, !length_events, length_rev. lia.
Qed.

(** The builder's two sub-packets exist, with the layout above, exactly
    when modifiers and keys are at most three in total. *)
Lemma combo_subpackets_capacity hi lo mods keys :
  (combination_size mods keys <= 3)%nat ->
  combo_subpackets hi lo mods keys
  = Some [seal (packet1_layout hi lo (ordered_event_list mods keys));
          seal (packet2_layout hi lo (ordered_event_list mods keys))].
Proof.
  intros Hsize. unfold combo_subpackets.
  rewrite combo_packet2_layout by (rewrite length_build_events; lia).
  rewrite combo_packet1_layout, build_events_ordered. reflexivity.
Qed.

Lemma combo_subpackets_overflow hi lo mods keys :
  (4 <= combination_size mods keys)%nat -> combo_subpackets hi lo mods keys = None.
Proof.
  intros Hsize. unfold combo_subpackets.
  rewrite combo_packet2_overflow by (rewrite length_build_events; lia).
  reflexivity.
Qed.

End Combination.

(** ** When the button builder returns *)

Section Definedness.

Local Ltac defined_yes := split; [intros _; reflexivity | intros _; eexists; reflexivity].
Local Ltac defined_no :=
  split; [intros [? Hx]; discriminate Hx | intros Hx; discriminate Hx].

Lemma process_entry_defined g st entry :
  is_Some (process_entry g st entry) <-> entry_fits g entry = true.
Proof.
  destruct st as [buf result], entry as [btn_idx ab]. unfold process_entry, entry_fits.
  destruct (16 <=? btn_idx); [defined_yes|].
  destruct (Z.eqb_spec (ab !!! 0%nat) 0x90) as [Hkb|Hnot].
  - rewrite Hkb. cbn [Z.eqb Pos.eqb orb].
    destruct (kb_key_addr !!! Z.to_nat btn_idx) as [hi lo].
    destruct (collect_keys _ _ _ _ _) as [mods keys].
    unfold keyboard_subpackets.
    destruct ((mods =? 0) && (length keys =? 1)%nat); [defined_yes|].
    cbn [orb]. destruct (Nat.leb_spec (combination_size mods keys) 3) as [Hfit|Hbig].
    + rewrite combo_subpackets_capacity by assumption. defined_yes.
    + rewrite combo_subpackets_overflow by lia. defined_no.
  - cbn [orb]. destruct (ab !!! 0%nat =? 0x92); [|defined_yes].
    destruct (kb_key_addr !!! Z.to_nat btn_idx) as [hi lo]. defined_yes.
Qed.

Lemma run_entries_defined g entries st :
  is_Some (run_entries g entries st) <-> forallb (entry_fits g) entries = true.
Proof.
  unfold run_entries. revert st. induction entries as [|e entries IH]; intros st.
  - defined_yes.
  - cbn [fold_left forallb mbind option_bind].
    destruct (process_entry g st e) as [st1|] eqn:Hstep.
    + rewrite IH. assert (Hfit : entry_fits g e = true)
        by (apply (proj1 (process_entry_defined g st e)); rewrite Hstep; eauto).
      now rewrite Hfit.
    + rewrite run_entries_None.
      assert (Hfit : entry_fits g e = false).
      { destruct (entry_fits g e) eqn:Hf; [|reflexivity].
        apply (proj2 (process_entry_defined g st e)) in Hf.
        rewrite Hstep in Hf. destruct Hf as [? Hx]. discriminate Hx. }
      rewrite Hfit. defined_no.
Qed.

(** The builder returns a packet sequence exactly when no binding is a
    keyboard combination of four or more modifiers and keys. *)
Lemma build_button_mapping_defined changes g :
  is_Some (build_button_mapping changes g)
  <-> forallb (entry_fits g) (map_entries changes) = true.
Proof.
  rewrite <- (run_entries_defined g (map_entries changes)
                (from_raw <$> default_button_mapping, [])).
  unfold build_button_mapping.
  destruct (run_entries _ _ _) as [[buf result]|]; cbn [mbind option_bind].
  - split; intros _; eexists; reflexivity.
  - split; intros [? Hx]; discriminate Hx.
Qed.

End Definedness.

(** ** The events in the builder's output *)

Section EmittedEvents.

Lemma run_entries_step g e entries st :
  run_entries g (e :: entries) st = (st1 ← process_entry g st e; run_entries g entries st1).
Proof.
  unfold run_entries. cbn [fold_left mbind option_bind].
  destruct (process_entry g st e); [reflexivity | apply run_entries_None].
Qed.

(** Every iteration appends to the sub-packets; a keyboard binding appends
    what [keyboard_subpackets] returns for its key list. *)
Lemma process_entry_extends g buf res e buf' res' :
  process_entry g (buf, res) e = Some (buf', res') ->
  exists subs, res' = res ++ subs /\
    (e.1 < 16 -> e.2 !!! 0%nat = 0x90 ->
     keyboard_subpackets (kb_key_addr !!! Z.to_nat e.1).1 (kb_key_addr !!! Z.to_nat e.1).2
       (collect_keys g e.1 (e.2 !!! 1%nat) (e.2 !!! 2%nat) (e.2 !!! 3%nat)).1
       (collect_keys g e.1 (e.2 !!! 1%nat) (e.2 !!! 2%nat) (e.2 !!! 3%nat)).2
     = Some subs).
Proof.
  destruct e as [btn_idx ab]. unfold process_entry. cbn [fst snd].
  destruct (Z.leb_spec 16 btn_idx).
  { intros [= <- <-]. exists []. split; [now rewrite app_nil_r | lia]. }
  destruct (Z.eqb_spec (ab !!! 0%nat) 0x90) as [H90|H90]; cbn [orb].
  - rewrite H90. cbn [Z.eqb Pos.eqb].
    destruct (kb_key_addr !!! Z.to_nat btn_idx) as [hi lo].
    destruct (collect_keys _ _ _ _ _) as [mods keys]. cbn [fst snd].
    destruct (keyboard_subpackets hi lo mods keys) as [subs|]; [|discriminate].
    cbn [mbind option_bind]. intros [= <- <-]. exists subs. auto.
  - destruct (ab !!! 0%nat =? 0x92).
    + destruct (kb_key_addr !!! Z.to_nat btn_idx) as [hi lo].
      cbn [mbind option_bind]. intros [= <- <-]. eexists. split; [reflexivity|].
      intros _ Hx. contradiction.
    + intros [= <- <-]. exists []. split; [now rewrite app_nil_r|].
      intros _ Hx. contradiction.
Qed.

Lemma run_entries_extends g entries : forall buf res buf' res',
  run_entries g entries (buf, res) = Some (buf', res') ->
  exists more, res' = res ++ more.
Proof.
  induction entries as [|e entries IH]; intros buf res buf' res' Hrun.
  - injection Hrun as _ <-. exists []. now rewrite app_nil_r.
  - rewrite run_entries_step in Hrun.
    destruct (process_entry g (buf, res) e) as [[buf1 res1]|] eqn:Hstep; [|discriminate].
    cbn [mbind option_bind] in Hrun.
    destruct (process_entry_extends _ _ _ _ _ _ Hstep) as (subs & -> & _).
    destruct (IH _ _ _ _ Hrun) as (more & ->).
    exists (subs ++ more). now rewrite app_assoc.
Qed.

(** The sub-packets of every keyboard binding are a segment of the
    sub-packets collected. *)
Lemma run_entries_keyboard g entries : forall buf res buf' res' e,
  run_entries g entries (buf, res) = Some (buf', res') ->
  e ∈ entries -> e.1 < 16 -> e.2 !!! 0%nat = 0x90 ->
  exists before after subs,
    res' = before ++ subs ++ after /\
    keyboard_subpackets (kb_key_addr !!! Z.to_nat e.1).1 (kb_key_addr !!! Z.to_nat e.1).2
      (collect_keys g e.1 (e.2 !!! 1%nat) (e.2 !!! 2%nat) (e.2 !!! 3%nat)).1
      (collect_keys g e.1 (e.2 !!! 1%nat) (e.2 !!! 2%nat) (e.2 !!! 3%nat)).2
    = Some subs.
Proof.
  induction entries as [|e0 entries IH]; intros buf res buf' res' e Hrun Hin Hlt H90.
  - apply elem_of_nil in Hin. contradiction.
  - rewrite run_entries_step in Hrun.
    destruct (process_entry g (buf, res) e0) as [[buf1 res1]|] eqn:Hstep; [|discriminate].
    cbn [mbind option_bind] in Hrun.
    apply elem_of_cons in Hin as [->|Hin].
    + destruct (process_entry_extends _ _ _ _ _ _ Hstep) as (subs & -> & Hsubs).
      destruct (run_entries_extends _ _ _ _ _ _ Hrun) as (more & ->).
      exists res, more, subs. split; [now rewrite app_assoc | auto].
    + exact (IH _ _ _ _ e Hrun Hin Hlt H90).
Qed.

Lemma map_entries_elem (changes : gmap Z ActionBytes) btn_idx ab :
  changes !! btn_idx = Some ab -> 0 <= btn_idx < 256 -> (btn_idx, ab) ∈ map_entries changes.
Proof.
  intros Hlook Hb. unfold map_entries. apply list_elem_of_omap.
  exists btn_idx. split; [apply elem_of_seqZ; lia|]. now rewrite Hlook.
Qed.

(** The two sub-packets of a combination carry the ordered event list:
    the builder returns nothing else for it. *)
Lemma keyboard_subpackets_ordered hi lo mods keys subs :
  mods <> 0 \/ (2 <= length keys)%nat ->
  keyboard_subpackets hi lo mods keys = Some subs ->
  subs = [seal (packet1_layout hi lo (ordered_event_list mods keys));
          seal (packet2_layout hi lo (ordered_event_list mods keys))].
Proof.
  intros Hcombo. unfold keyboard_subpackets.
  assert (Hpath : (mods =? 0) && (length keys =? 1)%nat = false).
  { destruct (Z.eqb_spec mods 0) as [->|]; [|reflexivity].
    destruct (Nat.eqb_spec (length keys) 1); [lia | reflexivity]. }
  rewrite Hpath.
  destruct (le_lt_dec (combination_size mods keys) 3) as [Hfit|Hover].
  - rewrite combo_subpackets_capacity by exact Hfit. now intros [= <-].
  - rewrite combo_subpackets_overflow by lia. discriminate.
Qed.

(** The output of the button builder holds, for every keyboard binding
    with a modifier or with two keys or more, the two sub-packets of the
    ordered event list of its modifier byte and key list. *)
Lemma button_mapping_events changes g pkts g' btn_idx ab :
  build_button_mapping changes g = Some (pkts, g') ->
  changes !! btn_idx = Some ab -> 0 <= btn_idx < 16 -> ab !!! 0%nat = 0x90 ->
  let addr := kb_key_addr !!! Z.to_nat btn_idx in
  let combo := collect_keys g btn_idx (ab !!! 1%nat) (ab !!! 2%nat) (ab !!! 3%nat) in
  combo.1 <> 0 \/ (2 <= length combo.2)%nat ->
  exists before after,
    pkts = before
           ++ [seal (packet1_layout addr.1 addr.2 (ordered_event_list combo.1 combo.2));
               seal (packet2_layout addr.1 addr.2 (ordered_event_list combo.1 combo.2))]
           ++ after.
Proof.
  intros Hbuild Hlook Hb H90 addr combo Hcombo. revert Hbuild.
  unfold build_button_mapping.
  destruct (run_entries _ _ _) as [[buf result]|] eqn:Hrun; [|discriminate].
  cbn [mbind option_bind]. intros [= <- _].
  destruct (run_entries_keyboard _ _ _ _ _ _ (btn_idx, ab) Hrun
              (map_entries_elem _ _ _ Hlook ltac:(lia)) ltac:(cbn; lia) H90)
    as (before & after & subs & -> & Hsubs).
  cbn [fst snd] in Hsubs. fold addr combo in Hsubs.
  apply keyboard_subpackets_ordered in Hsubs; [|exact Hcombo]. subst subs.
  exists before, (after ++ (seal <$> buf)). now rewrite <- !app_assoc.
Qed.

End EmittedEvents.

(** C2: for every modifier byte and key list the event list of the unified
    path is: a down-event 0x80 per set modifier bit from bit 0 upwards, a
    down-event 0x81 per key in the order given, an up-event 0x40 per set
    modifier bit in the same order, an up-event 0x41 per key in reverse
    order.  Whenever the builder returns, its output holds for every
    keyboard binding with a modifier or with two keys or more the two
    sub-packets that carry exactly that list: the count and the first nine
    event bytes, then the remaining bytes and the local checksum.
    ["a+b+c"], registered for its button, is built with down-events a, b, c
    and up-events c, b, a; ["ctrl+c"] with ctrl down, c down, ctrl up, c
    up. *)
Theorem keyboard_event_order (mods : Z) (keys : list Z) :
  build_events mods keys
    = events 0x80 (active_modifier_bits mods) ++ events 0x81 keys
      ++ events 0x40 (active_modifier_bits mods) ++ events 0x41 (rev keys) /\
  (forall changes g pkts g' btn_idx ab,
      build_button_mapping changes g = Some (pkts, g') ->
      changes !! btn_idx = Some ab -> 0 <= btn_idx < 16 -> ab !!! 0%nat = 0x90 ->
      let addr := kb_key_addr !!! Z.to_nat btn_idx in
      let combo := collect_keys g btn_idx (ab !!! 1%nat) (ab !!! 2%nat) (ab !!! 3%nat) in
      let evts := events 0x80 (active_modifier_bits combo.1) ++ events 0x81 combo.2
                  ++ events 0x40 (active_modifier_bits combo.1)
                  ++ events 0x41 (rev combo.2) in
      combo.1 <> 0 \/ (2 <= length combo.2)%nat ->
      build_events combo.1 combo.2 = evts /\
      (length evts <= 18)%nat /\
      exists before after,
        pkts = before
               ++ [seal ([0x08; 0x07; 0x00; addr.1; addr.2; 0x0a; event_count evts]
                         ++ take 9 evts ++ replicate (10 - length (take 9 evts)) 0x00);
                   seal ([0x08; 0x07; 0x00; addr.1; u8 (addr.2 + 0x0a);
                          u8 (Z.of_nat (length (drop 9 evts)) + 1)]
                         ++ drop 9 evts ++ [inner_checksum evts]
                         ++ replicate (10 - length (drop 9 evts)) 0x00)]
               ++ after) /\
  parse_action "a+b+c" = Some [0x90; 0x00; 0x04; 3] /\
  parse_multikey "a+b+c" = Some (0x00, [0x04; 0x05; 0x06]) /\
  build_events 0x00 [0x04; 0x05; 0x06]
    = [0x81; 0x04; 0x00;  0x81; 0x05; 0x00;  0x81; 0x06; 0x00;
       0x41; 0x06; 0x00;  0x41; 0x05; 0x00;  0x41; 0x04; 0x00] /\
  build_events 0x03 [0x06]
    = [0x80; 0x01; 0x00;  0x80; 0x02; 0x00;  0x81; 0x06; 0x00;
       0x40; 0x01; 0x00;  0x40; 0x02; 0x00;  0x41; 0x06; 0x00] /\
  (fst <$> build_button_mapping {[ 0 := [0x90; 0x00; 0x04; 3] ]}
             (register_multikey_action 0 "a+b+c" ∅))
    = Some ([ [0x08; 0x07; 0x00; 0x01; 0x00; 0x0a; 6;
               0x81; 0x04; 0x00;  0x81; 0x05; 0x00;  0x81; 0x06; 0x00;  0xa3];
              [0x08; 0x07; 0x00; 0x01; 0x0a; 0x0a;
               0x41; 0x06; 0x00;  0x41; 0x05; 0x00;  0x41; 0x04; 0x00;  0xeb;  0x74] ]
            ++ (seal <$> write_slot default_button_mapping 0 kb_key_action)) /\
  parse_action "ctrl+c" = Some [0x90; 0x01; 0x06; 0x00] /\
  (fst <$> build_button_mapping {[ 0 := [0x90; 0x01; 0x06; 0x00] ]} ∅)
    = Some ([ [0x08; 0x07; 0x00; 0x01; 0x00; 0x0a; 4;
               0x80; 0x01; 0x00;  0x81; 0x06; 0x00;  0x40; 0x01; 0x00;  0xee];
              [0x08; 0x07; 0x00; 0x01; 0x0a; 0x04;
               0x41; 0x06; 0x00;  0xc1;  0x00; 0x00; 0x00; 0x00; 0x00; 0x00;  0x2f] ]
            ++ (seal <$> write_slot default_button_mapping 0 kb_key_action)).
Proof.
  split; [apply build_events_ordered|]. split.
  - intros changes g pkts g' btn_idx ab Hbuild Hlook Hb H90 addr combo evts Hcombo.
    split; [apply build_events_ordered|].
    destruct (button_mapping_events _ _ _ _ _ _ Hbuild Hlook Hb H90 Hcombo)
      as (before & after & Hpkts).
    split; [|exists before, after; exact Hpkts].
    change evts with (ordered_event_list combo.1 combo.2).
    rewrite <- build_events_ordered, length_build_events.
    assert (Hfit : (combination_size combo.1 combo.2 <= 3)%nat); [|lia].
    destruct (le_lt_dec (combination_size combo.1 combo.2) 3) as [Hfit|Hover];
      [exact Hfit | exfalso].
    revert Hbuild. unfold build_button_mapping.
    destruct (run_entries _ _ _) as [[buf result]|] eqn:Hrun; [|discriminate].
    intros _.
    destruct (run_entries_keyboard _ _ _ _ _ _ (btn_idx, ab) Hrun
                (map_entries_elem _ _ _ Hlook ltac:(lia)) ltac:(cbn; lia) H90)
      as (b0 & a0 & subs & _ & Hsubs).
    cbn [fst snd] in Hsubs. fold addr combo in Hsubs.
    unfold keyboard_subpackets in Hsubs.
    assert (Hpath : (combo.1 =? 0) && (length combo.2 =? 1)%nat = false).
    { destruct (Z.eqb_spec combo.1 0) as [Hz|]; [|reflexivity].
      destruct (Nat.eqb_spec (length combo.2) 1); [lia | reflexivity]. }
    rewrite Hpath, combo_subpackets_overflow in Hsubs by lia. discriminate.
  - repeat split; reflexivity.
Qed.

(** C3, at the failing input: ["ctrl+shift+alt+a"] parses to the action
    90 07 04 00; its event list has 24 bytes, 15 of them left for packet
    2, whose payload ends at index 15: the builder writes behind the
    packet.  Up to three modifiers and keys the two sub-packets are as
    claimed. *)
Theorem combination_overflows_second_packet :
  parse_action "ctrl+shift+alt+a" = Some [0x90; 0x07; 0x04; 0x00] /\
  length (build_events 0x07 [0x04]) = 24%nat /\
  combo_packet2 0x01 0x00 (build_events 0x07 [0x04]) = None /\
  build_button_mapping {[ 0 := [0x90; 0x07; 0x04; 0x00] ]} ∅ = None /\
  (forall hi lo mods keys, (4 <= combination_size mods keys)%nat ->
     combo_subpackets hi lo mods keys = None) /\
  (forall hi lo mods keys, (combination_size mods keys <= 3)%nat ->
     combo_subpackets hi lo mods keys
     = Some [seal (packet1_layout hi lo (build_events mods keys));
             seal (packet2_layout hi lo (build_events mods keys))]
     /\ inner_checksum (build_events mods keys)
        = (0x55 - (event_count (build_events mods keys)
                   + byte_sum (build_events mods keys))) mod 256).
Proof.
  split; [reflexivity|]. split; [reflexivity|]. split; [reflexivity|].
  split; [reflexivity|]. split.
  - apply combo_subpackets_overflow.
  - intros hi lo mods keys Hsize. split.
    + rewrite build_events_ordered. now apply combo_subpackets_capacity.
    + apply inner_checksum_spec.
Qed.

(** ** The multi-key registry *)

Section RegistryDependence.

Lemma collect_keys_multi g btn_idx mods sc key_count :
  1 < key_count ->
  collect_keys g btn_idx mods sc key_count
  = match usable_registration g btn_idx with
    | Some (parsed_mods, parsed_keys) => (parsed_mods, parsed_keys)
    | None => (mods, [sc])
    end.
Proof.
  intros Hn. unfold collect_keys, usable_registration.
  destruct (Z.ltb_spec 1 key_count); [|lia].
  destruct (g !! btn_idx) as [s|]; [|reflexivity].
  destruct (parse_multikey s) as [[pm pk]|]; [|reflexivity].
  destruct (Nat.leb_spec 2 (length pk)); [|reflexivity].
  destruct pk; [simpl in *; lia | reflexivity].
Qed.

Lemma map_entries_singleton (btn_idx : Z) (ab : ActionBytes) :
  0 <= btn_idx < 16 -> map_entries {[ btn_idx := ab ]} = [(btn_idx, ab)].
Proof.
  intros Hb.
  assert (Hcases : btn_idx = 0 \/ btn_idx = 1 \/ btn_idx = 2 \/ btn_idx = 3 \/ btn_idx = 4
                   \/ btn_idx = 5 \/ btn_idx = 6 \/ btn_idx = 7 \/ btn_idx = 8
                   \/ btn_idx = 9 \/ btn_idx = 10 \/ btn_idx = 11 \/ btn_idx = 12
                   \/ btn_idx = 13 \/ btn_idx = 14 \/ btn_idx = 15) by lia.
  repeat (destruct Hcases as [->|Hcases]; [reflexivity|]).
  subst. reflexivity.
Qed.

(** A single multi-key binding: the sub-packets come from the usable
    registration, or else from the first scancode alone. *)
Lemma build_single_multikey g btn_idx mods sc key_count :
  0 <= btn_idx < 16 -> 1 < key_count ->
  build_button_mapping {[ btn_idx := [0x90; mods; sc; key_count] ]} g
  = match usable_registration g btn_idx with
    | Some (parsed_mods, parsed_keys) => single_binding_result btn_idx parsed_mods parsed_keys
    | None => single_binding_result btn_idx mods [sc]
    end.
Proof.
  intros Hb Hn. unfold build_button_mapping, single_binding_result.
  rewrite map_entries_singleton by assumption.
  unfold run_entries. cbn [fold_left mbind option_bind]. unfold process_entry.
  destruct (Z.leb_spec 16 btn_idx); [lia|].
  cbn [lookup_total list_lookup_total Z.eqb Pos.eqb orb].
  destruct (kb_key_addr !!! Z.to_nat btn_idx) as [hi lo].
  rewrite collect_keys_multi by assumption.
  destruct (usable_registration g btn_idx) as [[pm pk]|];
    (destruct (keyboard_subpackets _ _ _ _) as [subs|]; reflexivity).
Qed.

End RegistryDependence.




(** ** Outcomes of [parse_action] *)

Open Scope string_scope.

Section ParseAction.

Lemma tolower_idem c : tolower (tolower c) = tolower c.
Proof. destruct c as [[] [] [] [] [] [] [] []]; reflexivity. Qed.

Lemma to_lower_idem s : to_lower (to_lower s) = to_lower s.
Proof. induction s as [|c s IH]; simpl; [reflexivity|]. now rewrite tolower_idem, IH. Qed.

Lemma parse_action_lower s : parse_action (to_lower s) = parse_action s.
Proof. unfold parse_action. now rewrite to_lower_idem. Qed.

Lemma parse_action_case_insensitive s1 s2 :
  to_lower s1 = to_lower s2 -> parse_action s1 = parse_action s2.
Proof. intros H. unfold parse_action. now rewrite H. Qed.

Lemma parse_fire_outcome action ab :
  parse_fire action = Some ab <-> fire_outcome action ab.
Proof.
  unfold parse_fire, fire_outcome. split.
  - destruct (split action ":") as [|head [|p1 [|p2 [|? ?]]]]; try discriminate.
    destruct (stoi p1) as [speed|] eqn:Hp1; [|discriminate].
    destruct (stoi p2) as [times|] eqn:Hp2; [|discriminate].
    destruct (Z.leb_spec 3 speed); [|discriminate].
    destruct (Z.leb_spec speed 255); [|discriminate].
    destruct (Z.leb_spec 0 times); [|discriminate].
    destruct (Z.leb_spec times 3); [|discriminate].
    cbn [andb]. intros [= <-]. exists head, p1, p2, speed, times.
    split; [reflexivity|]. split; [assumption|]. split; [assumption|].
    split; [lia|]. split; [lia|].
    rewrite !u8_mod, land_ff_mod, Z.mod_mod by lia.
    rewrite (Z.mod_small speed), (Z.mod_small times) by lia. reflexivity.
  - intros (head & p1 & p2 & speed & times & -> & -> & -> & Hs & Ht & ->).
    destruct (Z.leb_spec 3 speed); [|lia].
    destruct (Z.leb_spec speed 255); [|lia].
    destruct (Z.leb_spec 0 times); [|lia].
    destruct (Z.leb_spec times 3); [|lia].
    cbn [andb]. rewrite !u8_mod, land_ff_mod, Z.mod_mod by lia.
    rewrite (Z.mod_small speed), (Z.mod_small times) by lia. reflexivity.
Qed.

Lemma fold_mask_shift (toks : list string) (m : Z) :
  fold_left (fun m tok => match table_find modifier_bits tok with
                          | Some b => Z.lor m b
                          | None => m
                          end) toks m
  = Z.lor m (modifier_mask toks).
Proof.
  unfold modifier_mask. revert m. induction toks as [|tok toks IH]; intros m.
  - cbn [fold_left]. now rewrite Z.lor_0_r.
  - cbn [fold_left]. destruct (table_find modifier_bits tok) as [b|].
    + rewrite (IH (Z.lor m b)), (IH (Z.lor 0 b)).
      now rewrite Z.lor_0_l, Z.lor_assoc.
    + apply IH.
Qed.

(** The token loop succeeds exactly when every token is recognized. *)
Lemma parse_parts_spec (parts : list string) (mods : Z) (keys : list Z) :
  parse_parts parts mods keys
  = if forallb recognized parts
    then Some (Z.lor mods (modifier_mask parts), (keys ++ key_list parts)%list)
    else None.
Proof.
  revert mods keys. induction parts as [|part parts IH]; intros mods keys.
  - simpl. unfold modifier_mask. simpl. now rewrite Z.lor_0_r, app_nil_r.
  - cbn [parse_parts forallb]. unfold recognized at 1, is_modifier, is_key, key_list.
    cbn [omap list_omap]. unfold is_modifier at 1.
    unfold modifier_mask. cbn [fold_left].
    destruct (table_find modifier_bits part) as [b|] eqn:Hmod.
    + rewrite IH. cbn [orb andb]. destruct (forallb recognized parts); [|reflexivity].
      rewrite (fold_mask_shift parts (Z.lor 0 b)).
      rewrite Z.lor_0_l, Z.lor_assoc. reflexivity.
    + destruct (table_find key_codes part) as [k|] eqn:Hkey; [|reflexivity].
      rewrite IH. cbn [orb andb]. destruct (forallb recognized parts); [|reflexivity].
      rewrite <- app_assoc. reflexivity.
Qed.

(** The keyboard branch of [parse_action] in closed form. *)
Lemma parse_action_keyboard s :
  substring 0 5 (to_lower s) <> "fire:" ->
  table_find mouse_actions (to_lower s) = None ->
  parse_action s
  = let toks := split (to_lower s) "+" in
    match toks with
    | [] => None
    | _ => if forallb recognized toks && (length (key_list toks) <=? 255)%nat
           then Some (keyboard_code (modifier_mask toks) (key_list toks))
           else None
    end.
Proof.
  intros Hfire Hlit. unfold parse_action.
  destruct (String.eqb_spec (substring 0 5 (to_lower s)) "fire:"); [contradiction|].
  rewrite Hlit. cbv zeta.
  destruct (split (to_lower s) "+") as [|tok toks] eqn:Htoks; [reflexivity|].
  rewrite parse_parts_spec.
  destruct (forallb recognized (tok :: toks)); [|reflexivity].
  cbn [andb app]. rewrite Z.lor_0_l. unfold keyboard_code.
  destruct (key_list (tok :: toks)) as [|k [|k' ks]] eqn:Hkeys; try reflexivity.
  destruct (Nat.ltb_spec 255 (length (k :: k' :: ks)));
    destruct (Nat.leb_spec (length (k :: k' :: ks)) 255); try lia; [reflexivity|].
  cbn [hd]. rewrite u8_mod, Z.mod_small by lia. reflexivity.
Qed.

End ParseAction.

Close Scope string_scope.

(** ** Claims about [parse_action] *)

Open Scope string_scope.

(** C6, as stated, fails twice.  The empty action (and ["+"]) is a
    combination of zero modifiers and zero keys: it has no unrecognized
    token, is no [fire:] form and has no key at all, yet it is rejected.
    The fixed literal ["dpi+"] has the '+'-separated token ["dpi"], which
    is neither a modifier nor a key, yet it is accepted. *)
Lemma parse_action_claim_counterexamples :
  (split (to_lower "") "+" = []
   /\ forallb recognized (split (to_lower "") "+") = true
   /\ length (key_list (split (to_lower "") "+")) = 0%nat
   /\ parse_action "" = None
   /\ parse_action "+" = None) /\
  (split (to_lower "dpi+") "+" = ["dpi"]
   /\ recognized "dpi" = false
   /\ parse_action "dpi+" = Some [0x02; 0x02; 0x00; 0x51]%Z).
Proof. repeat split; reflexivity. Qed.

(** C6, amended.  [parse_action] works on the lower-cased action, so names
    match case-insensitively.  An action beginning with [fire:] succeeds
    exactly when it splits at ':' into three non-empty parts whose second
    and third part read as a speed in [3,255] and a repeat count in [0,3].
    Any other action that is a fixed literal succeeds, whatever its
    '+'-separated tokens are.  Any remaining action fails if it has no
    non-empty '+'-separated token, if some token is neither a modifier nor
    a key, or if it has more than 255 keys; otherwise (at least one token,
    all recognized, at most 255 keys) it succeeds with the keyboard code of
    its modifiers and keys. *)
Theorem parse_action_outcomes (s : string) :
  let a := to_lower s in
  let toks := split a "+" in
  parse_action a = parse_action s /\
  (forall s', to_lower s' = a -> parse_action s' = parse_action s) /\
  (substring 0 5 a = "fire:" ->
     forall ab, parse_action s = Some ab <-> fire_outcome a ab) /\
  (substring 0 5 a <> "fire:" ->
     forall ab, table_find mouse_actions a = Some ab -> parse_action s = Some ab) /\
  (substring 0 5 a <> "fire:" -> table_find mouse_actions a = None ->
     (toks = [] -> parse_action s = None) /\
     ((exists tok, In tok toks /\ recognized tok = false) -> parse_action s = None) /\
     ((255 < length (key_list toks))%nat -> parse_action s = None) /\
     (toks <> [] ->
      (forall tok, In tok toks -> recognized tok = true) ->
      (length (key_list toks) <= 255)%nat ->
      parse_action s = Some (keyboard_code (modifier_mask toks) (key_list toks)))).
Proof.
  cbv zeta. split; [apply parse_action_lower|].
  split; [intros s' Hs'; now apply parse_action_case_insensitive|].
  split; [|split].
  - intros Hfire ab. unfold parse_action. rewrite Hfire, String.eqb_refl.
    apply parse_fire_outcome.
  - intros Hfire ab Hlit. unfold parse_action.
    destruct (String.eqb_spec (substring 0 5 (to_lower s)) "fire:"); [contradiction|].
    now rewrite Hlit.
  - intros Hfire Hlit. rewrite (parse_action_keyboard s Hfire Hlit). cbv zeta.
    destruct (split (to_lower s) "+") as [|tok toks] eqn:Htoks.
    + repeat split; try reflexivity. intros Hne. now contradiction Hne.
    + split; [discriminate|]. split; [|split].
      * intros (bad & Hin & Hbad).
        destruct (forallb recognized (tok :: toks)) eqn:Hall; [|reflexivity].
        rewrite forallb_forall in Hall. specialize (Hall bad Hin). congruence.
      * intros Hmany. destruct (Nat.leb_spec (length (key_list (tok :: toks))) 255); [lia|].
        now rewrite andb_false_r.
      * intros _ Hall Hfew.
        apply forallb_forall in Hall. rewrite Hall.
        destruct (Nat.leb_spec (length (key_list (tok :: toks))) 255); [reflexivity|lia].
Qed.

Lemma parse_action_outcomes_witness :
  parse_action "Ctrl+Shift+Z" = Some [0x90; 0x03; 0x1d; 0x00]%Z.
Proof.
  pose proof (parse_action_outcomes "Ctrl+Shift+Z") as H. cbv zeta in H.
  destruct H as (_ & _ & _ & _ & H).
  destruct H as (_ & _ & _ & H).
  - vm_compute. discriminate.
  - vm_compute. reflexivity.
  - rewrite H.
    + vm_compute. reflexivity.
    + vm_compute. discriminate.
    + intros tok Htok. vm_compute in Htok.
      destruct Htok as [<-|[<-|[<-|[]]]]; vm_compute; reflexivity.
    + vm_compute. lia.
Defined.

(** The bound on the number of keys, at the boundary. *)
Lemma parse_action_key_limit :
  parse_action (many_keys 256) = None /\
  parse_action (many_keys 255) = Some [0x90; 0x00; 0x04; 255]%Z.
Proof. split; vm_compute; reflexivity. Qed.

Close Scope string_scope.

(** ** The checksum invariant of all builders *)

(** C1: every packet a builder returns has 17 bytes whose sum is 0x55
    modulo 256; its byte 16 is the value of [compute_checksum], that is
    [(0x55 - sum of bytes 0..15) mod 256].  The button builder returns
    unless a binding is a combination of four or more modifiers and keys;
    the other builders always return. *)
Theorem builders_checksum_invariant :
  (forall changes g pkts g',
      build_button_mapping changes g = Some (pkts, g') -> Forall checksum_ok pkts) /\
  (forall changes g,
      is_Some (build_button_mapping changes g)
      <-> forallb (entry_fits g) (map_entries changes) = true) /\
  (forall dpi, Forall checksum_ok (build_dpi_packets dpi)) /\
  (forall mode color brightness speed,
      Forall checksum_ok (build_led_packets mode color brightness speed)) /\
  (forall hz, checksum_ok (build_polling_rate_packet hz)).
Proof.
  split; [apply button_mapping_ok|].
  split; [apply build_button_mapping_defined|].
  split; [apply dpi_packets_ok|].
  split; [apply led_packets_ok | apply polling_packet_ok].
Qed.

Lemma builders_checksum_invariant_witness :
  build_button_mapping sample_changes sample_registry = Some (sample_packets, ∅)
  /\ length sample_packets = 13%nat
  /\ Forall checksum_ok sample_packets.
Proof.
  assert (Hrun : build_button_mapping sample_changes sample_registry
                 = Some (sample_packets, ∅)) by (vm_compute; reflexivity).
  split; [exact Hrun|]. split; [vm_compute; reflexivity|].
  exact (proj1 builders_checksum_invariant sample_changes sample_registry
           sample_packets ∅ Hrun).
Defined.

(** * Further properties

    Properties of the code beyond the sentences of the specification. *)

(** ** The mapping slots of [build_button_mapping] *)

Lemma small_index (k : Z) : 0 <= k < 16 ->
  k = 0 \/ k = 1 \/ k = 2 \/ k = 3 \/ k = 4 \/ k = 5 \/ k = 6 \/ k = 7 \/
  k = 8 \/ k = 9 \/ k = 10 \/ k = 11 \/ k = 12 \/ k = 13 \/ k = 14 \/ k = 15.
Proof. lia. Qed.

Ltac explode_packet p :=
  do 17 (destruct p as [|? p]; [discriminate|]); destruct p; [|discriminate].

Lemma write_slot_read (buf : list Packet) (k b : Z) (bytes : list Z) :
  0 <= k < 16 -> 0 <= b < 16 -> length buf = 8%nat -> Forall len17 buf ->
  mapping_slot (write_slot buf k bytes) b
  = if k =? b then first4 bytes else mapping_slot buf b.
Proof.
  intros Hk Hb Hlen Hall.
  do 8 (destruct buf as [|? buf]; [discriminate|]); destruct buf; [|discriminate].
  repeat match goal with H : Forall len17 (_ :: _) |- _ => apply Forall_cons in H as [? H] end.
  unfold len17 in *.
  repeat match goal with H : length ?p = 17%nat |- _ => explode_packet p; clear H end.
  generalize (bytes !!! 0%nat) (bytes !!! 1%nat) (bytes !!! 2%nat) (bytes !!! 3%nat).
  intros v0 v1 v2 v3. unfold first4.
  destruct (small_index k Hk) as [->|[->|[->|[->|[->|[->|[->|[->|[->|[->|[->|[->|[->|[->|[->| ->]]]]]]]]]]]]]]];
  destruct (small_index b Hb) as [->|[->|[->|[->|[->|[->|[->|[->|[->|[->|[->|[->|[->|[->|[->| ->]]]]]]]]]]]]]]];
  reflexivity.
Qed.

Section MappingSlots.

Lemma length_write_slot buf k bytes : length (write_slot buf k bytes) = length buf.
Proof.
  unfold write_slot. generalize (seq 0 4). intros ks. revert buf.
  induction ks as [|i ks IH]; intros buf; simpl; [reflexivity|].
  now rewrite IH, length_insert.
Qed.

Lemma write_slot_header (buf : list Packet) (k : Z) (i : nat) (bytes : list Z) :
  0 <= k < 16 -> length buf = 8%nat -> Forall len17 buf ->
  take 6 (write_slot buf k bytes !!! i) = take 6 (buf !!! i) /\
  drop 14 (write_slot buf k bytes !!! i) = drop 14 (buf !!! i).
Proof.
  intros Hk Hlen Hall.
  do 8 (destruct buf as [|? buf]; [discriminate|]); destruct buf; [|discriminate].
  repeat match goal with H : Forall len17 (_ :: _) |- _ => apply Forall_cons in H as [? H] end.
  unfold len17 in *.
  repeat match goal with H : length ?p = 17%nat |- _ => explode_packet p; clear H end.
  destruct (small_index k Hk) as [->|[->|[->|[->|[->|[->|[->|[->|[->|[->|[->|[->|[->|[->|[->| ->]]]]]]]]]]]]]]];
  do 8 (destruct i as [|i]; [split; reflexivity|]); split; reflexivity.
Qed.

(** One loop iteration, seen from the slot of button [b]. *)
Lemma process_entry_slot g buf res k ab buf' res' b :
  process_entry g (buf, res) (k, ab) = Some (buf', res') ->
  0 <= k -> 0 <= b < 16 -> length buf = 8%nat -> Forall len17 buf ->
  length buf' = 8%nat /\ Forall len17 buf' /\
  mapping_slot buf' b = (if k =? b then written_slot ab else mapping_slot buf b) /\
  (forall i, take 6 (buf' !!! i) = take 6 (buf !!! i)
             /\ drop 14 (buf' !!! i) = drop 14 (buf !!! i)).
Proof.
  intros Hstep Hk Hb Hlen Hall. unfold process_entry in Hstep.
  destruct (Z.leb_spec 16 k) as [Hbig|Hsmall].
  - injection Hstep as <- <-. repeat split; try assumption.
    destruct (Z.eqb_spec k b); [lia | reflexivity].
  - assert (Hwr : forall bytes,
               length (write_slot buf k bytes) = 8%nat /\
               Forall len17 (write_slot buf k bytes) /\
               mapping_slot (write_slot buf k bytes) b
               = (if k =? b then first4 bytes else mapping_slot buf b) /\
               (forall i, take 6 (write_slot buf k bytes !!! i) = take 6 (buf !!! i)
                          /\ drop 14 (write_slot buf k bytes !!! i) = drop 14 (buf !!! i))).
    { intros bytes. split; [now rewrite length_write_slot|].
      split; [now apply write_slot_len17|].
      split; [apply write_slot_read; (assumption || lia)|].
      intros i. apply write_slot_header; (assumption || lia). }
    unfold written_slot, is_keyboard_action.
    destruct ((ab !!! 0%nat =? 0x90) || (ab !!! 0%nat =? 0x92)).
    + destruct (kb_key_addr !!! Z.to_nat k) as [hi lo].
      destruct (if ab !!! 0%nat =? 0x92 then _ else _) as [subs|]; [|discriminate].
      cbn [mbind option_bind] in Hstep. injection Hstep as <- <-.
      apply (Hwr kb_key_action).
    + injection Hstep as <- <-. apply (Hwr ab).
Qed.

Lemma run_entries_cons g e es st :
  run_entries g (e :: es) st = process_entry g st e ≫= run_entries g es.
Proof.
  unfold run_entries. cbn [fold_left mbind option_bind].
  destruct (process_entry g st e); [reflexivity | apply run_entries_None].
Qed.

Lemma run_entries_slot g es b : forall buf res buf' res',
  run_entries g es (buf, res) = Some (buf', res') ->
  Forall (fun e => 0 <= e.1) es -> 0 <= b < 16 ->
  length buf = 8%nat -> Forall len17 buf ->
  length buf' = 8%nat /\ Forall len17 buf' /\
  mapping_slot buf' b
  = fold_left (fun cur e => if e.1 =? b then written_slot e.2 else cur) es (mapping_slot buf b) /\
  (forall i, take 6 (buf' !!! i) = take 6 (buf !!! i)
             /\ drop 14 (buf' !!! i) = drop 14 (buf !!! i)).
Proof.
  induction es as [|[k ab] es IH]; intros buf res buf' res' Hrun Hkeys Hb Hlen Hall.
  - injection Hrun as <- <-. repeat split; assumption.
  - rewrite run_entries_cons in Hrun.
    destruct (process_entry g (buf, res) (k, ab)) as [[buf1 res1]|] eqn:Hstep; [|discriminate].
    cbn [mbind option_bind] in Hrun.
    apply Forall_cons in Hkeys as [Hk Hkeys]. simpl in Hk.
    destruct (process_entry_slot _ _ _ _ _ _ _ b Hstep Hk Hb Hlen Hall)
      as (Hlen1 & Hall1 & Hslot1 & Hhdr1).
    destruct (IH _ _ _ _ Hrun Hkeys Hb Hlen1 Hall1) as (Hlen' & Hall' & Hslot' & Hhdr').
    repeat split; try assumption.
    + rewrite Hslot', Hslot1. reflexivity.
    + rewrite (proj1 (Hhdr' i)). apply Hhdr1.
    + rewrite (proj2 (Hhdr' i)). apply Hhdr1.
Qed.

(** Reading the entries of a map back, key by key. *)
Lemma fold_entries_lookup (changes : gmap Z ActionBytes) (b : Z) (A : Type)
    (f : ActionBytes -> A) (keys : list Z) : forall init : A,
  NoDup keys ->
  fold_left (fun cur e => if e.1 =? b then f e.2 else cur)
            (omap (fun k => (fun ab => (k, ab)) <$> changes !! k) keys) init
  = if bool_decide (b ∈ keys)
    then match changes !! b with Some ab => f ab | None => init end
    else init.
Proof.
  induction keys as [|k keys IH]; intros init Hnd; [reflexivity|].
  apply NoDup_cons in Hnd as [Hnotin Hnd]. cbn [omap list_omap].
  destruct (decide (k = b)) as [->|Hne].
  - rewrite bool_decide_eq_true_2 by (left).
    fold (omap (fun k => (fun ab => (k, ab)) <$> changes !! k) keys).
    destruct (changes !! b) as [ab|] eqn:Hlook; cbn [fmap option_fmap option_map].
    + cbn [fold_left fst snd]. rewrite Z.eqb_refl, IH by assumption.
      rewrite bool_decide_eq_false_2 by assumption. reflexivity.
    + rewrite IH by assumption. rewrite bool_decide_eq_false_2 by assumption. reflexivity.
  - fold (omap (fun k => (fun ab => (k, ab)) <$> changes !! k) keys).
    assert (Hdec : bool_decide (b ∈ k :: keys) = bool_decide (b ∈ keys)).
    { apply bool_decide_ext. rewrite elem_of_cons. intuition congruence. }
    rewrite Hdec.
    destruct (changes !! k) as [ab|]; cbn [fmap option_fmap option_map].
    + cbn [fold_left fst snd]. destruct (Z.eqb_spec k b); [contradiction|]. now apply IH.
    + now apply IH.
Qed.

Lemma map_entries_keys changes : Forall (fun e => 0 <= e.1) (map_entries changes).
Proof.
  unfold map_entries. apply Forall_forall. intros [k ab] Hin.
  apply list_elem_of_omap in Hin as (j & Hj & Hf).
  apply elem_of_seqZ in Hj.
  destruct (changes !! j); [|discriminate]. injection Hf as <- _. simpl. lia.
Qed.

End MappingSlots.

Section ReadBack.

Lemma mapping_packets_app (result buf : list Packet) :
  length buf = 8%nat -> mapping_packets (result ++ buf) = buf.
Proof.
  intros Hlen. unfold mapping_packets. rewrite length_app, Hlen.
  replace (length result + 8 - 8)%nat with (length result) by lia.
  apply drop_app_length.
Qed.

Lemma mapping_slot_seal (buf : list Packet) (b : Z) :
  0 <= b < 16 -> length buf = 8%nat ->
  mapping_slot (seal <$> buf) b = mapping_slot buf b.
Proof.
  intros Hb Hlen. unfold mapping_slot.
  rewrite (list_lookup_total_fmap seal) by (rewrite Hlen; apply Nat2Z.inj_lt; rewrite Z2Nat.id;
    [apply Z.div_lt_upper_bound | apply Z.div_pos]; lia).
  destruct (b mod 2 =? 0); rewrite !seal_lookup_lt by lia; reflexivity.
Qed.

Lemma initial_buffer : from_raw <$> default_button_mapping = default_button_mapping.
Proof. reflexivity. Qed.

Lemma build_slots_expected changes g pkts g' b :
  build_button_mapping changes g = Some (pkts, g') -> 0 <= b < 16 ->
  mapping_slot (mapping_packets pkts) b = expected_slot changes b.
Proof.
  unfold build_button_mapping. rewrite initial_buffer.
  destruct (run_entries _ _ _) as [[buf result]|] eqn:Hrun; [|discriminate].
  cbn [mbind option_bind]. intros [= <- _] Hb.
  assert (Hlen0 : length default_button_mapping = 8%nat) by reflexivity.
  assert (Hall0 : Forall len17 default_button_mapping) by (each_packet; reflexivity).
  destruct (run_entries_slot g _ b _ _ _ _ Hrun (map_entries_keys changes)
              Hb Hlen0 Hall0) as (Hlen & _ & Hslot & _).
  rewrite mapping_packets_app by now rewrite length_fmap.
  rewrite mapping_slot_seal, Hslot by assumption.
  unfold map_entries, expected_slot.
  rewrite (fold_entries_lookup changes b _ written_slot) by apply NoDup_seqZ.
  rewrite bool_decide_eq_true_2 by (apply elem_of_seqZ; lia). reflexivity.
Qed.

Lemma default_slots_sum b :
  0 <= b < 16 -> byte_sum (mapping_slot default_button_mapping b) mod 256 = 0x55.
Proof.
  intros Hb.
  destruct (small_index b Hb)
    as [->|[->|[->|[->|[->|[->|[->|[->|[->|[->|[->|[->|[->|[->|[->| ->]]]]]]]]]]]]]]];
    vm_compute; reflexivity.
Qed.

End ReadBack.

(** X1: whenever the builder returns, its last eight packets are the
    mapping packets: the slot of every button 0..15 holds the action bytes
    given for it (the keyboard marker 05 00 00 50 for a keyboard or
    multimedia action) and the factory default when the button has no
    entry; headers and padding are those of the template. *)
Theorem mapping_slots_read_back changes g pkts g' :
  build_button_mapping changes g = Some (pkts, g') ->
  (8 <= length pkts)%nat /\
  length (mapping_packets pkts) = 8%nat /\
  (forall b, 0 <= b < 16 ->
     mapping_slot (mapping_packets pkts) b = expected_slot changes b) /\
  (forall i, (i < 8)%nat ->
     take 6 (mapping_packets pkts !!! i) = take 6 (default_button_mapping !!! i) /\
     drop 14 (take 16 (mapping_packets pkts !!! i)) = [0; 0]).
Proof.
  unfold build_button_mapping. rewrite initial_buffer.
  destruct (run_entries _ _ _) as [[buf result]|] eqn:Hrun; [|discriminate].
  cbn [mbind option_bind]. intros [= <- _].
  assert (Hinit : length default_button_mapping = 8%nat /\ Forall len17 default_button_mapping)
    by (split; [reflexivity | each_packet; reflexivity]).
  destruct Hinit as [Hlen0 Hall0].
  destruct (run_entries_slot g _ 0 _ _ _ _ Hrun (map_entries_keys changes)
              ltac:(lia) Hlen0 Hall0) as (Hlen & Hall & _ & Hhdr).
  assert (Hseal : length (seal <$> buf) = 8%nat) by now rewrite length_fmap.
  rewrite mapping_packets_app by assumption.
  split; [rewrite length_app; lia|]. split; [assumption|]. split.
  - intros b Hb. rewrite mapping_slot_seal by assumption.
    destruct (run_entries_slot g _ b _ _ _ _ Hrun (map_entries_keys changes)
                Hb Hlen0 Hall0) as (_ & _ & Hslot & _).
    rewrite Hslot. unfold map_entries, expected_slot.
    rewrite (fold_entries_lookup changes b _ written_slot) by apply NoDup_seqZ.
    rewrite bool_decide_eq_true_2 by (apply elem_of_seqZ; lia). reflexivity.
  - intros i Hi. rewrite (list_lookup_total_fmap seal) by lia.
    destruct (Hhdr i) as [Htake Hdrop]. unfold seal. split.
    + rewrite take_insert_ge by lia. exact Htake.
    + rewrite take_insert_ge by lia.
      rewrite <- (take_drop_commute (buf !!! i) 2 14), Hdrop.
      do 8 (destruct i as [|i]; [reflexivity|]). lia.
Qed.

Lemma mapping_slots_read_back_witness :
  mapping_slot (mapping_packets sample_packets) 5 = [0x01; 0x01; 0x00; 0x53] /\
  mapping_slot (mapping_packets sample_packets) 9 = kb_key_action /\
  mapping_slot (mapping_packets sample_packets) 0 = [0x00; 0x00; 0x00; 0x55].
Proof.
  assert (Hrun : build_button_mapping sample_changes sample_registry
                 = Some (sample_packets, ∅)) by (vm_compute; reflexivity).
  destruct (mapping_slots_read_back _ _ _ _ Hrun) as (_ & _ & Hslots & _).
  split; [|split].
  - rewrite (Hslots 5) by lia. reflexivity.
  - rewrite (Hslots 9) by lia. reflexivity.
  - rewrite (Hslots 0) by lia. reflexivity.
Defined.

(** ** Bindings the builder ignores, and the number of sub-packets *)

Section Entries.

Lemma process_entry_out_of_range g st k ab :
  16 <= k -> process_entry g st (k, ab) = Some st.
Proof.
  intros Hk. destruct st as [buf res]. unfold process_entry.
  destruct (Z.leb_spec 16 k); [reflexivity | lia].
Qed.

Lemma run_entries_in_range g es : forall st,
  run_entries g es st = run_entries g (filter (fun e => e.1 < 16) es) st.
Proof.
  induction es as [|[k ab] es IH]; intros st; [reflexivity|].
  destruct (decide (k < 16)) as [Hlt|Hge].
  - rewrite filter_cons_True by exact Hlt. rewrite !run_entries_cons.
    destruct (process_entry g st (k, ab)) as [st1|]; [apply IH | reflexivity].
  - rewrite filter_cons_False by exact Hge. rewrite run_entries_cons.
    rewrite process_entry_out_of_range by lia. apply IH.
Qed.

Lemma filter_entries_insert (changes : gmap Z ActionBytes) k ab (keys : list Z) :
  16 <= k ->
  filter (fun e : Z * ActionBytes => e.1 < 16)
         (omap (fun j => (fun v => (j, v)) <$> <[k := ab]> changes !! j) keys)
  = filter (fun e : Z * ActionBytes => e.1 < 16)
           (omap (fun j => (fun v => (j, v)) <$> changes !! j) keys).
Proof.
  intros Hk. induction keys as [|j keys IH]; [reflexivity|].
  cbn [omap list_omap].
  fold (omap (fun j => (fun v => (j, v)) <$> <[k := ab]> changes !! j) keys).
  fold (omap (fun j => (fun v => (j, v)) <$> changes !! j) keys).
  destruct (decide (k = j)) as [->|Hne].
  - rewrite lookup_insert_eq. cbn [fmap option_fmap option_map].
    rewrite filter_cons_False by (simpl; lia).
    destruct (changes !! j); cbn [fmap option_fmap option_map]; [|exact IH].
    rewrite filter_cons_False by (simpl; lia). exact IH.
  - rewrite lookup_insert_ne by exact Hne.
    destruct (changes !! j) as [v|]; cbn [fmap option_fmap option_map]; [|exact IH].
    destruct (decide (j < 16)).
    + rewrite !filter_cons_True by assumption. now rewrite IH.
    + rewrite !filter_cons_False by assumption. exact IH.
Qed.

Lemma process_entry_count g buf res e buf' res' :
  process_entry g (buf, res) e = Some (buf', res') ->
  length res' = (length res + subpacket_count g e)%nat.
Proof.
  destruct e as [k ab]. unfold process_entry, subpacket_count.
  destruct (16 <=? k); [intros [= _ <-]; lia|].
  destruct (Z.eqb_spec (ab !!! 0%nat) 0x92) as [Hmm|Hnmm].
  - rewrite orb_true_r. destruct (kb_key_addr !!! Z.to_nat k) as [hi lo].
    cbn [mbind option_bind]. intros [= _ <-]. rewrite length_app. reflexivity.
  - rewrite orb_false_r. destruct (ab !!! 0%nat =? 0x90); [|intros [= _ <-]; lia].
    destruct (kb_key_addr !!! Z.to_nat k) as [hi lo].
    destruct (collect_keys _ _ _ _ _) as [mods keys].
    unfold keyboard_subpackets, combo_subpackets.
    destruct ((mods =? 0) && (length keys =? 1)%nat).
    + cbn [mbind option_bind]. intros [= _ <-]. rewrite length_app. reflexivity.
    + destruct (combo_packet2 _ _ _) as [p2|]; [|discriminate].
      cbn [mbind option_bind]. intros [= _ <-]. rewrite length_app. reflexivity.
Qed.

Lemma run_entries_count g es : forall buf res buf' res',
  run_entries g es (buf, res) = Some (buf', res') ->
  length res' = (length res + sum_list (subpacket_count g <$> es))%nat.
Proof.
  induction es as [|e es IH]; intros buf res buf' res' Hrun.
  - injection Hrun as _ <-. simpl. lia.
  - rewrite run_entries_cons in Hrun.
    destruct (process_entry g (buf, res) e) as [[buf1 res1]|] eqn:Hstep; [|discriminate].
    cbn [mbind option_bind] in Hrun.
    rewrite (IH _ _ _ _ Hrun), (process_entry_count _ _ _ _ _ _ Hstep).
    rewrite fmap_cons.
    change (sum_list (subpacket_count g e :: (subpacket_count g <$> es)))
      with (subpacket_count g e + sum_list (subpacket_count g <$> es))%nat.
    lia.
Qed.

End Entries.

(** X2: a binding for a button index of 16 or more has no effect at all:
    the builder returns what it returns without that binding. *)
Theorem out_of_range_button_ignored (changes : gmap Z ActionBytes) (g : Registry)
    (k : Z) (ab : ActionBytes) :
  16 <= k ->
  build_button_mapping (<[k := ab]> changes) g = build_button_mapping changes g.
Proof.
  intros Hk. unfold build_button_mapping.
  rewrite (run_entries_in_range g (map_entries (<[k := ab]> changes))).
  rewrite (run_entries_in_range g (map_entries changes)).
  unfold map_entries. now rewrite filter_entries_insert.
Qed.

Lemma out_of_range_button_ignored_witness :
  build_button_mapping (<[200 := [0x01; 0x01; 0x00; 0x53]]> sample_changes) sample_registry
  = build_button_mapping sample_changes sample_registry.
Proof. apply out_of_range_button_ignored. lia. Defined.

(** X3: the packets returned are the sub-packets followed by the eight
    mapping packets; a multimedia binding contributes one sub-packet, a
    plain single key one, any other keyboard binding two, a direct action
    and a button index of 16 or more none. *)
Theorem button_packet_count changes g pkts g' :
  build_button_mapping changes g = Some (pkts, g') ->
  length pkts = (sum_list (subpacket_count g <$> map_entries changes) + 8)%nat.
Proof.
  unfold build_button_mapping. rewrite initial_buffer.
  destruct (run_entries _ _ _) as [[buf result]|] eqn:Hrun; [|discriminate].
  cbn [mbind option_bind]. intros [= <- _].
  assert (Hinit : length default_button_mapping = 8%nat /\ Forall len17 default_button_mapping)
    by (split; [reflexivity | each_packet; reflexivity]).
  destruct Hinit as [Hlen0 Hall0].
  destruct (run_entries_slot g _ 0 _ _ _ _ Hrun (map_entries_keys changes)
              ltac:(lia) Hlen0 Hall0) as (Hlen & _).
  rewrite length_app, length_fmap, Hlen, (run_entries_count _ _ _ _ _ _ Hrun).
  simpl. lia.
Qed.

Lemma button_packet_count_witness :
  length sample_packets = 13%nat
  /\ sum_list (subpacket_count sample_registry <$> map_entries sample_changes) = 5%nat.
Proof.
  assert (Hrun : build_button_mapping sample_changes sample_registry
                 = Some (sample_packets, ∅)) by (vm_compute; reflexivity).
  pose proof (button_packet_count _ _ _ _ Hrun) as Hcount.
  split; [|vm_compute; reflexivity].
  rewrite Hcount. vm_compute. reflexivity.
Defined.

(** ** The LED packets *)

Section Led.

Lemma shiftr_land_byte (z : Z) (n : Z) :
  0 <= n -> u8 (Z.land (Z.shiftr z n) 0xff) = (z / 2 ^ n) mod 256.
Proof.
  intros Hn. rewrite u8_mod, land_ff_mod, Z.mod_mod by lia.
  now rewrite Z.shiftr_div_pow2.
Qed.

Lemma u8_land_complement (z : Z) : u8 (Z.land (0x55 - z) 0xFF) = complement z.
Proof. unfold complement. rewrite u8_mod, land_ff_mod, Z.mod_mod by lia. reflexivity. Qed.

Lemma complement_sum (z : Z) : (z + complement z) mod 256 = 0x55.
Proof.
  unfold complement. rewrite Zplus_mod_idemp_r.
  replace (z + (0x55 - z)) with 0x55 by lia. reflexivity.
Qed.

Lemma led_color_bytes (color : Z) :
  u8 (Z.land (Z.shiftr color 16) 0xff) = color_red color /\
  u8 (Z.land (Z.shiftr color 8) 0xff) = color_green color /\
  u8 (Z.land color 0xff) = color_blue color.
Proof.
  unfold color_red, color_green, color_blue. repeat split.
  - now rewrite shiftr_land_byte by lia.
  - now rewrite shiftr_land_byte by lia.
  - rewrite u8_mod, land_ff_mod, Z.mod_mod by lia. reflexivity.
Qed.

End Led.

(** X4: the LED packets in closed form.  Steady is one packet and
    Respiration two; the colour packet carries the red, green and blue
    byte of the colour, the byte completing their sum to 0x55, the mode
    byte and the brightness each with its complement to 0x55; the speed
    packet carries the speed and its complement.  Off and Rainbow do not
    depend on colour, brightness or speed, and Steady not on the speed. *)
Theorem led_packets_layout (color brightness speed : Z) :
  build_led_packets Steady color brightness speed
    = [seal (led_color_layout 0x01 color brightness)] /\
  build_led_packets Respiration color brightness speed
    = [seal (led_color_layout 0x02 color brightness); seal (led_speed_layout speed)] /\
  build_led_packets Off color brightness speed = led_off /\
  build_led_packets Rainbow color brightness speed = led_rainbow /\
  (color_red color + color_green color + color_blue color
   + complement (color_red color + color_green color + color_blue color)) mod 256 = 0x55 /\
  (brightness + complement brightness) mod 256 = 0x55 /\
  (speed + complement speed) mod 256 = 0x55.
Proof.
  destruct (led_color_bytes color) as (Hr & Hg & Hb).
  split; [|split; [|split; [|split; [|split; [|split]]]]]; try apply complement_sum;
    try reflexivity.
  - unfold build_led_packets. cbv zeta.
    rewrite Hr, Hg, Hb, !u8_land_complement.
    replace (0x55 - color_red color - color_green color - color_blue color)
      with (0x55 - (color_red color + color_green color + color_blue color)) by lia.
    rewrite !u8_land_complement. reflexivity.
  - unfold build_led_packets. cbv zeta.
    rewrite Hr, Hg, Hb, !u8_land_complement.
    replace (0x55 - color_red color - color_green color - color_blue color)
      with (0x55 - (color_red color + color_green color + color_blue color)) by lia.
    rewrite !u8_land_complement. reflexivity.
Qed.

(** ** The DPI packets *)

Section DpiPayload.

Lemma dpi_table_entries_ok : forallb dpi_entry_ok dpi_table = true.
Proof. vm_compute. reflexivity. Qed.

Lemma dpi_code_entry_ok val c0 c1 c2 :
  dpi_code val = Some (c0, c1, c2) ->
  c0 = c1 /\ 0 <= c0 < 256 /\ c2 = complement (c0 + c1).
Proof.
  unfold dpi_code. destruct (val =? 0); [discriminate|]. intros Hlook.
  apply lookup_dpi_in_sound in Hlook.
  pose proof dpi_table_entries_ok as Hall. rewrite forallb_forall in Hall.
  specialize (Hall _ Hlook). unfold dpi_entry_ok in Hall.
  apply andb_prop in Hall as [Hall H3]. apply andb_prop in Hall as [Hall H2].
  apply andb_prop in Hall as [H0 H1].
  apply Z.eqb_eq in H0, H3. apply Z.leb_le in H1. apply Z.ltb_lt in H2. lia.
Qed.

Lemma slot_group_build dpi i :
  (i < 5)%nat ->
  slot_group (build_dpi_packets dpi) i =
    match dpi_code (values dpi !!! i) with
    | Some (c0, c1, c2) => [c0; c1; 0x00; c2]
    | None => slot_group dpi_template i
    end.
Proof.
  intros Hi. rewrite build_dpi_closed. unfold slot_group.
  destruct i as [|[|[|[|[|i]]]]]; try lia; simpl slot_pos; cbv iota beta;
    simpl (_ ++ _); simpl (lookup_total _ (_ :: _));
    rewrite !seal_lookup_lt by lia.
  - destruct (dpi_code (values dpi !!! 0%nat)) as [[[a0 a1] a2]|];
      destruct (dpi_code (values dpi !!! 1%nat)) as [[[b0 b1] b2]|]; reflexivity.
  - destruct (dpi_code (values dpi !!! 0%nat)) as [[[a0 a1] a2]|];
      destruct (dpi_code (values dpi !!! 1%nat)) as [[[b0 b1] b2]|]; reflexivity.
  - destruct (dpi_code (values dpi !!! 2%nat)) as [[[a0 a1] a2]|];
      destruct (dpi_code (values dpi !!! 3%nat)) as [[[b0 b1] b2]|]; reflexivity.
  - destruct (dpi_code (values dpi !!! 2%nat)) as [[[a0 a1] a2]|];
      destruct (dpi_code (values dpi !!! 3%nat)) as [[[b0 b1] b2]|]; reflexivity.
  - destruct (dpi_code (values dpi !!! 4%nat)) as [[[a0 a1] a2]|]; reflexivity.
Qed.

Lemma template_groups_ok i :
  (i < 5)%nat ->
  exists c0 c2, slot_group dpi_template i = [c0; c0; 0x00; c2]
                /\ 0 <= c0 < 256 /\ c2 = complement (c0 + c0).
Proof.
  intros Hi. destruct i as [|[|[|[|[|i]]]]]; try lia;
    (eexists _, _; split; [reflexivity | split; [simpl; lia | reflexivity]]).
Qed.

Lemma put_code_header off c (p : Packet) :
  (6 <= off)%nat -> take 6 (put_code off c p) = take 6 p.
Proof.
  intros Hoff. unfold put_code. destruct c as [[[c0 c1] c2]|]; [|reflexivity].
  now rewrite !take_insert_ge by lia.
Qed.

Lemma seal_header (p : Packet) : take 6 (seal p) = take 6 p.
Proof. unfold seal. apply take_insert_ge. lia. Qed.

End DpiPayload.

(** X5: whatever is configured, every DPI slot of the output holds a
    doubled code byte, a zero and the byte completing the sum to 0x55 (the
    code of the table or the template's), and the two enable bytes add up
    to 0x55. *)
Theorem dpi_inline_checksums (dpi : DpiSettings) (i : nat) :
  (i < 5)%nat ->
  (exists c0 c2,
      slot_group (build_dpi_packets dpi) i = [c0; c0; 0x00; c2]
      /\ 0 <= c0 < 256 /\ c2 = complement (c0 + c0)) /\
  byte_sum (slot_group (build_dpi_packets dpi) i) mod 256 = 0x55 /\
  (enable_pair (build_dpi_packets dpi)).1 + (enable_pair (build_dpi_packets dpi)).2 = 0x55.
Proof.
  intros Hi.
  assert (Hgrp : exists c0 c2,
             slot_group (build_dpi_packets dpi) i = [c0; c0; 0x00; c2]
             /\ 0 <= c0 < 256 /\ c2 = complement (c0 + c0)).
  { rewrite slot_group_build by assumption.
    destruct (dpi_code (values dpi !!! i)) as [[[c0 c1] c2]|] eqn:Hcode.
    - destruct (dpi_code_entry_ok _ _ _ _ Hcode) as (-> & Hrange & ->).
      exists c1, (complement (c1 + c1)). repeat split; lia.
    - now apply template_groups_ok. }
  split; [exact Hgrp|]. split.
  - destruct Hgrp as (c0 & c2 & -> & _ & ->). unfold byte_sum. simpl foldr.
    replace (c0 + (c0 + (0 + (complement (c0 + c0) + 0))))
      with ((c0 + c0) + complement (c0 + c0)) by lia.
    apply complement_sum.
  - rewrite enable_pair_build.
    destruct (num_enabled (enabled dpi) =? 0); [reflexivity|].
    unfold enable_bytes.
    destruct (enabled dpi !!! 1%nat), (enabled dpi !!! 2%nat),
      (enabled dpi !!! 3%nat), (enabled dpi !!! 4%nat); reflexivity.
Qed.

Lemma dpi_inline_checksums_witness :
  byte_sum (slot_group (build_dpi_packets dpi_3200_3300) 1) mod 256 = 0x55.
Proof. exact (proj1 (proj2 (dpi_inline_checksums dpi_3200_3300 1 ltac:(lia)))). Defined.

(** X6: the DPI sequence always has seven packets; the last three are the
    fixed companion packets; the four DPI packets keep the template's
    header (address and length); with nothing configured the template is
    reproduced byte for byte. *)
Theorem dpi_packets_shape (dpi : DpiSettings) :
  length (build_dpi_packets dpi) = 7%nat /\
  drop 4 (build_dpi_packets dpi) = unknown2 /\
  take 6 <$> take 4 (build_dpi_packets dpi) = take 6 <$> dpi_template /\
  build_dpi_packets dpi_all_default = dpi_template ++ unknown2.
Proof.
  rewrite build_dpi_closed. split; [reflexivity|]. split; [reflexivity|].
  split; [|reflexivity].
  cbn [app take fmap list_fmap]. rewrite !seal_header, !put_code_header by lia.
  unfold put_enable. destruct (num_enabled (enabled dpi) =? 0); reflexivity.
Qed.

(** ** The action codes of [parse_action] *)

Open Scope string_scope.

Section ActionCodes.

Lemma table_find_In {A} (tbl : list (string * A)) (k : string) (v : A) :
  table_find tbl k = Some v -> In (k, v) tbl.
Proof.
  induction tbl as [|[name w] tbl IH]; simpl; [discriminate|].
  destruct (String.eqb_spec name k) as [->|_].
  - intros [= ->]. now left.
  - intros H. right. auto.
Qed.

Lemma mouse_actions_ok : forallb literal_ok mouse_actions = true.
Proof. vm_compute. reflexivity. Qed.

Lemma modifier_bits_ok : forallb (fun e => is_byte e.2) modifier_bits = true.
Proof. vm_compute. reflexivity. Qed.

Lemma key_codes_ok : forallb (fun e => is_byte e.2 && (0 <? e.2)%Z) key_codes = true.
Proof. vm_compute. reflexivity. Qed.

Lemma is_byte_range b : is_byte b = true <-> (0 <= b < 256)%Z.
Proof. unfold is_byte. rewrite andb_true_iff, Z.leb_le, Z.ltb_lt. reflexivity. Qed.

Lemma lor_byte (a b : Z) :
  (0 <= a < 256)%Z -> (0 <= b < 256)%Z -> (0 <= Z.lor a b < 256)%Z.
Proof.
  intros Ha Hb.
  assert (Hland : Z.lor a b = Z.land (Z.lor a b) 0xFF).
  { rewrite Z.land_lor_distr_l, !land_ff_mod, !Z.mod_small by lia. reflexivity. }
  rewrite Hland, land_ff_mod. apply Z.mod_pos_bound. lia.
Qed.

Lemma fold_mask_byte (toks : list string) (m : Z) :
  (0 <= m < 256)%Z ->
  (0 <= fold_left (fun m tok => match table_find modifier_bits tok with
                                | Some b => Z.lor m b
                                | None => m
                                end) toks m < 256)%Z.
Proof.
  revert m. induction toks as [|tok toks IH]; intros m Hm; [exact Hm|].
  cbn [fold_left]. apply IH.
  destruct (table_find modifier_bits tok) as [b|] eqn:Hfind; [|exact Hm].
  apply lor_byte; [exact Hm|].
  apply table_find_In in Hfind.
  pose proof modifier_bits_ok as Hall. rewrite forallb_forall in Hall.
  apply (Hall _) in Hfind. now apply is_byte_range in Hfind.
Qed.

Lemma modifier_mask_byte toks : (0 <= modifier_mask toks < 256)%Z.
Proof. unfold modifier_mask. apply fold_mask_byte. lia. Qed.

Lemma key_list_bytes toks : Forall (fun k => (0 < k < 256)%Z) (key_list toks).
Proof.
  unfold key_list. apply Forall_forall. intros k Hk.
  apply list_elem_of_omap in Hk as (tok & _ & Hf).
  destruct (is_modifier tok); [discriminate|].
  apply table_find_In in Hf.
  pose proof key_codes_ok as Hall. rewrite forallb_forall in Hall.
  apply (Hall _) in Hf. simpl in Hf. apply andb_prop in Hf as [Hb Hpos].
  apply is_byte_range in Hb. apply Z.ltb_lt in Hpos. lia.
Qed.

(** The three ways [parse_action] succeeds. *)
Lemma parse_action_cases s ab :
  parse_action s = Some ab ->
  fire_outcome (to_lower s) ab
  \/ table_find mouse_actions (to_lower s) = Some ab
  \/ (let toks := split (to_lower s) "+" in
      ab = keyboard_code (modifier_mask toks) (key_list toks)
      /\ (length (key_list toks) <= 255)%nat
      /\ parse_multikey s = Some (modifier_mask toks, key_list toks)).
Proof.
  intros Hparse.
  destruct (String.eqb_spec (substring 0 5 (to_lower s)) "fire:") as [Hfire|Hfire].
  - left. unfold parse_action in Hparse. rewrite Hfire, String.eqb_refl in Hparse.
    now apply parse_fire_outcome.
  - destruct (table_find mouse_actions (to_lower s)) as [lit|] eqn:Hlit.
    + right; left. unfold parse_action in Hparse.
      destruct (String.eqb_spec (substring 0 5 (to_lower s)) "fire:"); [contradiction|].
      rewrite Hlit in Hparse. exact Hparse.
    + right; right. rewrite (parse_action_keyboard s Hfire Hlit) in Hparse.
      cbv zeta in *. unfold parse_multikey.
      destruct (split (to_lower s) "+") as [|tok toks]; [discriminate|].
      rewrite parse_parts_spec.
      destruct (forallb recognized (tok :: toks)); [|discriminate].
      cbn [andb] in Hparse.
      destruct (Nat.leb_spec (length (key_list (tok :: toks))) 255); [|discriminate].
      injection Hparse as <-. rewrite Z.lor_0_l. cbn [app]. repeat split. assumption.
Qed.

Lemma parse_action_code_wellformed_aux (s : string) (ab : ActionBytes) :
  parse_action s = Some ab ->
  length ab = 4%nat /\
  (is_keyboard_action ab = false -> (byte_sum ab mod 256 = 0x55)%Z).
Proof.
  intros Hparse. destruct (parse_action_cases s ab Hparse) as [Hfire|[Hlit|Hkb]].
  - destruct Hfire as (hd & p1 & p2 & speed & times & _ & _ & _ & Hs & Ht & ->).
    split; [reflexivity|].
    intros _. unfold byte_sum. simpl foldr.
    replace (4 + (speed + (times + ((85 - (4 + speed + times)) mod 256 + 0))))%Z
      with ((4 + speed + times) + complement (4 + speed + times))%Z
      by (unfold complement; lia).
    apply complement_sum.
  - apply table_find_In in Hlit.
    pose proof mouse_actions_ok as Hall. rewrite forallb_forall in Hall.
    apply (Hall _) in Hlit. unfold literal_ok in Hlit. simpl in Hlit.
    apply andb_prop in Hlit as [Hlit Hsum]. apply andb_prop in Hlit as [Hlit Hno90].
    apply andb_prop in Hlit as [Hlen Hbytes].
    split; [now apply Nat.eqb_eq|].
    intros Hkb. rewrite Hkb in Hsum. now apply Z.eqb_eq.
  - cbv zeta in Hkb. destruct Hkb as (-> & Hlen & _).
    split; [reflexivity | discriminate].
Qed.

End ActionCodes.


(** X7: an action code returned by [parse_action] has four bytes, each in
    0..255; unless it is a keyboard (0x90) or multimedia (0x92) code its
    bytes add up to 0x55 modulo 256; a keyboard code carries 0 or a key
    count of 2..255 in its last byte. *)
Theorem parse_action_code_wellformed (s : string) (ab : ActionBytes) :
  parse_action s = Some ab ->
  length ab = 4%nat /\
  Forall (fun b => (0 <= b < 256)%Z) ab /\
  (is_keyboard_action ab = false -> (byte_sum ab mod 256 = 0x55)%Z) /\
  (ab !!! 0%nat = 0x90%Z -> ab !!! 3%nat = 0%Z \/ (2 <= ab !!! 3%nat <= 255)%Z).
Proof.
  intros Hparse. destruct (parse_action_cases s ab Hparse) as [Hfire|[Hlit|Hkb]].
  - destruct Hfire as (hd & p1 & p2 & speed & times & _ & _ & _ & Hs & Ht & ->).
    split; [reflexivity|]. split; [|split].
    + repeat (apply Forall_cons_2 || apply Forall_nil_2); try lia.
      apply Z.mod_pos_bound. lia.
    + intros _. unfold byte_sum. simpl foldr.
      replace (4 + (speed + (times + ((85 - (4 + speed + times)) mod 256 + 0))))%Z
        with ((4 + speed + times) + complement (4 + speed + times))%Z
        by (unfold complement; lia).
      apply complement_sum.
    + cbn. discriminate.
  - apply table_find_In in Hlit.
    pose proof mouse_actions_ok as Hall. rewrite forallb_forall in Hall.
    apply (Hall _) in Hlit. unfold literal_ok in Hlit. simpl in Hlit.
    apply andb_prop in Hlit as [Hlit Hsum]. apply andb_prop in Hlit as [Hlit Hno90].
    apply andb_prop in Hlit as [Hlen Hbytes].
    split; [now apply Nat.eqb_eq|]. split; [|split].
    + apply Forall_forall. intros b Hb. rewrite forallb_forall in Hbytes.
      apply is_byte_range, Hbytes. now apply list_elem_of_In.
    + intros Hkb. rewrite Hkb in Hsum. now apply Z.eqb_eq.
    + intros H90. rewrite H90 in Hno90. discriminate.
  - cbv zeta in Hkb. destruct Hkb as (-> & Hlen & _).
    set (toks := split (to_lower s) "+") in *.
    pose proof (modifier_mask_byte toks) as Hmask.
    pose proof (key_list_bytes toks) as Hkeys.
    unfold keyboard_code. split; [reflexivity|]. split; [|split].
    + repeat (apply Forall_cons_2 || apply Forall_nil_2); try lia.
      * destruct (key_list toks) as [|k ks]; [simpl; lia|].
        apply Forall_cons in Hkeys as [Hk _]. simpl. lia.
      * destruct (Nat.leb_spec (length (key_list toks)) 1); lia.
    + discriminate.
    + intros _.
      change (([0x90; modifier_mask toks; hd 0 (key_list toks);
                if (length (key_list toks) <=? 1)%nat then 0
                else Z.of_nat (length (key_list toks))]%Z : list Z) !!! 3%nat)
        with (if (length (key_list toks) <=? 1)%nat then 0%Z
              else Z.of_nat (length (key_list toks))).
      destruct (Nat.leb_spec (length (key_list toks)) 1); [now left | right; lia].
Qed.

Lemma parse_action_code_wellformed_witness :
  (byte_sum [0x04; 50; 2; 0x1D] mod 256 = 0x55)%Z.
Proof.
  assert (Hparse : parse_action "fire:50:2" = Some [0x04; 50; 2; 0x1D]%Z)
    by (vm_compute; reflexivity).
  destruct (parse_action_code_wellformed _ _ Hparse) as (_ & _ & Hsum & _).
  apply Hsum. reflexivity.
Defined.

(** X8: when every binding is an action code returned by [parse_action],
    each of the sixteen 4-byte slots of the mapping packets adds up to 0x55
    modulo 256. *)
Theorem mapping_slots_inline_checksum changes g pkts g' :
  build_button_mapping changes g = Some (pkts, g') ->
  (forall b ab, changes !! b = Some ab -> exists s, parse_action s = Some ab) ->
  forall b, (0 <= b < 16)%Z ->
    (byte_sum (mapping_slot (mapping_packets pkts) b) mod 256 = 0x55)%Z.
Proof.
  intros Hbuild Hparsed b Hb.
  rewrite (build_slots_expected _ _ _ _ b Hbuild Hb). unfold expected_slot.
  destruct (changes !! b) as [ab|] eqn:Hlook.
  - destruct (Hparsed b ab Hlook) as [s Hs].
    destruct (parse_action_code_wellformed_aux s ab Hs) as (Hlen & Hsum).
    unfold written_slot. destruct (is_keyboard_action ab) eqn:Hkb; [reflexivity|].
    specialize (Hsum eq_refl).
    do 4 (destruct ab as [|? ab]; [discriminate|]). destruct ab; [|discriminate].
    exact Hsum.
  - now apply default_slots_sum.
Qed.

Lemma mapping_slots_inline_checksum_witness :
  (byte_sum (mapping_slot (mapping_packets sample_packets) 5) mod 256 = 0x55)%Z.
Proof.
  assert (Hrun : build_button_mapping sample_changes sample_registry
                 = Some (sample_packets, ∅)) by (vm_compute; reflexivity).
  apply (mapping_slots_inline_checksum _ _ _ _ Hrun); [|lia].
  intros b ab Hlook. unfold sample_changes in Hlook.
  destruct (decide (b = 3%Z)) as [->|H3];
    [exists "ctrl+c"; vm_compute in Hlook; injection Hlook as <-; vm_compute; reflexivity|].
  destruct (decide (b = 5%Z)) as [->|H5];
    [exists "left"; vm_compute in Hlook; injection Hlook as <-; vm_compute; reflexivity|].
  destruct (decide (b = 7%Z)) as [->|H7];
    [exists "media_play"; vm_compute in Hlook; injection Hlook as <-; vm_compute; reflexivity|].
  destruct (decide (b = 9%Z)) as [->|H9];
    [exists "a+b+c"; vm_compute in Hlook; injection Hlook as <-; vm_compute; reflexivity|].
  rewrite !lookup_insert_ne in Hlook by congruence.
  rewrite lookup_singleton_ne in Hlook by congruence. discriminate.
Defined.

(** ** A registered combination is built with all its keys *)

Section Registered.

Lemma keyboard_code_of_parse s ab :
  parse_action s = Some ab -> ab !!! 0%nat = 0x90%Z ->
  let toks := split (to_lower s) "+" in
  ab = keyboard_code (modifier_mask toks) (key_list toks)
  /\ (length (key_list toks) <= 255)%nat
  /\ parse_multikey s = Some (modifier_mask toks, key_list toks).
Proof.
  intros Hparse H90. destruct (parse_action_cases s ab Hparse) as [Hfire|[Hlit|Hkb]].
  - destruct Hfire as (hd & p1 & p2 & speed & times & _ & _ & _ & _ & _ & ->).
    discriminate H90.
  - apply table_find_In in Hlit.
    pose proof mouse_actions_ok as Hall. rewrite forallb_forall in Hall.
    apply (Hall _) in Hlit. unfold literal_ok in Hlit. simpl in Hlit.
    apply andb_prop in Hlit as [Hlit _]. apply andb_prop in Hlit as [_ Hno90].
    rewrite H90 in Hno90. discriminate.
  - exact Hkb.
Qed.

End Registered.

(** X9: when [parse_action] returns a keyboard code with a key count above
    1 for an action string, [parse_multikey] reads the same string as the
    same modifier byte and a key list of exactly that length starting with
    the code's key.  Registered for its button, such a combination of at
    most three modifiers and keys in total is built into the two
    sub-packets that carry the ordered event list of the whole key list
    (never of the first key alone), followed by the mapping packets with
    the keyboard marker in the button's slot; with four or more modifiers
    and keys the builder does not return. *)
Theorem registered_combination_uses_all_keys
    (s : string) (ab : ActionBytes) (btn_idx : Z) (g : Registry) :
  parse_action s = Some ab -> ab !!! 0%nat = 0x90%Z -> (1 < ab !!! 3%nat)%Z ->
  (0 <= btn_idx < 16)%Z ->
  exists keys,
    parse_multikey s = Some (ab !!! 1%nat, keys) /\
    Z.of_nat (length keys) = ab !!! 3%nat /\
    keys !!! 0%nat = ab !!! 2%nat /\
    usable_registration (register_multikey_action btn_idx s g) btn_idx
      = Some (ab !!! 1%nat, keys) /\
    build_button_mapping {[ btn_idx := ab ]} (register_multikey_action btn_idx s g)
      = if (combination_size (ab !!! 1%nat) keys <=? 3)%nat
        then
          let addr := kb_key_addr !!! Z.to_nat btn_idx in
          let evts := ordered_event_list (ab !!! 1%nat) keys in
          Some (([seal (packet1_layout addr.1 addr.2 evts);
                  seal (packet2_layout addr.1 addr.2 evts)]
                 ++ (seal <$> write_slot default_button_mapping btn_idx kb_key_action))%list,
                ∅)
        else None.
Proof.
  intros Hparse H90 Hcount Hbtn.
  destruct (keyboard_code_of_parse s ab Hparse H90) as (Hab & Hlen & Hmulti).
  set (toks := split (to_lower s) "+") in *.
  set (keys := key_list toks) in *. set (mods := modifier_mask toks) in *.
  assert (Hfields : ab !!! 1%nat = mods /\ ab !!! 2%nat = hd 0%Z keys
                    /\ ab !!! 3%nat = (if (length keys <=? 1)%nat then 0%Z
                                       else Z.of_nat (length keys))).
  { rewrite Hab. unfold keyboard_code. repeat split. }
  destruct Hfields as (H1 & H2 & H3).
  destruct (Nat.leb_spec (length keys) 1) as [Hshort|Hlong]; [lia|].
  assert (Husable : usable_registration (register_multikey_action btn_idx s g) btn_idx
                    = Some (mods, keys)).
  { unfold usable_registration, register_multikey_action.
    rewrite lookup_insert_eq, Hmulti.
    destruct (Nat.leb_spec 2 (length keys)); [reflexivity | lia]. }
  exists keys. rewrite H1, H2, H3. split; [exact Hmulti|]. split; [reflexivity|].
  split; [destruct keys; [simpl in Hlong; lia | reflexivity]|].
  split; [exact Husable|].
  rewrite Hab. unfold keyboard_code.
  rewrite build_single_multikey by
    (try assumption; destruct (Nat.leb_spec (length keys) 1); lia).
  rewrite Husable. unfold single_binding_result. cbv zeta.
  destruct (kb_key_addr !!! Z.to_nat btn_idx) as [hi lo]. cbn [fst snd].
  unfold keyboard_subpackets.
  assert (Hpath : ((mods =? 0)%Z && (length keys =? 1)%nat) = false).
  { destruct (Nat.eqb_spec (length keys) 1); [lia | now rewrite andb_false_r]. }
  rewrite Hpath.
  destruct (Nat.leb_spec (combination_size mods keys) 3) as [Hfit|Hover].
  - rewrite combo_subpackets_capacity by exact Hfit. reflexivity.
  - rewrite combo_subpackets_overflow by lia. reflexivity.
Qed.

Lemma registered_combination_uses_all_keys_witness :
  build_button_mapping {[ 2%Z := [0x90; 0x01; 0x04; 2]%Z ]}
                       (register_multikey_action 2 "ctrl+a+b" ∅)
  = Some (([seal (packet1_layout 0x01 0x40 (ordered_event_list 0x01 [0x04; 0x05]%Z));
            seal (packet2_layout 0x01 0x40 (ordered_event_list 0x01 [0x04; 0x05]%Z))]
           ++ (seal <$> write_slot default_button_mapping 2 kb_key_action))%list, ∅).
Proof.
  assert (Hparse : parse_action "ctrl+a+b" = Some [0x90; 0x01; 0x04; 2]%Z)
    by (vm_compute; reflexivity).
  destruct (registered_combination_uses_all_keys "ctrl+a+b" _ 2 ∅ Hparse
              eq_refl ltac:(simpl; lia) ltac:(lia))
    as (keys & Hmulti & _ & _ & _ & Hbuild).
  assert (Hkeys : parse_multikey "ctrl+a+b" = Some (0x01, [0x04; 0x05])%Z)
    by (vm_compute; reflexivity).
  rewrite Hkeys in Hmulti. injection Hmulti as <-. exact Hbuild.
Defined.

Close Scope string_scope.

(** ** Button names and LED modes *)

Open Scope string_scope.

(** X10: [parse_button_name] ignores case, returns only the indices 0..15
    and reaches each of them; the sixteen canonical names stand for
    sixteen different buttons, and [button_sideN] is the same button as
    [button_N] for N = 1..12. *)
Theorem parse_button_name_indices :
  (forall name, parse_button_name (to_lower name) = parse_button_name name) /\
  (forall name b, parse_button_name name = Some b -> (0 <= b < 16)%Z) /\
  (forall b, (0 <= b < 16)%Z -> exists name, parse_button_name name = Some b) /\
  NoDup (snd <$> take 16 button_table) /\
  Forall (fun N =>
            parse_button_name ("button_side" ++ N) = parse_button_name ("button_" ++ N)
            /\ is_Some (parse_button_name ("button_" ++ N)))
         ["1"; "2"; "3"; "4"; "5"; "6"; "7"; "8"; "9"; "10"; "11"; "12"].
Proof.
  split; [|split; [|split; [|split]]].
  - intros name. unfold parse_button_name. now rewrite to_lower_idem.
  - intros name b Hfind. unfold parse_button_name in Hfind.
    apply table_find_In in Hfind.
    assert (Hall : forallb (fun e => is_byte e.2 && (e.2 <? 16)%Z) button_table = true)
      by (vm_compute; reflexivity).
    rewrite forallb_forall in Hall. apply (Hall _) in Hfind. simpl in Hfind.
    apply andb_prop in Hfind as [Hb Hlt]. apply is_byte_range in Hb.
    apply Z.ltb_lt in Hlt. lia.
  - intros b Hb.
    destruct (small_index b Hb)
      as [->|[->|[->|[->|[->|[->|[->|[->|[->|[->|[->|[->|[->|[->|[->| ->]]]]]]]]]]]]]]].
    + now exists "button_1".
    + now exists "button_2".
    + now exists "button_3".
    + now exists "button_4".
    + now exists "button_5".
    + now exists "button_6".
    + now exists "button_right".
    + now exists "button_left".
    + now exists "button_7".
    + now exists "button_8".
    + now exists "button_middle".
    + now exists "button_fire".
    + now exists "button_9".
    + now exists "button_10".
    + now exists "button_11".
    + now exists "button_12".
  - apply (bool_decide_unpack _). vm_compute. exact I.
  - repeat (apply Forall_cons_2 || apply Forall_nil_2);
      (split; [vm_compute; reflexivity | vm_compute; eexists; reflexivity]).
Qed.

(** X11: the mode names of the config file ([parse_led_mode]) and of the
    inline [--led] option are the same six, read alike: both parsers agree
    on every string. *)
Theorem led_mode_parsers_agree (s : string) :
  inline_led_mode s = parse_led_mode s.
Proof.
  unfold inline_led_mode, parse_led_mode. cbv zeta.
  destruct (String.eqb_spec (to_lower s) "off"); [reflexivity|].
  destruct (String.eqb_spec (to_lower s) "static") as [->|]; [reflexivity|].
  destruct (String.eqb_spec (to_lower s) "steady") as [->|]; [reflexivity|].
  destruct (String.eqb_spec (to_lower s) "breathing") as [->|]; [reflexivity|].
  destruct (String.eqb_spec (to_lower s) "respiration") as [->|]; [reflexivity|].
  reflexivity.
Qed.

Close Scope string_scope.

(** ** Validation *)

Section Validation.

Lemma dpi_value_accepted (v : Z) :
  dpi_value_rejected v = false <-> exists k, 1 <= k <= 160 /\ v = 100 * k.
Proof.
  unfold dpi_value_rejected. rewrite !orb_false_iff, negb_false_iff.
  rewrite !Z.ltb_ge, Z.eqb_eq. split.
  - intros [[Hlo Hhi] Hmod]. exists (v / 100).
    pose proof (Z.div_mod v 100 ltac:(lia)). split; lia.
  - intros (k & Hk & ->). repeat split; try lia.
    rewrite Z.mul_comm. apply Z.mod_mul. lia.
Qed.

Lemma validate_dpi_None (slots : list DpiConfig) (i : nat) :
  validate_dpi slots i = None <-> Forall dpi_slot_ok slots.
Proof.
  revert i. induction slots as [|d slots IH]; intros i; simpl.
  - split; [intros _; apply Forall_nil_2 | reflexivity].
  - rewrite Forall_cons. unfold dpi_slot_ok at 1.
    destruct (Z.eqb_spec (dpi_value d) 0) as [Hz|Hnz].
    + rewrite IH. split; [intros H; split; [now left | exact H] | now intros [_ H]].
    + destruct (dpi_value_rejected (dpi_value d)) eqn:Hrej.
      * split; [discriminate|]. intros [[Hz|Hk] _]; [contradiction|].
        apply dpi_value_accepted in Hk. congruence.
      * rewrite IH. apply dpi_value_accepted in Hrej.
        split; [intros H; split; [now right | exact H] | now intros [_ H]].
Qed.

Lemma validate_buttons_None (buttons : list (string * string)) :
  validate_buttons buttons = None <-> Forall button_entry_ok buttons.
Proof.
  induction buttons as [|[key action] buttons IH]; simpl.
  - split; [intros _; apply Forall_nil_2 | reflexivity].
  - rewrite Forall_cons. unfold button_entry_ok at 1. simpl.
    destruct (parse_button_name key) as [b|].
    + destruct (parse_action action) as [ab|].
      * rewrite IH. split; [intros H; repeat split; eauto | now intros [_ H]].
      * split; [discriminate | intros [[_ [? Hx]] _]; discriminate Hx].
    + split; [discriminate | intros [[[? Hx] _] _]; discriminate Hx].
Qed.

End Validation.

Lemma validate_config_iff (cfg : Config) :
  validate_config cfg = None <->
  polling_rate_ok (cfg_mouse cfg)
  /\ Forall dpi_slot_ok (take 5 (cfg_dpi cfg))
  /\ Forall button_entry_ok (cfg_buttons cfg).
Proof.
  unfold validate_config, polling_rate_ok. cbv zeta.
  rewrite <- validate_dpi_None with (i := 0%nat), <- validate_buttons_None.
  destruct (mouse_set (cfg_mouse cfg)); simpl.
  - destruct (Z.eqb_spec (polling_rate (cfg_mouse cfg)) 125) as [H1|H1]; simpl;
      [|destruct (Z.eqb_spec (polling_rate (cfg_mouse cfg)) 250) as [H2|H2]; simpl;
        [|destruct (Z.eqb_spec (polling_rate (cfg_mouse cfg)) 500) as [H3|H3]; simpl;
          [|destruct (Z.eqb_spec (polling_rate (cfg_mouse cfg)) 1000) as [H4|H4]; simpl]]].
    5: { split; [discriminate|]. intros [Hr _]. specialize (Hr eq_refl). lia. }
    all: destruct (validate_dpi _ _);
      (split; [try discriminate; intros H; repeat split; auto
              | intros (_ & Hd & Hb); try discriminate; exact Hb]).
  - destruct (validate_dpi _ _);
      (split; [try discriminate; intros H; repeat split; auto; discriminate
              | intros (_ & Hd & Hb); try discriminate; exact Hb]).
Qed.

(** X12: [validate_config] returns without an exception exactly when the
    polling rate, if set, is 125, 250, 500 or 1000, each of the five DPI
    values is 0 or a multiple of 100 from 100 to 16000, and every button
    entry has a name [parse_button_name] knows and an action
    [parse_action] accepts. *)
Theorem validate_config_accepts (cfg : Config) :
  validate_config cfg = None <->
  polling_rate_ok (cfg_mouse cfg)
  /\ Forall dpi_slot_ok (take 5 (cfg_dpi cfg))
  /\ Forall button_entry_ok (cfg_buttons cfg).
Proof. apply validate_config_iff. Qed.

(** X13: the DPI values [validate_config] accepts are the 160 multiples of
    100 up to 16000; every value with an entry in [dpi_table] is among
    them, but only 55 of the 160 have an entry.  An accepted value
    without entry builds the same packets as an unset slot. *)
Theorem accepted_dpi_without_table_entry :
  (forall v, dpi_value_rejected v = false <-> v ∈ accepted_dpi_values) /\
  (forall v c, lookup_dpi v = Some c -> dpi_value_rejected v = false) /\
  length accepted_dpi_values = 160%nat /\
  length (List.filter has_dpi_entry accepted_dpi_values) = 55%nat /\
  (forall dpi i,
      dpi_value_rejected (values dpi !!! i) = false ->
      has_dpi_entry (values dpi !!! i) = false ->
      build_dpi_packets dpi = build_dpi_packets (set_value dpi i 0)).
Proof.
  split; [|split; [|split; [|split]]].
  - intros v. rewrite dpi_value_accepted. unfold accepted_dpi_values.
    rewrite list_elem_of_fmap. split.
    + intros (k & Hk & ->). exists k. split; [reflexivity|]. apply elem_of_seqZ. lia.
    + intros (k & -> & Hk). apply elem_of_seqZ in Hk. exists k. split; [lia | reflexivity].
  - intros v c Hfind. apply lookup_dpi_exact in Hfind.
    assert (Hall : forallb (fun e => negb (dpi_value_rejected e.1)) dpi_table = true)
      by (vm_compute; reflexivity).
    rewrite forallb_forall in Hall. apply (Hall _) in Hfind. simpl in Hfind.
    now apply negb_true_iff in Hfind.
  - reflexivity.
  - vm_compute. reflexivity.
  - intros dpi i _ Hno. apply build_dpi_no_entry.
    unfold has_dpi_entry in Hno. destruct (lookup_dpi _); [discriminate | reflexivity].
Qed.

(** ** Applying a configuration *)

Section Apply.

Lemma parse_button_name_range name b :
  parse_button_name name = Some b -> 0 <= b < 16.
Proof.
  intros Hfind. unfold parse_button_name in Hfind.
  apply table_find_In in Hfind.
  assert (Hall : forallb (fun e => is_byte e.2 && (e.2 <? 16)%Z) button_table = true)
    by (vm_compute; reflexivity).
  rewrite forallb_forall in Hall. apply (Hall _) in Hfind. simpl in Hfind.
  apply andb_prop in Hfind as [Hb Hlt]. apply is_byte_range in Hb.
  apply Z.ltb_lt in Hlt. lia.
Qed.

Lemma collect_button_ok acc entry :
  collected_ok acc -> collected_ok (collect_button acc entry).
Proof.
  destruct acc as [changes g], entry as [key action_str]. intros Hacc.
  unfold collect_button.
  destruct (parse_button_name key) as [b|] eqn:Hname; [|exact Hacc].
  destruct (parse_action action_str) as [ab0|] eqn:Hparse; [|exact Hacc].
  intros btn ab. cbn [fst snd].
  destruct (decide (b = btn)) as [->|Hne].
  - rewrite lookup_insert_eq. intros [= ->]. split.
    + eapply parse_button_name_range; eassumption.
    + exists action_str. split; [assumption|]. intros H90 Hcount.
      apply Z.eqb_eq in H90. apply Z.ltb_lt in Hcount. rewrite H90, Hcount. simpl.
      unfold register_multikey_action. apply lookup_insert_eq.
  - rewrite lookup_insert_ne by assumption. intros Hlook.
    destruct (Hacc btn ab Hlook) as [Hrange (a & Ha & Hreg)].
    split; [assumption|]. exists a. split; [assumption|]. intros H90 Hcount.
    destruct (_ && _).
    + unfold register_multikey_action. rewrite lookup_insert_ne by assumption. auto.
    + auto.
Qed.

Lemma collect_buttons_ok buttons g : collected_ok (collect_buttons buttons g).
Proof.
  unfold collect_buttons.
  assert (H0 : collected_ok (∅, g)) by (intros btn ab Hx; simpl in Hx; now rewrite lookup_empty in Hx).
  revert H0. generalize (∅ : gmap Z ActionBytes, g).
  induction buttons as [|e buttons IH]; intros acc Hacc; simpl; [assumption|].
  apply IH. now apply collect_button_ok.
Qed.

End Apply.

Lemma collected_registration
    (buttons : list (string * string)) (g : Registry) (btn : Z) (ab : ActionBytes) :
  (collect_buttons buttons g).1 !! btn = Some ab ->
  0 <= btn < 16 /\
  (ab !!! 0%nat = 0x90 -> 1 < ab !!! 3%nat ->
   exists keys,
     usable_registration (collect_buttons buttons g).2 btn = Some (ab !!! 1%nat, keys) /\
     collect_keys (collect_buttons buttons g).2 btn
       (ab !!! 1%nat) (ab !!! 2%nat) (ab !!! 3%nat) = (ab !!! 1%nat, keys) /\
     Z.of_nat (length keys) = ab !!! 3%nat /\
     keys !!! 0%nat = ab !!! 2%nat).
Proof.
  intros Hlook.
  destruct (collect_buttons_ok buttons g btn ab Hlook) as [Hrange (s & Hparse & Hreg)].
  split; [assumption|]. intros H90 Hcount. specialize (Hreg H90 Hcount).
  destruct (keyboard_code_of_parse s ab Hparse H90) as (Hab & Hlen & Hmulti).
  set (toks := split (to_lower s) "+") in *.
  set (keys := key_list toks) in *. set (mods := modifier_mask toks) in *.
  assert (Hfields : ab !!! 1%nat = mods /\ ab !!! 2%nat = hd 0%Z keys
                    /\ ab !!! 3%nat = (if (length keys <=? 1)%nat then 0%Z
                                       else Z.of_nat (length keys))).
  { rewrite Hab. unfold keyboard_code. repeat split. }
  destruct Hfields as (H1 & H2 & H3).
  destruct (Nat.leb_spec (length keys) 1) as [Hshort|Hlong]; [lia|].
  exists keys.
  assert (Husable : usable_registration (collect_buttons buttons g).2 btn = Some (mods, keys)).
  { unfold usable_registration. rewrite Hreg, Hmulti.
    destruct (Nat.leb_spec 2 (length keys)); [reflexivity | lia]. }
  split; [now rewrite H1|]. split.
  - unfold collect_keys. apply Z.ltb_lt in Hcount. rewrite Hcount, Hreg, Hmulti.
    destruct (Nat.leb_spec 2 (length keys)); [|lia].
    rewrite H1. destruct keys; [simpl in Hlong; lia | reflexivity].
  - rewrite H2, H3. split; [reflexivity|].
    destruct keys; [simpl in Hlong; lia | reflexivity].
Qed.

(** X14: after the button loop of [apply_config], every collected binding
    sits on a button index 0..15 and, when it is a keyboard code with a
    key count above 1, the registry holds for that button an action string
    [parse_multikey] reads as the code's modifier byte and a key list of
    exactly that many keys: the builder then works on the whole key list,
    whatever the registry held before and whichever entries overwrote each
    other. *)
Theorem collected_combinations_registered
    (buttons : list (string * string)) (g : Registry) (btn : Z) (ab : ActionBytes) :
  (collect_buttons buttons g).1 !! btn = Some ab ->
  0 <= btn < 16 /\
  (ab !!! 0%nat = 0x90 -> 1 < ab !!! 3%nat ->
   exists keys,
     usable_registration (collect_buttons buttons g).2 btn = Some (ab !!! 1%nat, keys) /\
     collect_keys (collect_buttons buttons g).2 btn
       (ab !!! 1%nat) (ab !!! 2%nat) (ab !!! 3%nat) = (ab !!! 1%nat, keys) /\
     Z.of_nat (length keys) = ab !!! 3%nat /\
     keys !!! 0%nat = ab !!! 2%nat).
Proof. apply collected_registration. Qed.

Lemma collected_combinations_registered_witness :
  (0 <= 0 < 16) /\
  ([0x90; 0x01; 0x04; 0x02] !!! 0%nat = 0x90 -> 1 < [0x90; 0x01; 0x04; 0x02] !!! 3%nat ->
   exists keys,
     usable_registration
       (collect_buttons [("button_1", "ctrl+a+b")]%string ∅).2 0 = Some (0x01, keys) /\
     collect_keys (collect_buttons [("button_1", "ctrl+a+b")]%string ∅).2 0
       0x01 0x04 0x02 = (0x01, keys) /\
     Z.of_nat (length keys) = 0x02 /\
     keys !!! 0%nat = 0x04).
Proof.
  assert (Hlook : (collect_buttons [("button_1", "ctrl+a+b")]%string ∅).1 !! 0
                  = Some [0x90; 0x01; 0x04; 0x02]) by (vm_compute; reflexivity).
  exact (collected_combinations_registered _ _ _ _ Hlook).
Defined.

Section ApplyOutcome.

Lemma elem_of_map_entries (changes : gmap Z ActionBytes) k ab :
  (k, ab) ∈ map_entries changes <-> changes !! k = Some ab /\ 0 <= k < 256.
Proof.
  unfold map_entries. rewrite list_elem_of_omap. split.
  - intros (j & Hj & Hf). apply elem_of_seqZ in Hj.
    destruct (changes !! j) eqn:Hl; [|discriminate]. injection Hf as <- <-.
    split; [assumption | lia].
  - intros [Hl Hk]. exists k. split; [apply elem_of_seqZ; lia|]. now rewrite Hl.
Qed.

Lemma no_modifier_bits : active_modifier_bits 0 = [].
Proof. reflexivity. Qed.

Lemma collected_entry_fits buttons g btn ab :
  (collect_buttons buttons g).1 !! btn = Some ab ->
  entry_fits (collect_buttons buttons g).2 (btn, ab)
  = if ab !!! 0%nat =? 0x90 then (binding_size ab <=? 3)%nat else true.
Proof.
  intros Hlook. destruct (collected_registration buttons g btn ab Hlook) as [Hrange Hreg].
  unfold entry_fits. destruct (Z.leb_spec 16 btn); [lia|].
  destruct (Z.eqb_spec (ab !!! 0%nat) 0x90) as [H90|]; [|reflexivity].
  unfold binding_size.
  destruct (Z.ltb_spec 1 (ab !!! 3%nat)) as [Hcount|Hcount].
  - destruct (Hreg H90 Hcount) as (keys & _ & -> & Hlen & _).
    unfold combination_size. rewrite <- Hlen, Nat2Z.id.
    destruct (Z.eqb_spec (ab !!! 1%nat) 0) as [->|]; [|reflexivity].
    rewrite no_modifier_bits. simpl.
    destruct (Nat.eqb_spec (length keys) 1) as [->|]; reflexivity.
  - unfold collect_keys. destruct (Z.ltb_spec 1 (ab !!! 3%nat)); [lia|].
    unfold combination_size.
    destruct (Z.eqb_spec (ab !!! 1%nat) 0) as [->|].
    + rewrite no_modifier_bits. destruct (_ =? 0); reflexivity.
    + destruct (_ =? 0); reflexivity.
Qed.

Lemma button_mapping_nonempty changes g pkts g' :
  build_button_mapping changes g = Some (pkts, g') -> pkts <> [] /\ g' = ∅.
Proof.
  unfold build_button_mapping. rewrite initial_buffer.
  destruct (run_entries _ _ _) as [[buf result]|] eqn:Hrun; [|discriminate].
  cbn [mbind option_bind]. intros [= <- <-]. split; [|reflexivity].
  assert (Hinit : length default_button_mapping = 8%nat /\ Forall len17 default_button_mapping)
    by (split; [reflexivity | each_packet; reflexivity]).
  destruct Hinit as [Hlen0 Hall0].
  destruct (run_entries_slot g _ 0 _ _ _ _ Hrun (map_entries_keys changes)
              ltac:(lia) Hlen0 Hall0) as (Hlen & _).
  intros Hnil. apply (f_equal length) in Hnil.
  rewrite length_app, length_fmap, Hlen in Hnil. simpl in Hnil. lia.
Qed.

End ApplyOutcome.

(** X15: [apply_config] gets a packet sequence from the button builder
    exactly when every collected keyboard binding stands for at most three
    modifiers and keys in total; the size is read off the four action bytes
    alone, because the button loop has registered every multi-key
    combination. *)
Theorem apply_config_returns (cfg : Config) (g : Registry) :
  is_Some (apply_config cfg g) <->
  (forall btn ab,
      (collect_buttons (cfg_buttons cfg) g).1 !! btn = Some ab ->
      ab !!! 0%nat = 0x90 -> (binding_size ab <= 3)%nat).
Proof.
  unfold apply_config.
  pose proof (collected_entry_fits (cfg_buttons cfg) g) as Hfits.
  pose proof (collected_registration (cfg_buttons cfg) g) as Hreg.
  destruct (collect_buttons (cfg_buttons cfg) g) as [changes g1]. cbn [fst snd] in *.
  destruct (decide (changes = ∅)) as [->|Hne].
  - cbn [mbind option_bind]. split; [|intros _; eexists; reflexivity].
    intros _ btn ab Hx. now rewrite lookup_empty in Hx.
  - pose proof (build_button_mapping_defined changes g1) as Hdef.
    destruct (build_button_mapping changes g1) as [[pkts g2]|]; cbn [mbind option_bind].
    + split; [|intros _; eexists; reflexivity]. intros _ btn ab Hlook H90.
      destruct Hdef as [Hdef _]. specialize (Hdef ltac:(eexists; reflexivity)).
      rewrite forallb_forall in Hdef.
      destruct (Hreg btn ab Hlook) as [Hrange _].
      assert (Hin : In (btn, ab) (map_entries changes)).
      { apply list_elem_of_In, elem_of_map_entries. split; [assumption | lia]. }
      specialize (Hdef _ Hin). rewrite (Hfits btn ab Hlook) in Hdef.
      apply Z.eqb_eq in H90. rewrite H90 in Hdef. now apply Nat.leb_le.
    + split; [intros [? Hx]; discriminate Hx|]. intros Hsize. exfalso.
      destruct Hdef as [_ Hdef].
      assert (Hsome : is_Some (@None (list Packet * Registry))); [|destruct Hsome as [? Hx]; discriminate Hx].
      apply Hdef. apply forallb_forall. intros [btn ab] Hin.
      apply list_elem_of_In, elem_of_map_entries in Hin as [Hlook _].
      rewrite (Hfits btn ab Hlook).
      destruct (Z.eqb_spec (ab !!! 0%nat) 0x90) as [H90|]; [|reflexivity].
      apply Nat.leb_le. exact (Hsize btn ab Hlook H90).
Qed.

(** X16: what [apply_config] sends, in this order and nothing else: the
    sequence the button builder returns for the collected bindings when
    there is at least one, the DPI sequence of the five values and flags
    when a value is non-zero, the LED sequence of the LED settings when
    they are set, the polling-rate packet when the rate is set.  That is
    one sequence for each configured section, none of them empty, every
    packet with a valid checksum; after a button sequence the registry is
    empty. *)
Theorem apply_config_sequences (cfg : Config) (g : Registry)
    (seqs : list (list Packet)) (g' : Registry) :
  apply_config cfg g = Some (seqs, g') ->
  (exists button_seq,
      (if decide ((collect_buttons (cfg_buttons cfg) g).1 = ∅)
       then button_seq = [] /\ g' = (collect_buttons (cfg_buttons cfg) g).2
       else exists pkts,
           build_button_mapping (collect_buttons (cfg_buttons cfg) g).1
                                (collect_buttons (cfg_buttons cfg) g).2
           = Some (pkts, g')
           /\ button_seq = [pkts])
      /\ seqs
         = button_seq
           ++ (if existsb (fun d => negb (dpi_value d =? 0)) (take 5 (cfg_dpi cfg))
               then [build_dpi_packets
                       {| values := dpi_value <$> take 5 (cfg_dpi cfg);
                          enabled := dpi_enabled <$> take 5 (cfg_dpi cfg) |}]
               else [])
           ++ (if led_set (cfg_led cfg)
               then [build_led_packets (led_mode (cfg_led cfg)) (led_color (cfg_led cfg))
                       (led_brightness (cfg_led cfg)) (led_speed (cfg_led cfg))]
               else [])
           ++ (if mouse_set (cfg_mouse cfg)
               then [[build_polling_rate_packet (polling_rate (cfg_mouse cfg))]]
               else []))
  /\ length seqs = configured_sections cfg (collect_buttons (cfg_buttons cfg) g).1
  /\ Forall (fun pkts => pkts <> [] /\ Forall checksum_ok pkts) seqs
  /\ ((collect_buttons (cfg_buttons cfg) g).1 <> ∅ -> g' = ∅).
Proof.
  unfold apply_config, configured_sections.
  destruct (collect_buttons (cfg_buttons cfg) g) as [changes g1]. cbn [fst snd].
  set (any_dpi := existsb _ _). set (dpi := Build_DpiSettings _ _).
  assert (Hdpi : build_dpi_packets dpi <> [] /\ Forall checksum_ok (build_dpi_packets dpi)).
  { split; [|apply dpi_packets_ok]. unfold build_dpi_packets.
    intros Hnil. apply app_eq_nil in Hnil as [_ Hnil]. discriminate Hnil. }
  assert (Hled : forall m c b s, build_led_packets m c b s <> []
                                 /\ Forall checksum_ok (build_led_packets m c b s)).
  { intros m c b s. split; [|apply led_packets_ok].
    destruct m; unfold build_led_packets; cbv zeta; discriminate. }
  assert (Hpoll : forall hz, [build_polling_rate_packet hz] <> []
                             /\ Forall checksum_ok [build_polling_rate_packet hz]).
  { intros hz. split; [discriminate|]. apply Forall_cons_2; [apply polling_packet_ok | apply Forall_nil_2]. }
  assert (Htail : forall (bseq : list (list Packet)) n,
             length bseq = n ->
             Forall (fun pkts => pkts <> [] /\ Forall checksum_ok pkts) bseq ->
             let rest := (if any_dpi then [build_dpi_packets dpi] else [])
               ++ (if led_set (cfg_led cfg)
                   then [build_led_packets (led_mode (cfg_led cfg)) (led_color (cfg_led cfg))
                           (led_brightness (cfg_led cfg)) (led_speed (cfg_led cfg))]
                   else [])
               ++ (if mouse_set (cfg_mouse cfg)
                   then [[build_polling_rate_packet (polling_rate (cfg_mouse cfg))]]
                   else []) in
             length (bseq ++ rest)
             = (n + (if any_dpi then 1 else 0) + (if led_set (cfg_led cfg) then 1 else 0)
                + (if mouse_set (cfg_mouse cfg) then 1 else 0))%nat
             /\ Forall (fun pkts => pkts <> [] /\ Forall checksum_ok pkts) (bseq ++ rest)).
  { intros bseq n Hn Hb rest. subst rest. split.
    - rewrite !length_app, Hn.
      destruct any_dpi, (led_set (cfg_led cfg)), (mouse_set (cfg_mouse cfg)); simpl; lia.
    - repeat (apply Forall_app; split); [assumption| | |].
      + destruct any_dpi; [apply Forall_cons_2; [exact Hdpi | apply Forall_nil_2] | apply Forall_nil_2].
      + destruct (led_set _); [apply Forall_cons_2; [apply Hled | apply Forall_nil_2] | apply Forall_nil_2].
      + destruct (mouse_set _); [apply Forall_cons_2; [apply Hpoll | apply Forall_nil_2] | apply Forall_nil_2]. }
  destruct (decide (changes = ∅)) as [->|Hne].
  - cbn [mbind option_bind]. intros [= <- <-].
    destruct (Htail [] 0%nat eq_refl (Forall_nil_2 _)) as [Hlen Hall].
    split; [exists []; split; [split|]; reflexivity|].
    split; [exact Hlen|]. split; [exact Hall|]. intros Hx. now contradiction Hx.
  - destruct (build_button_mapping changes g1) as [[pkts g2]|] eqn:Hbuild;
      cbn [mbind option_bind]; [|discriminate].
    intros [= <- <-].
    destruct (button_mapping_nonempty _ _ _ _ Hbuild) as [Hnonempty ->].
    pose proof (button_mapping_ok _ _ _ _ Hbuild) as Hok.
    destruct (Htail [pkts] 1%nat eq_refl
                (Forall_cons_2 _ _ _ (conj Hnonempty Hok) (Forall_nil_2 _))) as [Hlen Hall].
    split; [exists [pkts]; split; [exists pkts; split|]; reflexivity|].
    split; [exact Hlen|]. split; [exact Hall|]. reflexivity.
Qed.

Lemma apply_config_sequences_witness :
  exists seqs,
    apply_config sample_config ∅ = Some (seqs, ∅)
    /\ length seqs = 4%nat
    /\ Forall (fun pkts => pkts <> [] /\ Forall checksum_ok pkts) seqs.
Proof.
  assert (Hrun : exists seqs, apply_config sample_config ∅ = Some (seqs, ∅))
    by (vm_compute; eexists; reflexivity).
  destruct Hrun as [seqs Hrun]. exists seqs.
  destruct (apply_config_sequences _ _ _ _ Hrun) as (_ & Hlen & Hall & _).
  split; [exact Hrun|]. split; [|exact Hall].
  rewrite Hlen. vm_compute. reflexivity.
Defined.

(** X17: the DPI sequence is sent only when one of the five values is
    non-zero: a configuration that sets nothing but enable flags sends what
    it would send with every level enabled, so the flags are dropped. *)
Theorem dpi_flags_without_values_dropped (cfg : Config) (g : Registry) :
  Forall (fun d => dpi_value d = 0) (take 5 (cfg_dpi cfg)) ->
  apply_config cfg g = apply_config (with_all_enabled cfg) g.
Proof.
  intros Hzero. unfold apply_config, with_all_enabled.
  cbn [cfg_buttons cfg_dpi cfg_led cfg_mouse].
  destruct (collect_buttons (cfg_buttons cfg) g) as [changes g1].
  assert (Hany : forall l : list DpiConfig,
             Forall (fun d => dpi_value d = 0) l ->
             existsb (fun d => negb (dpi_value d =? 0)) l = false).
  { induction 1 as [|d l Hd _ IH]; [reflexivity|]. simpl. now rewrite Hd, IH. }
  rewrite (Hany _ Hzero).
  rewrite <- fmap_take. rewrite Hany; [reflexivity|].
  apply Forall_fmap. eapply Forall_impl; [exact Hzero|]. now intros d Hd.
Qed.

Lemma dpi_flags_without_values_dropped_witness :
  Forall (fun d => dpi_value d = 0) (take 5 (cfg_dpi flags_only_config))
  /\ apply_config flags_only_config ∅ = apply_config (with_all_enabled flags_only_config) ∅
  /\ apply_config flags_only_config ∅ = Some ([], ∅).
Proof.
  assert (Hzero : Forall (fun d => dpi_value d = 0) (take 5 (cfg_dpi flags_only_config)))
    by (repeat (apply Forall_cons_2 || apply Forall_nil_2); reflexivity).
  split; [exact Hzero|]. split.
  - exact (dpi_flags_without_values_dropped flags_only_config ∅ Hzero).
  - vm_compute. reflexivity.
Defined.

(** ** Colours *)

Open Scope string_scope.

Section Colours.

Lemma hex_digit_range c d : hex_digit_of c = Some d -> (0 <= d < 16)%Z.
Proof.
  unfold hex_digit_of. cbv zeta.
  repeat match goal with
         | |- context [(?a <=? ?b)%nat] => destruct (Nat.leb_spec a b)
         end; simpl; intros [= <-]; lia.
Qed.

Lemma hex_digit_plain c d :
  hex_digit_of c = Some d ->
  isspace c = false /\ c <> "-"%char /\ c <> "+"%char
  /\ Ascii.eqb c "x" = false /\ Ascii.eqb c "X" = false /\ c <> "#"%char.
Proof.
  destruct c as [[] [] [] [] [] [] [] []]; intros H; vm_compute in H;
    try discriminate H; repeat split; discriminate.
Qed.

Lemma unsigned_head c rest :
  c <> "-"%char -> c <> "+"%char ->
  match String c rest with
  | String "-"%char r => (true, r)
  | String "+"%char r => (false, r)
  | _ => (false, String c rest)
  end = (false, String c rest).
Proof.
  destruct c as [[] [] [] [] [] [] [] []]; intros H1 H2;
    try reflexivity; congruence.
Qed.

Lemma read_hex_bound s : forall acc,
  (0 <= acc)%Z ->
  (0 <= read_hex_digits acc s < (acc + 1) * 16 ^ Z.of_nat (String.length s))%Z.
Proof.
  induction s as [|c s IH]; intros acc Hacc.
  - simpl. lia.
  - cbn [read_hex_digits String.length]. rewrite Nat2Z.inj_succ, Z.pow_succ_r by lia.
    destruct (hex_digit_of c) as [d|] eqn:Hd.
    + apply hex_digit_range in Hd.
      specialize (IH (16 * acc + d)%Z ltac:(lia)).
      assert (0 < 16 ^ Z.of_nat (String.length s))%Z by (apply Z.pow_pos_nonneg; lia).
      nia.
    + assert (0 < 16 ^ Z.of_nat (String.length s))%Z by (apply Z.pow_pos_nonneg; lia).
      nia.
Qed.

(** [stoul16] on a text that starts with a hex digit. *)
Lemma stoul16_hex_head c d rest :
  hex_digit_of c = Some d ->
  (String.length rest <= 15)%nat ->
  exists s, skip_hex_prefix (String c rest) = s
    /\ (String.length s <= S (String.length rest))%nat
    /\ stoul16 (String c rest) = Some (read_hex_digits 0 s).
Proof.
  intros Hd Hlen. destruct (hex_digit_plain c d Hd) as (Hsp & Hm & Hp & _).
  unfold stoul16. cbn [skip_space]. rewrite Hsp. rewrite (unsigned_head c rest Hm Hp).
  set (s := skip_hex_prefix (String c rest)).
  assert (Hs : (s = String c rest)
               \/ (exists x d1 r1 v1, rest = String x (String d1 r1)
                                      /\ hex_digit_of d1 = Some v1 /\ s = String d1 r1)).
  { subst s. unfold skip_hex_prefix.
    destruct c as [[] [] [] [] [] [] [] []]; try (left; reflexivity).
    destruct rest as [|x [|d1 r1]]; try (left; reflexivity).
    destruct (Ascii.eqb x "x" || Ascii.eqb x "X"); [|left; reflexivity].
    destruct (hex_digit_of d1) as [v1|] eqn:Hd1; [|left; reflexivity].
    right. exists x, d1, r1, v1. auto. }
  exists s. split; [reflexivity|].
  assert (Hshort : (String.length s <= S (String.length rest))%nat).
  { destruct Hs as [->|(x & d1 & r1 & v1 & -> & _ & ->)]; simpl; lia. }
  split; [exact Hshort|].
  assert (Hhead : exists c1 v1 r1, s = String c1 r1 /\ hex_digit_of c1 = Some v1).
  { destruct Hs as [->|(x & d1 & r1 & v1 & -> & Hv1 & ->)]; eauto. }
  destruct Hhead as (c1 & v1 & r1 & Hs1 & Hv1).
  pose proof (read_hex_bound s 0%Z ltac:(lia)) as Hbound.
  assert (Hpow : (16 ^ Z.of_nat (String.length s) <= 16 ^ 16)%Z)
    by (apply Z.pow_le_mono_r; lia).
  rewrite Hs1 in *. rewrite Hv1.
  destruct (Z.leb_spec (read_hex_digits 0 (String c1 r1)) 18446744073709551615);
    [reflexivity|].
  change (16 ^ 16)%Z with 18446744073709551616%Z in Hpow. lia.
Qed.

Lemma parse_color_plain c rest :
  c <> "#"%char ->
  parse_color (String c rest)
  = if (String.length (String c rest) =? 6)%nat
    then match stoul16 (String c rest) with
         | Some v => Some (u32 v)
         | None => None
         end
    else None.
Proof.
  destruct c as [[] [] [] [] [] [] [] []]; intros H; try reflexivity; congruence.
Qed.

Lemma parse_color_hash rest :
  parse_color (String "#" rest)
  = if (String.length rest =? 6)%nat
    then match stoul16 rest with
         | Some v => Some (u32 v)
         | None => None
         end
    else None.
Proof. reflexivity. Qed.

Lemma skip_hex_prefix_digits c x rest :
  Ascii.eqb x "x" = false -> Ascii.eqb x "X" = false ->
  skip_hex_prefix (String c (String x rest)) = String c (String x rest).
Proof.
  intros H1 H2. unfold skip_hex_prefix. rewrite H1, H2.
  destruct c as [[] [] [] [] [] [] [] []]; try reflexivity.
  destruct rest; reflexivity.
Qed.

Lemma u32_small v : (0 <= v < 4294967296)%Z -> u32 v = v.
Proof.
  intros Hv. unfold u32. change 0xFFFFFFFF%Z with (Z.ones 32).
  rewrite Z.land_ones by lia. apply Z.mod_small. exact Hv.
Qed.

End Colours.

(** X18: six hex digits, in either case and with or without a leading
    [#], are read as the 24-bit number they spell, whose red, green and
    blue bytes are the three digit pairs. *)
Theorem parse_color_six_digits (c5 c4 c3 c2 c1 c0 : ascii) (d5 d4 d3 d2 d1 d0 : Z) :
  hex_digit_of c5 = Some d5 -> hex_digit_of c4 = Some d4 ->
  hex_digit_of c3 = Some d3 -> hex_digit_of c2 = Some d2 ->
  hex_digit_of c1 = Some d1 -> hex_digit_of c0 = Some d0 ->
  let text := String c5 (String c4 (String c3 (String c2 (String c1 (String c0 ""))))) in
  let value := (((((d5 * 16 + d4) * 16 + d3) * 16 + d2) * 16 + d1) * 16 + d0)%Z in
  parse_color text = Some value
  /\ parse_color (String "#" text) = Some value
  /\ color_red value = (16 * d5 + d4)%Z
  /\ color_green value = (16 * d3 + d2)%Z
  /\ color_blue value = (16 * d1 + d0)%Z.
Proof.
  intros H5 H4 H3 H2 H1 H0 text value.
  pose proof (hex_digit_range _ _ H5). pose proof (hex_digit_range _ _ H4).
  pose proof (hex_digit_range _ _ H3). pose proof (hex_digit_range _ _ H2).
  pose proof (hex_digit_range _ _ H1). pose proof (hex_digit_range _ _ H0).
  destruct (hex_digit_plain _ _ H5) as (_ & _ & _ & _ & _ & Hhash).
  destruct (hex_digit_plain _ _ H4) as (_ & _ & _ & Hx & HX & _).
  assert (Hread : stoul16 text = Some value).
  { destruct (stoul16_hex_head c5 d5
                (String c4 (String c3 (String c2 (String c1 (String c0 "")))))
                H5 ltac:(simpl; lia)) as (s & Hs & _ & Hstoul).
    fold text in Hs, Hstoul. rewrite Hstoul, <- Hs. unfold text.
    rewrite (skip_hex_prefix_digits c5 c4 _ Hx HX).
    cbn [read_hex_digits]. rewrite H5, H4, H3, H2, H1, H0.
    f_equal. unfold value. lia. }
  assert (Hsmall : (0 <= value < 16777216)%Z) by (unfold value; lia).
  assert (Hplain : parse_color text = Some value).
  { unfold text at 1. rewrite (parse_color_plain c5 _ Hhash). fold text.
    change (String.length text) with 6%nat. cbn [Nat.eqb].
    rewrite Hread. f_equal. apply u32_small. lia. }
  split; [exact Hplain|]. split.
  - rewrite parse_color_hash.
    change (String.length text) with 6%nat. cbn [Nat.eqb].
    rewrite Hread. f_equal. apply u32_small. lia.
  - unfold color_red, color_green, color_blue, value.
    repeat split; Z.div_mod_to_equations; lia.
Qed.

Lemma parse_color_six_digits_witness :
  parse_color "ff8000" = Some 0xff8000%Z
  /\ parse_color "#ff8000" = Some 0xff8000%Z
  /\ color_red 0xff8000 = 255%Z
  /\ color_green 0xff8000 = 128%Z
  /\ color_blue 0xff8000 = 0%Z.
Proof.
  exact (parse_color_six_digits "f" "f" "8" "0" "0" "0" 15 15 8 0 0 0
           eq_refl eq_refl eq_refl eq_refl eq_refl eq_refl).
Defined.

(** X19: [parse_color] checks the length and the first character only: a
    hex digit followed by any five characters is accepted, as a value
    below 2^24. *)
Theorem parse_color_first_digit_suffices (c : ascii) (d : Z) (rest : string) :
  hex_digit_of c = Some d -> String.length rest = 5%nat ->
  exists value,
    parse_color (String c rest) = Some value
    /\ parse_color (String "#" (String c rest)) = Some value
    /\ (0 <= value < 16777216)%Z.
Proof.
  intros Hd Hlen.
  destruct (hex_digit_plain _ _ Hd) as (_ & _ & _ & _ & _ & Hhash).
  destruct (stoul16_hex_head c d rest Hd ltac:(lia)) as (s & _ & Hshort & Hstoul).
  pose proof (read_hex_bound s 0%Z ltac:(lia)) as Hbound.
  assert (Hpow : (16 ^ Z.of_nat (String.length s) <= 16 ^ 6)%Z)
    by (apply Z.pow_le_mono_r; lia).
  change (16 ^ 6)%Z with 16777216%Z in Hpow.
  exists (read_hex_digits 0 s).
  assert (Hplain : parse_color (String c rest) = Some (read_hex_digits 0 s)).
  { rewrite (parse_color_plain c _ Hhash).
    cbn [String.length]. rewrite Hlen. cbn [Nat.eqb].
    rewrite Hstoul. f_equal. apply u32_small. lia. }
  split; [exact Hplain|]. split; [|lia].
  rewrite parse_color_hash.
  cbn [String.length]. rewrite Hlen. cbn [Nat.eqb].
  rewrite Hstoul. f_equal. apply u32_small. lia.
Qed.

Lemma parse_color_first_digit_suffices_witness :
  exists value,
    parse_color "1zzzzz" = Some value
    /\ parse_color "#1zzzzz" = Some value
    /\ (0 <= value < 16777216)%Z.
Proof.
  exact (parse_color_first_digit_suffices "1" 1 "zzzzz" eq_refl eq_refl).
Defined.

(** ** Trimming *)

Section Trim.

Lemma find_first_last s i :
  find_first_not_of_ws s = Some i ->
  exists j, find_last_not_of_ws s = Some j /\ (i <= j)%nat.
Proof.
  revert i. induction s as [|c s IH]; intros i; simpl; [discriminate|].
  destruct (is_ws c) eqn:Hc.
  - destruct (find_first_not_of_ws s) as [i0|]; [|discriminate].
    intros [= <-]. destruct (IH i0 eq_refl) as (j & -> & Hij).
    exists (S j). split; [reflexivity | lia].
  - intros [= <-]. destruct (find_last_not_of_ws s) as [j|]; eexists; split; eauto; lia.
Qed.

Lemma trim_cons_ws c r : is_ws c = true -> trim (String c r) = trim r.
Proof.
  intros Hc. unfold trim. cbn [find_first_not_of_ws find_last_not_of_ws]. rewrite Hc.
  destruct (find_first_not_of_ws r) as [i|] eqn:Hi; [|reflexivity].
  destruct (find_first_last r i Hi) as (j & -> & Hij).
  cbn [substring]. f_equal.
Qed.

Lemma trim_cons_text c r : is_ws c = false -> trim (String c r) = String c (drop_back r).
Proof.
  intros Hc. unfold trim, drop_back. cbn [find_first_not_of_ws find_last_not_of_ws].
  rewrite Hc. destruct (find_last_not_of_ws r) as [j|].
  - replace (S j - 0 + 1)%nat with (S (S j)) by lia. reflexivity.
  - destruct r; reflexivity.
Qed.

Lemma drop_back_cons c r :
  drop_back (String c r)
  = match find_last_not_of_ws r with
    | Some _ => String c (drop_back r)
    | None => if is_ws c then "" else String c ""
    end.
Proof.
  unfold drop_back. cbn [find_last_not_of_ws].
  destruct (find_last_not_of_ws r) as [j|]; [reflexivity|].
  destruct (is_ws c); [reflexivity | destruct r; reflexivity].
Qed.

Lemma find_last_None s : find_last_not_of_ws s = None <-> blank s = true.
Proof.
  induction s as [|c s IH]; simpl; [tauto|].
  destruct (find_last_not_of_ws s) as [j|].
  - split; [discriminate|]. intros H. apply andb_prop in H as [_ H].
    apply IH in H. discriminate H.
  - destruct (is_ws c); simpl; [|split; discriminate].
    split; intros _; [now apply IH | reflexivity].
Qed.

Lemma drop_back_split s : exists post, s = drop_back s ++ post /\ blank post = true.
Proof.
  induction s as [|c s (post & Hs & Hpost)].
  - exists "". split; reflexivity.
  - rewrite drop_back_cons. destruct (find_last_not_of_ws s) as [j|] eqn:Hj.
    + exists post. split; [|assumption].
      change (String c s = String c (drop_back s ++ post)). f_equal. exact Hs.
    + apply find_last_None in Hj. destruct (is_ws c) eqn:Hc.
      * exists (String c s). split; [reflexivity|]. simpl. now rewrite Hc, Hj.
      * exists s. split; [reflexivity | assumption].
Qed.

Lemma ends_with_ws_cons c t :
  ends_with_ws (String c t) = match t with "" => is_ws c | _ => ends_with_ws t end.
Proof. destruct t; reflexivity. Qed.

Lemma drop_back_end s : ends_with_ws (drop_back s) = false.
Proof.
  induction s as [|c s IH]; [reflexivity|].
  rewrite drop_back_cons. destruct (find_last_not_of_ws s) as [j|] eqn:Hj.
  - rewrite ends_with_ws_cons. destruct (drop_back s) eqn:Hd; [|exact IH].
    exfalso. unfold drop_back in Hd. rewrite Hj in Hd.
    destruct s; [discriminate Hj | discriminate Hd].
  - destruct (is_ws c) eqn:Hc; [reflexivity|]. simpl. exact Hc.
Qed.

Lemma drop_back_fixed s : ends_with_ws s = false -> drop_back s = s.
Proof.
  induction s as [|c s IH]; [reflexivity|].
  rewrite ends_with_ws_cons, drop_back_cons. intros Hend.
  destruct s as [|c' s'].
  - simpl. now rewrite Hend.
  - specialize (IH Hend). destruct (find_last_not_of_ws (String c' s')) as [j|] eqn:Hj.
    + now rewrite IH.
    + exfalso. unfold drop_back in IH. rewrite Hj in IH. discriminate IH.
Qed.

Lemma trim_split s :
  exists pre post, s = pre ++ trim s ++ post /\ blank pre = true /\ blank post = true.
Proof.
  induction s as [|c s (pre & post & Hs & Hpre & Hpost)].
  - exists "", "". repeat split.
  - destruct (is_ws c) eqn:Hc.
    + rewrite trim_cons_ws by assumption. exists (String c pre), post.
      split; [|split; [simpl; now rewrite Hc | assumption]].
      change (String c s = String c (pre ++ trim s ++ post)). f_equal. exact Hs.
    + rewrite trim_cons_text by assumption.
      destruct (drop_back_split s) as (post' & Hs' & Hpost').
      exists "", post'. split; [|split; [reflexivity | assumption]].
      change (String c s = String c (drop_back s ++ post')). f_equal. exact Hs'.
Qed.

Lemma trim_ends s : starts_with_ws (trim s) = false /\ ends_with_ws (trim s) = false.
Proof.
  induction s as [|c s IH]; [split; reflexivity|].
  destruct (is_ws c) eqn:Hc.
  - now rewrite trim_cons_ws.
  - rewrite trim_cons_text by assumption. split; [exact Hc|].
    rewrite ends_with_ws_cons. destruct (drop_back s) eqn:Hd; [exact Hc|].
    rewrite <- Hd. apply drop_back_end.
Qed.

Lemma trim_fixed t :
  starts_with_ws t = false -> ends_with_ws t = false -> trim t = t.
Proof.
  destruct t as [|c r]; [reflexivity|]. simpl starts_with_ws. intros Hc Hend.
  rewrite trim_cons_text by assumption. f_equal.
  rewrite ends_with_ws_cons in Hend. destruct r as [|c' r']; [reflexivity|].
  now apply drop_back_fixed.
Qed.

End Trim.

(** X20: [trim] removes white space (space, tab, CR, LF) from both ends
    and nothing else: the text is a blank prefix, the result and a blank
    suffix; the result neither starts nor ends with white space, and a text
    that neither starts nor ends with white space is returned unchanged, so
    trimming twice is trimming once. *)
Theorem trim_strips_both_ends (s : string) :
  (exists pre post, s = pre ++ trim s ++ post /\ blank pre = true /\ blank post = true)
  /\ starts_with_ws (trim s) = false
  /\ ends_with_ws (trim s) = false
  /\ (starts_with_ws s = false -> ends_with_ws s = false -> trim s = s)
  /\ trim (trim s) = trim s.
Proof.
  destruct (trim_ends s) as [Hstart Hend].
  split; [apply trim_split|]. split; [exact Hstart|]. split; [exact Hend|].
  split; [apply trim_fixed|]. now apply trim_fixed.
Qed.

(** ** Splitting *)

Section Split.

Lemma append_snoc part c x : (part ++ String c "") ++ x = part ++ String c x.
Proof.
  induction part as [|a part IH]; [reflexivity|].
  change (String a ((part ++ String c "") ++ x) = String a (part ++ String c x)).
  f_equal. exact IH.
Qed.

Lemma append_empty_r s : s ++ "" = s.
Proof.
  induction s as [|a s IH]; [reflexivity|].
  change (String a (s ++ "") = String a s). f_equal. exact IH.
Qed.

Lemma has_char_append d a b : has_char d (a ++ b) = has_char d a || has_char d b.
Proof.
  induction a as [|x a IH]; [reflexivity|].
  change (has_char d (String x a ++ b)) with (Ascii.eqb x d || has_char d (a ++ b)).
  rewrite IH. simpl. now rewrite orb_assoc.
Qed.

Lemma snoc_not_empty part c : part ++ String c "" <> "".
Proof. destruct part; discriminate. Qed.

Lemma split_from_tokens d s : forall part,
  has_char d part = false ->
  Forall (token_ok d) (split_from part s d)
  /\ glue (split_from part s d) = part ++ remove_char d s.
Proof.
  induction s as [|c s IH]; intros part Hpart.
  - simpl. destruct (String.eqb_spec part "") as [->|Hne].
    + split; [apply Forall_nil_2 | reflexivity].
    + split; [apply Forall_cons_2; [split; assumption | apply Forall_nil_2]|].
      simpl. reflexivity.
  - cbn [split_from remove_char]. destruct (Ascii.eqb c d) eqn:Hc.
    + destruct (IH "" eq_refl) as [Hall Hcat].
      destruct (String.eqb_spec part "") as [->|Hne].
      * split; [exact Hall | exact Hcat].
      * split; [apply Forall_cons_2; [split; assumption | exact Hall]|].
        change (part ++ glue (split_from "" s d) = part ++ remove_char d s).
        now rewrite Hcat.
    + destruct (IH (part ++ String c "")) as [Hall Hcat].
      { rewrite has_char_append, Hpart. simpl. now rewrite Hc. }
      split; [exact Hall|]. rewrite Hcat. apply append_snoc.
Qed.

Lemma split_from_token d t : forall part rest,
  has_char d t = false ->
  split_from part (t ++ rest) d = split_from (part ++ t) rest d.
Proof.
  induction t as [|c t IH]; intros part rest Ht.
  - simpl. now rewrite append_empty_r.
  - simpl in Ht. apply orb_false_elim in Ht as [Hc Ht].
    change (String c t ++ rest) with (String c (t ++ rest)).
    cbn [split_from]. rewrite Hc, IH by assumption. now rewrite append_snoc.
Qed.

Lemma split_join_from d ts :
  Forall (token_ok d) ts -> split_from "" (join d ts) d = ts.
Proof.
  induction 1 as [|t ts [Hne Ht] Hts IH]; [reflexivity|].
  destruct ts as [|t2 ts'].
  - cbn [join]. rewrite <- (append_empty_r t) at 1.
    rewrite split_from_token by assumption.
    change ("" ++ t) with t. cbn [split_from].
    destruct (String.eqb_spec t ""); [contradiction | reflexivity].
  - change (join d (t :: t2 :: ts')) with (t ++ String d (join d (t2 :: ts'))).
    rewrite split_from_token by assumption.
    change ("" ++ t) with t. cbn [split_from]. rewrite Ascii.eqb_refl.
    destruct (String.eqb_spec t ""); [contradiction|]. now rewrite IH.
Qed.

End Split.

(** X21: the tokens [split] returns are never empty and never contain the
    delimiter, and together they are the text without its delimiters;
    tokens joined by the delimiter are split into the same tokens again. *)
Theorem split_tokens (s : string) (d : ascii) (ts : list string) :
  Forall (token_ok d) (split s d)
  /\ glue (split s d) = remove_char d s
  /\ (Forall (token_ok d) ts -> split (join d ts) d = ts).
Proof.
  destruct (split_from_tokens d s "" eq_refl) as [Hall Hcat].
  split; [exact Hall|]. split; [exact Hcat|]. apply split_join_from.
Qed.

Close Scope string_scope.

(** ** Reading a configuration file *)

Open Scope string_scope.

Section ParseInvariant.

Lemma is_ws_tolower c : is_ws (tolower c) = is_ws c.
Proof. destruct c as [[] [] [] [] [] [] [] []]; reflexivity. Qed.

Lemma starts_with_ws_lower s : starts_with_ws (to_lower s) = starts_with_ws s.
Proof. destruct s; [reflexivity|]. simpl. apply is_ws_tolower. Qed.

Lemma ends_with_ws_lower s : ends_with_ws (to_lower s) = ends_with_ws s.
Proof.
  induction s as [|c s IH]; [reflexivity|].
  change (to_lower (String c s)) with (String (tolower c) (to_lower s)).
  rewrite !ends_with_ws_cons, IH, is_ws_tolower. destruct s; reflexivity.
Qed.

Lemma key_normal k :
  to_lower (to_lower (trim k)) = to_lower (trim k)
  /\ trim (to_lower (trim k)) = to_lower (trim k).
Proof.
  split; [apply to_lower_idem|].
  destruct (trim_ends k) as [Hstart Hend].
  apply trim_fixed; [now rewrite starts_with_ws_lower | now rewrite ends_with_ws_lower].
Qed.

Lemma value_normal v : trim (trim v) = trim v.
Proof. destruct (trim_ends v). now apply trim_fixed. Qed.

Lemma map_set_head key value entries :
  exists e rest, map_set key value entries = e :: rest
    /\ (e.1 = key \/ exists tl, entries = e :: tl).
Proof.
  destruct entries as [|[k v] tl]; simpl.
  - eexists _, _. split; [reflexivity|]. now left.
  - destruct (String.compare key k); eexists _, _; (split; [reflexivity|]).
    + now left.
    + now left.
    + right. eexists. reflexivity.
Qed.

Lemma map_set_increasing key value entries :
  keys_increasing entries -> keys_increasing (map_set key value entries).
Proof.
  induction entries as [|[k v] tl IH]; intros Hinc.
  - simpl. auto.
  - cbn [map_set]. destruct (String.compare key k) eqn:Hcmp.
    + apply String.compare_eq_iff in Hcmp. subst k.
      destruct Hinc as [Hhd Htl]. split; assumption.
    + split; [exact Hcmp | exact Hinc].
    + destruct Hinc as [Hhd Htl]. specialize (IH Htl).
      split; [|exact IH].
      destruct (map_set_head key value tl) as (e & rest & Heq & Hcase). rewrite Heq.
      destruct Hcase as [Hkey|[tl' ->]].
      * unfold key_lt. simpl. rewrite Hkey, String.compare_antisym, Hcmp. reflexivity.
      * exact Hhd.
Qed.

Lemma map_set_Forall (P : string * string -> Prop) key value entries :
  P (key, value) -> Forall P entries -> Forall P (map_set key value entries).
Proof.
  intros Hnew. induction 1 as [|[k v] tl Hhd Htl IH]; simpl.
  - apply Forall_cons_2; [assumption | apply Forall_nil_2].
  - destruct (String.compare key k).
    + apply Forall_cons_2; assumption.
    + apply Forall_cons_2; [assumption|]. apply Forall_cons_2; assumption.
    + apply Forall_cons_2; assumption.
Qed.

Lemma u32_range v : (0 <= u32 v < 4294967296)%Z.
Proof.
  unfold u32. change 0xFFFFFFFF%Z with (Z.ones 32). rewrite Z.land_ones by lia.
  apply Z.mod_pos_bound. lia.
Qed.

Lemma parse_color_range s c : parse_color s = Some c -> (0 <= c < 4294967296)%Z.
Proof.
  unfold parse_color. destruct (_ =? 6)%nat; [|discriminate].
  destruct (stoul16 _); [|discriminate]. intros [= <-]. apply u32_range.
Qed.

Lemma u16_range v : (0 <= u16 v < 65536)%Z.
Proof. rewrite u16_mod. apply Z.mod_pos_bound. lia. Qed.

Lemma process_led_wf led key value lineno led' :
  process_led led key value lineno = inr led' ->
  (0 <= led_color led < 4294967296)%Z ->
  (0 <= led_brightness led <= 255)%Z ->
  (1 <= led_speed led <= 5)%Z ->
  (0 <= led_color led' < 4294967296)%Z
  /\ (0 <= led_brightness led' <= 255)%Z
  /\ (1 <= led_speed led' <= 5)%Z
  /\ led_set led' = led_set led.
Proof.
  unfold process_led. intros Hrun Hc Hb Hs.
  destruct (String.eqb key "mode").
  { destruct (parse_led_mode value); [|discriminate]. injection Hrun as <-. simpl. auto. }
  destruct (String.eqb key "color").
  { destruct (parse_color value) as [c|] eqn:Hcol; [|discriminate]. injection Hrun as <-.
    simpl. apply parse_color_range in Hcol. auto. }
  destruct (String.eqb key "brightness").
  { destruct (stoi value) as [b|]; [|discriminate]. injection Hrun as <-. simpl.
    rewrite u8_mod. rewrite Z.mod_small by lia. repeat split; try lia. }
  destruct (String.eqb key "speed").
  { destruct (stoi value) as [s|]; [|discriminate]. injection Hrun as <-. simpl.
    rewrite u8_mod. rewrite Z.mod_small by lia. repeat split; try lia. }
  injection Hrun as <-. auto.
Qed.

Lemma Forall_insert_slot (P : DpiConfig -> Prop) (l : list DpiConfig) i d :
  Forall P l -> P d -> Forall P (<[i := d]> l).
Proof. intros Hl Hd. now apply Forall_insert. Qed.

Lemma process_pair_wf cfg section key value lineno cfg' :
  config_wf cfg ->
  to_lower key = key -> trim key = key -> trim value = value ->
  process_pair cfg section key value lineno = inr cfg' ->
  config_wf cfg'.
Proof.
  intros Hwf Hk1 Hk2 Hv.
  pose proof Hwf as (Hlen & Hdpi & Hrate & Hunset & Hcol & Hbr & Hsp & Hinc & Hkeys).
  unfold process_pair.
  destruct (String.eqb section "dpi").
  { destruct (match_dpi_key "" key) as [slot|].
    - destruct (stoi value) as [v|]; [|discriminate]. intros [= <-].
      unfold config_wf, with_dpi. cbn [cfg_dpi cfg_buttons cfg_led cfg_mouse].
      rewrite length_insert. repeat split; try assumption; try lia.
      apply Forall_insert_slot; [assumption|]. simpl. apply u16_range.
    - destruct (match_dpi_key "_enable" key) as [slot|].
      + intros [= <-].
        unfold config_wf, with_dpi. cbn [cfg_dpi cfg_buttons cfg_led cfg_mouse].
        rewrite length_insert. repeat split; try assumption; try lia.
        apply Forall_insert_slot; [assumption|]. simpl.
        destruct (decide (slot < length (cfg_dpi cfg))%nat) as [Hin|Hout].
        * apply (Forall_lookup_total_1 _ _ slot) in Hdpi; [exact Hdpi | exact Hin].
        * rewrite list_lookup_total_alt, lookup_ge_None_2 by lia. simpl. lia.
      + intros [= <-]. exact Hwf. }
  destruct (String.eqb section "buttons").
  { intros [= <-]. unfold config_wf, with_buttons.
    cbn [cfg_dpi cfg_buttons cfg_led cfg_mouse].
    repeat split; try assumption; try lia.
    - now apply map_set_increasing.
    - apply map_set_Forall; [|assumption]. simpl. auto. }
  destruct (String.eqb section "mouse").
  { destruct (String.eqb key "polling_rate").
    - destruct (stoi value) as [r|]; [|discriminate]. intros [= <-].
      unfold config_wf, with_mouse. cbn [cfg_dpi cfg_buttons cfg_led cfg_mouse].
      pose proof (u16_range r).
      repeat split; try assumption; simpl; lia.
    - intros [= <-]. exact Hwf. }
  destruct (String.eqb section "led").
  { cbv zeta. destruct (process_led _ key value lineno) as [e|led'] eqn:Hled; [discriminate|].
    intros [= <-].
    apply process_led_wf in Hled; cbn [led_color led_brightness led_speed]; try assumption.
    destruct Hled as (Hc' & Hb' & Hs' & _).
    unfold config_wf, with_led. cbn [cfg_dpi cfg_buttons cfg_led cfg_mouse].
    repeat split; try assumption; try lia. }
  intros [= <-]. exact Hwf.
Qed.

Lemma process_line_wf st lineno raw st' :
  config_wf st.1 -> process_line st lineno raw = inr st' -> config_wf st'.1.
Proof.
  destruct st as [cfg section]. cbn [fst]. intros Hwf. unfold process_line. cbv zeta.
  destruct (trim raw) as [|c line] eqn:Hline; [now intros [= <-]|].
  destruct (Ascii.eqb c "#" || Ascii.eqb c ";"); [now intros [= <-]|].
  destruct (match_section _); [now intros [= <-]|].
  destruct (match_kv _) as [[k v]|]; [|now intros [= <-]].
  destruct (process_pair _ _ _ _ _) as [e|cfg'] eqn:Hpair; [discriminate|].
  intros [= <-]. cbn [fst].
  destruct (key_normal k) as [Hk1 Hk2].
  exact (process_pair_wf _ _ _ _ _ _ Hwf Hk1 Hk2 (value_normal v) Hpair).
Qed.

Lemma parse_from_wf lines : forall st lineno cfg,
  config_wf st.1 -> parse_from st lineno lines = inr cfg -> config_wf cfg.
Proof.
  induction lines as [|raw lines IH]; intros st lineno cfg Hwf; simpl.
  - now intros [= <-].
  - destruct (process_line st (S lineno) raw) as [e|st'] eqn:Hline; [discriminate|].
    apply IH. eapply process_line_wf; eassumption.
Qed.

Lemma default_config_wf : config_wf default_config.
Proof.
  unfold config_wf. simpl.
  repeat split; try lia; try (repeat (apply Forall_cons_2 || apply Forall_nil_2); simpl; lia).
Qed.

Lemma process_line_nothing cfg section lineno raw :
  assigns_nothing raw = true ->
  exists section', process_line (cfg, section) lineno raw = inr (cfg, section').
Proof.
  unfold assigns_nothing, process_line. cbv zeta.
  destruct (trim raw) as [|c line]; [intros _; eexists; reflexivity|].
  destruct (Ascii.eqb c "#" || Ascii.eqb c ";"); [intros _; eexists; reflexivity|].
  cbn [orb]. destruct (match_section (String c line)); [intros _; eexists; reflexivity|].
  destruct (match_kv _) as [[k v]|]; [intros Hx; discriminate Hx|].
  intros _; eexists; reflexivity.
Qed.

End ParseInvariant.

(** X22: whatever the lines of the file, a configuration
    [parse_config_file] returns has five DPI slots with values below 65536,
    a polling rate below 65536 (1000 unless set), a colour below 2^32, a
    brightness in 0..255 and a speed in 1..5, and button entries in
    strictly increasing key order whose keys are lower-case and trimmed
    and whose actions are trimmed. *)
Theorem parsed_config_wellformed (lines : list string) (cfg : Config) :
  parse_config_lines lines = inr cfg -> config_wf cfg.
Proof.
  unfold parse_config_lines. apply parse_from_wf. exact default_config_wf.
Qed.

Lemma parsed_config_wellformed_witness :
  config_wf
    {| cfg_profile := P1;
       cfg_dpi := [ {| dpi_value := 100; dpi_enabled := true |};
                    {| dpi_value := 0; dpi_enabled := true |};
                    {| dpi_value := 0; dpi_enabled := true |};
                    {| dpi_value := 0; dpi_enabled := true |};
                    {| dpi_value := 0; dpi_enabled := false |} ];
       cfg_buttons := [("button_1", "Ctrl+A"); ("button_left", "right")];
       cfg_led := {| led_mode := Steady; led_color := 0xff8000;
                     led_brightness := 255; led_speed := 1; led_set := true |};
       cfg_mouse := {| polling_rate := 500; mouse_set := true |} |}.
Proof.
  apply (parsed_config_wellformed
           ["# sample"; "[DPI]"; "dpi1 = 65636"; "dpi5_enable=0"; "";
            "[ Buttons ]"; "Button_Left = right"; " button_1=Ctrl+A";
            "[led]"; "mode=static"; "color=#FF8000"; "brightness=900"; "speed=-4";
            "[mouse]"; "polling_rate=500"]).
  vm_compute. reflexivity.
Defined.

(** X23: a file whose lines are all blank, comments, section headers or
    lines without an equals sign after a non-empty key assigns nothing:
    the result is the default configuration. *)
Theorem file_without_assignments (lines : list string) :
  Forall (fun raw => assigns_nothing raw = true) lines ->
  parse_config_lines lines = inr default_config.
Proof.
  unfold parse_config_lines. generalize 0%nat. generalize "" at 1.
  generalize default_config.
  induction lines as [|raw lines IH]; intros cfg section lineno Hall; [reflexivity|].
  apply Forall_cons in Hall as [Hraw Hall]. cbn [parse_from].
  destruct (process_line_nothing cfg section (S lineno) raw Hraw) as [section' ->].
  now apply IH.
Qed.

Lemma file_without_assignments_witness :
  parse_config_lines ["# comment"; ""; "  ; other"; "[dpi]"; "dpi1"; "=3200"]
  = inr default_config.
Proof.
  apply file_without_assignments.
  repeat (apply Forall_cons_2 || apply Forall_nil_2); vm_compute; reflexivity.
Defined.

(** X24: every assignment in the [[led]] section that is accepted marks
    the LED settings as set, whatever its key; [apply_config] then sends
    an LED sequence built from the settings, and a key other than mode,
    color, brightness and speed changes nothing else. *)
Theorem led_section_marks_set (cfg cfg' : Config) (key value : string) (lineno : nat) :
  process_pair cfg "led" key value lineno = inr cfg' ->
  led_set (cfg_led cfg') = true
  /\ (forall g seqs g', apply_config cfg' g = Some (seqs, g') ->
        build_led_packets (led_mode (cfg_led cfg')) (led_color (cfg_led cfg'))
          (led_brightness (cfg_led cfg')) (led_speed (cfg_led cfg')) ∈ seqs)
  /\ (key <> "mode" -> key <> "color" -> key <> "brightness" -> key <> "speed" ->
      cfg' = with_led cfg
               {| led_mode := led_mode (cfg_led cfg); led_color := led_color (cfg_led cfg);
                  led_brightness := led_brightness (cfg_led cfg);
                  led_speed := led_speed (cfg_led cfg); led_set := true |}).
Proof.
  intros Hpair. unfold process_pair in Hpair. cbn [String.eqb Ascii.eqb Bool.eqb] in Hpair.
  cbv zeta in Hpair.
  destruct (process_led _ key value lineno) as [e|led'] eqn:Hled; [discriminate|].
  injection Hpair as <-.
  assert (Hset : led_set led' = true).
  { unfold process_led in Hled.
    repeat match type of Hled with
           | (if ?c then _ else _) = _ => destruct c
           | match ?x with _ => _ end = _ => destruct x; [|discriminate Hled]
           end; injection Hled as <-; reflexivity. }
  split; [exact Hset|]. split.
  - intros g seqs g' Happly. unfold apply_config in Happly.
    cbn [with_led cfg_led cfg_buttons cfg_dpi cfg_mouse] in Happly.
    destruct (collect_buttons (cfg_buttons cfg) g) as [changes g1].
    rewrite Hset in Happly.
    destruct (match decide (changes = ∅) with left _ => _ | right _ => _ end)
      as [[bseq g2]|]; cbn [mbind option_bind] in Happly; [|discriminate].
    injection Happly as <- _.
    apply elem_of_app. right. apply elem_of_app. right. left.
  - intros H1 H2 H3 H4. unfold process_led in Hled.
    apply String.eqb_neq in H1, H2, H3, H4. rewrite H1, H2, H3, H4 in Hled.
    injection Hled as <-. reflexivity.
Qed.

Lemma led_section_marks_set_witness :
  led_set (cfg_led (with_led default_config
                      {| led_mode := Rainbow; led_color := 0x00ff00;
                         led_brightness := 0xff; led_speed := 0x03; led_set := true |})) = true.
Proof.
  assert (Hpair : process_pair default_config "led" "colour" "red" 7
                  = inr (with_led default_config
                           {| led_mode := Rainbow; led_color := 0x00ff00;
                              led_brightness := 0xff; led_speed := 0x03; led_set := true |}))
    by (vm_compute; reflexivity).
  exact (proj1 (led_section_marks_set _ _ _ _ _ Hpair)).
Defined.

Section DpiWrap.

Lemma match_dpi_key_slot suffix key slot :
  match_dpi_key suffix key = Some slot -> (slot < 5)%nat.
Proof.
  unfold match_dpi_key.
  destruct key as [|c1 [|c2 [|c3 [|c rest]]]]; try discriminate.
  destruct (_ && _); [|discriminate]. unfold dpi_digit. cbv zeta.
  destruct (Nat.leb_spec 49 (nat_of_ascii c)); [|discriminate].
  destruct (Nat.leb_spec (nat_of_ascii c) 53); [|discriminate].
  simpl. intros [= <-]. lia.
Qed.

End DpiWrap.

(** X25: a DPI value in the file is stored modulo 65536 before it is
    validated: for a number [n] that [std::stoi] reads, slot [dpiN] holds
    [n mod 65536] and nothing else changes; a configuration that was valid
    stays valid exactly when that remainder is 0 or a multiple of 100 from
    100 to 16000, whatever [n] itself is. *)
Theorem file_dpi_value_wraps (cfg : Config) (key text : string) (lineno slot : nat) (n : Z) :
  match_dpi_key "" key = Some slot -> stoi text = Some n ->
  (slot < length (cfg_dpi cfg))%nat ->
  exists cfg',
    process_pair cfg "dpi" key text lineno = inr cfg'
    /\ cfg' = with_dpi cfg
                (<[slot := {| dpi_value := (n mod 65536)%Z;
                              dpi_enabled := dpi_enabled (cfg_dpi cfg !!! slot) |}]>
                   (cfg_dpi cfg))
    /\ (validate_config cfg = None ->
        validate_config cfg' = None
        <-> (n mod 65536 = 0
             \/ exists k, 1 <= k <= 160 /\ n mod 65536 = 100 * k)%Z).
Proof.
  intros Hkey Htext Hslot. unfold process_pair.
  cbn [String.eqb Ascii.eqb Bool.eqb]. rewrite Hkey, Htext.
  rewrite u16_mod. eexists. split; [reflexivity|]. split; [reflexivity|].
  unfold with_dpi. intros Hvalid. apply validate_config_iff in Hvalid as (Hrate & Hdpi & Hbtn).
  rewrite validate_config_iff. cbn [cfg_dpi cfg_buttons cfg_mouse].
  apply match_dpi_key_slot in Hkey.
  rewrite take_insert_lt by lia.
  set (d := Build_DpiConfig _ _). split.
  - intros (_ & Hall & _).
    apply (Forall_lookup_total_1 _ _ slot) in Hall.
    + rewrite list_lookup_total_insert_eq in Hall by (rewrite length_take; lia).
      exact Hall.
    + rewrite length_insert, length_take. lia.
  - intros Hok. split; [assumption|]. split; [|assumption].
    apply Forall_insert; [assumption | exact Hok].
Qed.

Lemma file_dpi_value_wraps_witness :
  exists cfg',
    process_pair default_config "dpi" "dpi1" "65636" 3 = inr cfg'
    /\ dpi_value (cfg_dpi cfg' !!! 0%nat) = 100%Z
    /\ validate_config cfg' = None.
Proof.
  destruct (file_dpi_value_wraps default_config "dpi1" "65636" 3 0 65636
              eq_refl eq_refl ltac:(simpl; lia))
    as (cfg' & Hrun & Hdpi & Hok).
  exists cfg'. split; [exact Hrun|]. split; [rewrite Hdpi; reflexivity|].
  apply Hok; [reflexivity|]. right. exists 1%Z. split; [lia | reflexivity].
Defined.

Close Scope string_scope.

(** ** The configuration steps of [main] *)

Section Run.

Lemma not_commit_length (pkts : list Packet) :
  length pkts <> 2%nat -> pkts <> commit_sequence.
Proof. intros Hlen ->. now apply Hlen. Qed.

Lemma commit_packet_ok : checksum_ok commit_packet.
Proof. unfold commit_packet. apply seal_ok. len17_inserts. Qed.

Lemma button_sequence_ok changes g pkts g' :
  build_button_mapping changes g = Some (pkts, g') -> sequence_ok pkts.
Proof.
  intros Hbuild. split; [eapply button_mapping_ok; eassumption|].
  apply not_commit_length. revert Hbuild.
  unfold build_button_mapping. rewrite initial_buffer.
  destruct (run_entries _ _ _) as [[buf result]|] eqn:Hrun; [|discriminate].
  cbn [mbind option_bind]. intros [= <- _].
  assert (Hinit : length default_button_mapping = 8%nat /\ Forall len17 default_button_mapping)
    by (split; [reflexivity | each_packet; reflexivity]).
  destruct Hinit as [Hlen0 Hall0].
  destruct (run_entries_slot g _ 0 _ _ _ _ Hrun (map_entries_keys changes)
              ltac:(lia) Hlen0 Hall0) as (Hlen & _).
  rewrite length_app, length_fmap, Hlen. lia.
Qed.

Lemma dpi_sequence_ok dpi : sequence_ok (build_dpi_packets dpi).
Proof.
  split; [apply dpi_packets_ok|]. apply not_commit_length.
  rewrite build_dpi_closed. simpl. lia.
Qed.

Lemma led_sequence_ok mode color brightness speed :
  sequence_ok (build_led_packets mode color brightness speed).
Proof.
  split; [apply led_packets_ok|].
  destruct mode; unfold build_led_packets; cbv zeta;
    try (apply not_commit_length; simpl; lia).
  - intros Heq. apply (f_equal (hd [])) in Heq.
    unfold commit_sequence in Heq. cbn [hd] in Heq.
    apply (f_equal (fun p : Packet => p !!! 1%nat)) in Heq.
    rewrite seal_lookup_lt in Heq by lia.
    rewrite !list_lookup_total_insert_ne in Heq by lia.
    vm_compute in Heq. discriminate Heq.
  - intros Heq. vm_compute in Heq. discriminate Heq.
Qed.

Lemma polling_sequence_ok hz : sequence_ok [build_polling_rate_packet hz].
Proof.
  split; [|apply not_commit_length; simpl; lia].
  apply Forall_cons_2; [apply polling_packet_ok | apply Forall_nil_2].
Qed.

Lemma apply_config_all cfg g seqs g' :
  apply_config cfg g = Some (seqs, g') -> Forall sequence_ok seqs.
Proof.
  unfold apply_config.
  destruct (collect_buttons (cfg_buttons cfg) g) as [changes g1].
  assert (Htail : forall bseq : list (list Packet),
             Forall sequence_ok bseq ->
             Forall sequence_ok
               (bseq
                ++ (if existsb (fun d => negb (dpi_value d =? 0)) (take 5 (cfg_dpi cfg))
                    then [build_dpi_packets
                            {| values := dpi_value <$> take 5 (cfg_dpi cfg);
                               enabled := dpi_enabled <$> take 5 (cfg_dpi cfg) |}]
                    else [])
                ++ (if led_set (cfg_led cfg)
                    then [build_led_packets (led_mode (cfg_led cfg)) (led_color (cfg_led cfg))
                            (led_brightness (cfg_led cfg)) (led_speed (cfg_led cfg))]
                    else [])
                ++ (if mouse_set (cfg_mouse cfg)
                    then [[build_polling_rate_packet (polling_rate (cfg_mouse cfg))]]
                    else []))).
  { intros bseq Hb. repeat (apply Forall_app; split); [assumption| | |].
    - destruct (existsb _ _); [|apply Forall_nil_2].
      apply Forall_cons_2; [apply dpi_sequence_ok | apply Forall_nil_2].
    - destruct (led_set _); [|apply Forall_nil_2].
      apply Forall_cons_2; [apply led_sequence_ok | apply Forall_nil_2].
    - destruct (mouse_set _); [|apply Forall_nil_2].
      apply Forall_cons_2; [apply polling_sequence_ok | apply Forall_nil_2]. }
  destruct (decide (changes = ∅)) as [->|Hne].
  - cbn [mbind option_bind]. intros [= <- _]. exact (Htail [] (Forall_nil_2 _)).
  - destruct (build_button_mapping changes g1) as [[pkts g2]|] eqn:Hbuild;
      cbn [mbind option_bind]; [|discriminate].
    intros [= <- _].
    exact (Htail [pkts] (Forall_cons_2 _ _ _ (button_sequence_ok _ _ _ _ Hbuild)
                           (Forall_nil_2 _))).
Qed.

Lemma Forall_snoc_ok (sent : list (list Packet)) pkts :
  Forall sequence_ok sent -> sequence_ok pkts -> Forall sequence_ok (sent ++ [pkts]).
Proof.
  intros Hs Hp. apply Forall_app. split; [assumption|].
  apply Forall_cons_2; [assumption | apply Forall_nil_2].
Qed.

Lemma config_step_ok o :
  step_ok (match opt_config o with Some _ => true | None => false end) (config_step o).
Proof.
  intros sent g did p Hsent. unfold config_step.
  destruct (opt_config o) as [lines|].
  - destruct (parse_config_lines lines) as [e|cfg]; [now intros [= <-]|].
    cbv zeta. destruct (validate_config _); [now intros [= <-]|].
    destruct (apply_config _ g) as [[seqs g']|] eqn:Happly;
      cbn [mbind option_bind]; [|discriminate].
    intros [= <-]. split; [|split; [now rewrite orb_true_r | discriminate]].
    apply Forall_app. split; [assumption|]. eapply apply_config_all; eassumption.
  - intros [= <-]. split; [assumption|]. split; [now rewrite orb_false_r | reflexivity].
Qed.

Lemma dpi_step_ok o :
  step_ok (match opt_dpi o with [] => false | _ => true end) (dpi_step o).
Proof.
  intros sent g did p Hsent. unfold dpi_step.
  destruct (opt_dpi o) as [|a args].
  - intros [= <-]. split; [assumption|]. split; [now rewrite orb_false_r | reflexivity].
  - intros [= <-]. split; [|split; [now rewrite orb_true_r | discriminate]].
    apply Forall_snoc_ok; [assumption | apply dpi_sequence_ok].
Qed.

Lemma led_step_ok o : step_ok (negb (String.eqb (opt_led o) "")) (led_step o).
Proof.
  intros sent g did p Hsent. unfold led_step.
  destruct (String.eqb (opt_led o) "").
  - intros [= <-]. split; [assumption|]. split; [now rewrite orb_false_r | reflexivity].
  - destruct (inline_led_mode _); [|now intros [= <-]].
    intros [= <-]. split; [|split; [now rewrite orb_true_r | discriminate]].
    apply Forall_snoc_ok; [assumption | apply led_sequence_ok].
Qed.

Lemma button_step_ok o :
  step_ok (match opt_buttons o with [] => false | _ => true end) (button_step o).
Proof.
  intros sent g did p Hsent. unfold button_step.
  destruct (opt_buttons o) as [|a args].
  - intros [= <-]. split; [assumption|]. split; [now rewrite orb_false_r | reflexivity].
  - destruct (collect_inline _ _) as [[changes g1]|]; [|now intros [= <-]].
    destruct (build_button_mapping changes g1) as [[pkts g2]|] eqn:Hbuild;
      cbn [mbind option_bind]; [|discriminate].
    intros [= <-]. split; [|split; [now rewrite orb_true_r | discriminate]].
    apply Forall_snoc_ok; [assumption | eapply button_sequence_ok; eassumption].
Qed.

Lemma polling_step_ok o : step_ok (negb (opt_polling_rate o =? 0)) (polling_step o).
Proof.
  intros sent g did p Hsent. unfold polling_step.
  destruct (opt_polling_rate o =? 0).
  - intros [= <-]. split; [assumption|]. split; [now rewrite orb_false_r | reflexivity].
  - intros [= <-]. split; [|split; [now rewrite orb_true_r | discriminate]].
    apply Forall_snoc_ok; [assumption | apply polling_sequence_ok].
Qed.

Lemma and_then_ok requested flag p step p' :
  step_ok flag step -> progress_ok requested p ->
  and_then (Some p) step = Some p' -> progress_ok (requested || flag) p'.
Proof.
  intros Hstep Hp. destruct p as [sent g did|sent]; simpl.
  - destruct Hp as (Hsent & -> & Hnone). intros Hrun.
    specialize (Hstep sent g requested p' Hsent Hrun).
    destruct p' as [sent' g' did'|sent']; [|exact Hstep].
    destruct Hstep as (Hsent' & -> & Hsame). split; [assumption|]. split; [reflexivity|].
    intros Hreq. apply orb_false_elim in Hreq as [Hr Hf].
    rewrite (Hsame Hf). now apply Hnone.
  - intros [= <-]. exact Hp.
Qed.

Lemma and_then_None step : and_then None step = None.
Proof. reflexivity. Qed.

Lemma steps_ok o g p :
  and_then (and_then (and_then (and_then (config_step o [] g false)
    (dpi_step o)) (led_step o)) (button_step o)) (polling_step o) = Some p ->
  progress_ok (has_request o) p.
Proof.
  destruct (config_step o [] g false) as [p1|] eqn:H1; [|discriminate].
  destruct (and_then (Some p1) (dpi_step o)) as [p2|] eqn:H2; [|discriminate].
  destruct (and_then (Some p2) (led_step o)) as [p3|] eqn:H3; [|discriminate].
  destruct (and_then (Some p3) (button_step o)) as [p4|] eqn:H4; [|discriminate].
  intros H5.
  assert (Hp1 : progress_ok (match opt_config o with Some _ => true | None => false end) p1).
  { pose proof (config_step_ok o [] g false p1 (Forall_nil_2 _) H1) as Hs.
    destruct p1 as [sent1 g1 did1|sent1]; [|exact Hs].
    destruct Hs as (Hs & -> & Hsame). split; [assumption|]. split; [reflexivity|]. exact Hsame. }
  pose proof (and_then_ok _ _ _ _ _ (dpi_step_ok o) Hp1 H2) as Hp2.
  pose proof (and_then_ok _ _ _ _ _ (led_step_ok o) Hp2 H3) as Hp3.
  pose proof (and_then_ok _ _ _ _ _ (button_step_ok o) Hp3 H4) as Hp4.
  exact (and_then_ok _ _ _ _ _ (polling_step_ok o) Hp4 H5).
Qed.

Lemma sequence_ok_not_commit (sent : list (list Packet)) :
  Forall sequence_ok sent -> commit_sequence ∉ sent.
Proof.
  intros Hall Hin. rewrite Forall_forall in Hall.
  destruct (Hall _ Hin) as [_ Hne]. now apply Hne.
Qed.

Lemma sequence_ok_checksums (sent : list (list Packet)) :
  Forall sequence_ok sent -> Forall (Forall checksum_ok) sent.
Proof. intros Hall. eapply Forall_impl; [exact Hall|]. now intros pkts [Hok _]. Qed.

End Run.

(** X26: the configuration steps of [main] end with the commit sequence
    (the commit packet twice) exactly when an option asked for something
    and no step failed; when a step fails (exit code 1) no commit follows
    what the earlier steps have sent; without any request nothing is sent.
    No builder ever produces the commit sequence, and every packet sent has
    a valid checksum. *)
Theorem configure_commit (o : Options) (g : Registry)
    (sent : list (list Packet)) (code : Z) :
  configure o g = Some (sent, code) ->
  Forall (Forall checksum_ok) sent
  /\ ((code = 0 /\ has_request o = true
       /\ exists before, sent = before ++ [commit_sequence] /\ commit_sequence ∉ before)
      \/ (code = 0 /\ has_request o = false /\ sent = [])
      \/ (code = 1 /\ commit_sequence ∉ sent)).
Proof.
  unfold configure.
  destruct (and_then _ (polling_step o)) as [p|] eqn:Hrun; [|discriminate].
  apply steps_ok in Hrun. destruct p as [sent0 g0 did|sent0].
  - destruct Hrun as (Hsent & -> & Hnone). intros [= <- <-]. unfold commit_step.
    destruct (has_request o).
    + split.
      * apply Forall_app. split; [now apply sequence_ok_checksums|].
        apply Forall_cons_2; [|apply Forall_nil_2].
        apply Forall_cons_2; [apply commit_packet_ok|].
        apply Forall_cons_2; [apply commit_packet_ok | apply Forall_nil_2].
      * left. split; [reflexivity|]. split; [reflexivity|].
        exists sent0. split; [reflexivity | now apply sequence_ok_not_commit].
    + rewrite (Hnone eq_refl). split; [apply Forall_nil_2|].
      right. left. repeat split.
  - intros [= <- <-]. split; [now apply sequence_ok_checksums|].
    right. right. split; [reflexivity | now apply sequence_ok_not_commit].
Qed.

Lemma configure_commit_witness :
  exists sent,
    configure sample_options ∅ = Some (sent, 0)
    /\ Forall (Forall checksum_ok) sent
    /\ length sent = 5%nat
    /\ last sent = Some commit_sequence.
Proof.
  assert (Hrun : exists sent,
             configure sample_options ∅ = Some (sent, 0)
             /\ length sent = 5%nat /\ last sent = Some commit_sequence)
    by (vm_compute; eexists; repeat split).
  destruct Hrun as (sent & Hrun & Hlen & Hlast).
  exists sent. split; [exact Hrun|]. split; [|split; assumption].
  exact (proj1 (configure_commit _ _ _ _ Hrun)).
Defined.

(** X27: the [--profile] option is stored in the configuration and never
    read again: the run sends the same sequences and ends with the same
    exit code for either profile. *)
Theorem profile_is_ignored (o : Options) (profile : Profile) (g : Registry) :
  configure (with_opt_profile o profile) g = configure o g.
Proof.
  assert (Hstep : config_step (with_opt_profile o profile) [] g false
                  = config_step o [] g false).
  { unfold config_step, with_opt_profile. cbn [opt_config opt_profile].
    destruct (opt_config o) as [lines|]; [|reflexivity].
    destruct (parse_config_lines lines) as [e|cfg]; reflexivity. }
  unfold configure. rewrite Hstep. reflexivity.
Qed.

(** X28: an unknown [--led] mode ends the run after the steps before it:
    with [--dpi] arguments and no config file, the DPI sequence is sent,
    the exit code is 1 and nothing is committed. *)
Theorem bad_led_mode_after_dpi (o : Options) (g : Registry) :
  opt_config o = None -> opt_dpi o <> [] -> opt_led o <> ""%string ->
  inline_led_mode (opt_led o) = None ->
  configure o g = Some ([build_dpi_packets (inline_dpi (opt_dpi o))], 1).
Proof.
  intros Hcfg Hdpi Hled Hmode. unfold configure, config_step. rewrite Hcfg.
  cbn [and_then]. unfold dpi_step.
  destruct (opt_dpi o) as [|a args] eqn:Hargs; [contradiction|].
  cbn [and_then app]. unfold led_step.
  apply String.eqb_neq in Hled. rewrite Hled, Hmode. reflexivity.
Qed.

Lemma bad_led_mode_after_dpi_witness :
  configure failing_options ∅
  = Some ([build_dpi_packets (inline_dpi (opt_dpi failing_options))], 1).
Proof.
  apply bad_led_mode_after_dpi.
  - reflexivity.
  - discriminate.
  - discriminate.
  - vm_compute. reflexivity.
Defined.

(** ** The option loop *)

Open Scope string_scope.

Section OptionLoop.

Lemma prefix_append (a b : string) : String.prefix a (a ++ b) = true.
Proof.
  induction a as [|c a IH]; [destruct b; reflexivity|].
  change (String c a ++ b) with (String c (a ++ b)). cbn [String.prefix].
  destruct (ascii_dec c c); [exact IH | contradiction].
Qed.

End OptionLoop.

(** X29: what the option loop stores is in range: a [--dpi] argument
    gives a slot from 1 to 5 and one of the 160 accepted values, the number
    written (nothing wraps here, unlike in a config file); a
    [--polling-rate] argument gives 125, 250, 500 or 1000, for which the
    polling code times the rate is 1000; a [--button] name always carries
    the prefix [button_]. *)
Theorem option_values_in_range :
  (forall arg slot v, dpi_option arg = Some (slot, v) ->
     (1 <= slot <= 5)%Z /\ dpi_value_rejected v = false
     /\ exists slot_text value_text,
          break_at "=" arg = Some (slot_text, value_text)
          /\ stoi slot_text = Some slot /\ stoi value_text = Some v)
  /\ (forall arg r, polling_rate_option arg = Some r ->
       stoi arg = Some r
       /\ (r = 125 \/ r = 250 \/ r = 500 \/ r = 1000)%Z
       /\ (polling_code r * r = 1000)%Z)
  /\ (forall arg name action, button_option arg = Some (name, action) ->
       String.prefix "button_" name = true
       /\ exists bname, break_at "=" arg = Some (bname, action)
            /\ (name = bname \/ name = "button_" ++ bname)).
Proof.
  split; [|split].
  - intros arg slot v. unfold dpi_option.
    destruct (break_at "=" arg) as [[slot_text value_text]|]; [|discriminate].
    destruct (stoi slot_text) as [s|] eqn:Hs; [|discriminate].
    destruct (stoi value_text) as [val|] eqn:Hv; [|discriminate].
    destruct (Z.ltb_spec s 1); [discriminate|].
    destruct (Z.ltb_spec 5 s); [discriminate|]. cbn [orb].
    destruct (Z.ltb_spec val 100); [discriminate|].
    destruct (Z.ltb_spec 16000 val); [discriminate|]. cbn [orb].
    destruct (Z.eqb_spec (val mod 100) 0) as [Hmod|]; [|discriminate]. cbn [negb].
    intros [= <- <-]. rewrite u16_mod, Z.mod_small by lia.
    split; [lia|]. split.
    + unfold dpi_value_rejected.
      destruct (Z.ltb_spec val 100); [lia|].
      destruct (Z.ltb_spec 16000 val); [lia|].
      rewrite Hmod. reflexivity.
    + eauto.
  - intros arg r. unfold polling_rate_option.
    destruct (stoi arg) as [r0|]; [|discriminate].
    destruct (Z.eqb_spec r0 125) as [->|]; [intros [= <-]; vm_compute; auto|].
    destruct (Z.eqb_spec r0 250) as [->|]; [intros [= <-]; vm_compute; auto 6|].
    destruct (Z.eqb_spec r0 500) as [->|]; [intros [= <-]; vm_compute; auto 6|].
    destruct (Z.eqb_spec r0 1000) as [->|]; [intros [= <-]; vm_compute; auto 7|].
    discriminate.
  - intros arg name action. unfold button_option.
    destruct (break_at "=" arg) as [[bname act]|]; [|discriminate].
    destruct (String.prefix "button_" bname) eqn:Hp.
    + intros [= <- <-]. split; [exact Hp|]. eauto.
    + intros [= <- <-]. split; [apply prefix_append|]. eauto.
Qed.

Close Scope string_scope.

(** ** Printing and raw sending *)

Open Scope string_scope.

Section Raw.

Lemma nibble (d : Z) : (0 <= d < 16)%Z ->
  d = 0%Z \/ d = 1%Z \/ d = 2%Z \/ d = 3%Z \/ d = 4%Z \/ d = 5%Z \/ d = 6%Z \/ d = 7%Z \/
  d = 8%Z \/ d = 9%Z \/ d = 10%Z \/ d = 11%Z \/ d = 12%Z \/ d = 13%Z \/ d = 14%Z \/ d = 15%Z.
Proof. lia. Qed.

Lemma hex_char_digit (d : Z) : (0 <= d < 16)%Z ->
  hex_digit_of (hex_char d) = Some d /\ isspace (hex_char d) = false.
Proof.
  intros Hd.
  destruct (nibble d Hd)
    as [->|[->|[->|[->|[->|[->|[->|[->|[->|[->|[->|[->|[->|[->|[->| ->]]]]]]]]]]]]]]];
    split; reflexivity.
Qed.

Lemma byte_nibbles (b : Z) : (0 <= b < 256)%Z ->
  (0 <= b / 16 < 16)%Z /\ (0 <= b mod 16 < 16)%Z /\ (16 * (b / 16) + b mod 16 = b)%Z.
Proof. intros Hb. repeat split; Z.div_mod_to_equations; lia. Qed.

Lemma words_token (b : Z) (c : ascii) (rest : string) :
  (0 <= b < 256)%Z -> isspace c = true ->
  words_from "" (String (hex_char (b / 16)) (String (hex_char (b mod 16)) (String c rest)))
  = hex2 b :: words_from "" rest.
Proof.
  intros Hb Hc. destruct (byte_nibbles b Hb) as (Hhi & Hlo & _).
  destruct (hex_char_digit _ Hhi) as [_ Hs1]. destruct (hex_char_digit _ Hlo) as [_ Hs2].
  cbn [words_from]. rewrite Hs1. cbv [String.append]. cbn [words_from]. rewrite Hs2.
  cbv [String.append]. cbn [words_from]. rewrite Hc. reflexivity.
Qed.

Lemma stoul16_hex2 (b : Z) : (0 <= b < 256)%Z -> stoul16 (hex2 b) = Some b.
Proof.
  intros Hb. destruct (byte_nibbles b Hb) as (Hhi & Hlo & Hsum).
  destruct (hex_char_digit _ Hhi) as [Hd1 _]. destruct (hex_char_digit _ Hlo) as [Hd2 _].
  unfold hex2.
  destruct (stoul16_hex_head _ _ (String (hex_char (b mod 16)) "") Hd1 ltac:(simpl; lia))
    as (s & Hs & _ & ->).
  destruct (hex_digit_plain _ _ Hd2) as (_ & _ & _ & Hx & HX & _).
  rewrite (skip_hex_prefix_digits _ _ _ Hx HX) in Hs. subst s.
  cbn [read_hex_digits]. rewrite Hd1, Hd2. f_equal. lia.
Qed.

Lemma raw_fill_length tokens : forall k pkt pkt',
  raw_fill tokens k pkt = Some pkt' -> length pkt' = length pkt.
Proof.
  induction tokens as [|t tokens IH]; intros k pkt pkt'; simpl.
  - now intros [= <-].
  - destruct (k <? _)%nat; [|now intros [= <-]].
    destruct (stoul16 t) as [v|]; [|discriminate].
    intros Hrun. rewrite (IH _ _ _ Hrun). apply length_insert.
Qed.

Lemma raw_fill_untouched tokens : forall k pkt pkt' i,
  raw_fill tokens k pkt = Some pkt' ->
  (i < k \/ k + length tokens <= i)%nat -> pkt' !!! i = pkt !!! i.
Proof.
  induction tokens as [|t tokens IH]; intros k pkt pkt' i; simpl.
  - now intros [= <-].
  - destruct (k <? _)%nat; [|now intros [= <-]].
    destruct (stoul16 t) as [v|]; [|discriminate].
    intros Hrun Hi. rewrite (IH _ _ _ i Hrun) by lia.
    apply list_lookup_total_insert_ne. lia.
Qed.

Lemma seal_last (l : list Z) (a b : Z) :
  length l = 16%nat -> seal (l ++ [a]) = seal (l ++ [b]).
Proof.
  intros Hl. unfold seal.
  rewrite !compute_checksum_spec by (rewrite length_app; simpl; lia).
  rewrite !take_app_length' by (symmetry; exact Hl).
  rewrite !insert_app_r_alt by lia. rewrite Hl. reflexivity.
Qed.

End Raw.

(** X30: the packet of [--raw-send] always has 17 bytes and a valid
    checksum, and the bytes after the last token are 0.  The text
    [hexdump_packet] prints for a packet is read back as that packet with
    its checksum recomputed: as the packet itself when its checksum was
    valid. *)
Theorem raw_send_replays_hexdump (p : Packet) :
  length p = 17%nat -> Forall (fun b => (0 <= b < 256)%Z) p ->
  raw_send_packet (hexdump_packet p) = Some (seal p)
  /\ (checksum_ok p -> raw_send_packet (hexdump_packet p) = Some p)
  /\ (forall hex q, raw_send_packet hex = Some q ->
        checksum_ok q
        /\ forall i, (length (words hex) <= i < 16)%nat -> q !!! i = 0%Z).
Proof.
  intros Hlen Hbytes.
  assert (Hround : raw_send_packet (hexdump_packet p) = Some (seal p)).
  { explode_packet p.
    repeat match goal with
           | H : Forall _ (_ :: _) |- _ => apply Forall_cons in H as [? H]
           end.
    unfold raw_send_packet, words, hexdump_packet.
    change (map _ (seq 0 M913_PACKET_SIZE)) with [z; z0; z1; z2; z3; z4; z5; z6; z7; z8; z9;
                                                  z10; z11; z12; z13; z14; z15].
    cbn [hexdump_bytes]. unfold hex2. cbv [String.append].
    rewrite !words_token by (assumption || reflexivity).
    change (words_from "" "") with (@nil string).
    change (M913_PACKET_SIZE - 1)%nat with 16%nat.
    repeat (cbn [raw_fill Nat.ltb Nat.leb]; rewrite stoul16_hex2 by assumption).
    cbn [raw_fill Nat.ltb Nat.leb mbind option_bind].
    rewrite !u8_mod, !Z.mod_small by assumption.
    apply (f_equal Some).
    exact (seal_last [z; z0; z1; z2; z3; z4; z5; z6; z7; z8; z9; z10; z11; z12; z13; z14]
             0%Z z15 eq_refl). }
  split; [exact Hround|]. split.
  - intros (_ & H16 & _). rewrite Hround. f_equal. unfold seal.
    rewrite <- H16. apply list_insert_id. apply list_lookup_lookup_total_lt. lia.
  - intros hex q. unfold raw_send_packet.
    destruct (raw_fill (words hex) 0 zero_packet) as [pkt|] eqn:Hfill; [|discriminate].
    cbn [mbind option_bind]. intros [= <-].
    pose proof (raw_fill_length _ _ _ _ Hfill) as Hl.
    split; [apply seal_ok; rewrite Hl; reflexivity|].
    intros i Hi. rewrite seal_lookup_lt by lia.
    rewrite (raw_fill_untouched _ _ _ _ i Hfill) by lia.
    unfold zero_packet, M913_PACKET_SIZE. apply lookup_total_replicate_2. lia.
Qed.

Lemma raw_send_replays_hexdump_witness :
  raw_send_packet (hexdump_packet commit_packet) = Some commit_packet.
Proof.
  assert (Hlen : length commit_packet = 17%nat) by reflexivity.
  assert (Hvalue : commit_packet
                   = [8; 4; 0; 0; 0; 0; 0; 0; 0; 0; 0; 0; 0; 0; 0; 0; 73]%Z)
    by (vm_compute; reflexivity).
  assert (Hbytes : Forall (fun b => (0 <= b < 256)%Z) commit_packet)
    by (rewrite Hvalue; repeat (apply Forall_cons_2 || apply Forall_nil_2); lia).
  rewrite (proj1 (raw_send_replays_hexdump commit_packet Hlen Hbytes)).
  vm_compute. reflexivity.
Defined.

Close Scope string_scope.
